(** * squirrel: the storage engine of a chunked blob cache over SQLite

    A shallow embedding of the connection layer ([initConn], [initDatabase],
    [openKey], [createKey], [iterBlobs], [accessedKey]) and of
    [PinnedBlob.Reopen], with the properties of the specification that
    concern them.

    Conventions of the embedding.
    - Go's [int64] is [Z]; the places where the program adds or subtracts
      are written with [add64] and [sub64], which wrap around.
    - A Go [error] is [option Err], [None] being [nil].
    - A method on the connection is a function from the state behind the
      pointer to an outcome [Res]: a normal return with the new state, a
      panic, or the exhaustion of the fuel that bounds a [for] loop.
    - The SQLite engine is a state of tables together with a script of
      faults: each statement consumes one entry of the script, and an entry
      [Some code] makes the engine refuse that statement with that result
      code.  The empty script is an engine that refuses nothing.
    - The mutex of the cache is not modelled: the embedding is sequential. *)

From Stdlib Require Import ZArith List String Ascii Bool Lia.
From Stdlib Require Import Init.Byte.
Import ListNotations.
Local Open Scope string_scope.
Local Open Scope Z_scope.

Set Implicit Arguments.

(** ** Machine integers *)

Module Int64.

Definition min_int : Z := - 2 ^ 63.
Definition max_int : Z := 2 ^ 63 - 1.
Definition modulus : Z := 2 ^ 64.

Definition in_range (z : Z) : Prop := min_int <= z <= max_int.

(** The value of a two's complement 64-bit result. *)
Definition wrap (z : Z) : Z := (z - min_int) mod modulus + min_int.

End Int64.

Definition add64 (a b : Z) : Z := Int64.wrap (a + b).
Definition sub64 (a b : Z) : Z := Int64.wrap (a - b).

(** [rowid] is the program's name for an [int64] row identity. *)
Definition rowid := Z.

(** ** Errors and outcomes *)

(** A result code of the engine is an integer.  The engine reports
    extended result codes: the low byte is the primary code, the bits
    above it tell the case apart ([SQLITE_BUSY_SNAPSHOT] is
    [SQLITE_BUSY | (2<<8)]). *)
Definition ResultCode := Z.

Definition SQLITE_ERROR : ResultCode := 1.
Definition SQLITE_ABORT : ResultCode := 4.
Definition SQLITE_BUSY : ResultCode := 5.
Definition SQLITE_LOCKED : ResultCode := 6.
Definition SQLITE_IOERR : ResultCode := 10.
Definition SQLITE_FULL : ResultCode := 13.
Definition SQLITE_TOOBIG : ResultCode := 18.
Definition SQLITE_CONSTRAINT : ResultCode := 19.

Definition SQLITE_BUSY_RECOVERY : ResultCode :=
  Z.lor SQLITE_BUSY (Z.shiftl 1 8).
Definition SQLITE_BUSY_SNAPSHOT : ResultCode :=
  Z.lor SQLITE_BUSY (Z.shiftl 2 8).
Definition SQLITE_BUSY_TIMEOUT : ResultCode :=
  Z.lor SQLITE_BUSY (Z.shiftl 3 8).
Definition SQLITE_CONSTRAINT_PRIMARYKEY : ResultCode :=
  Z.lor SQLITE_CONSTRAINT (Z.shiftl 6 8).
Definition SQLITE_CONSTRAINT_UNIQUE : ResultCode :=
  Z.lor SQLITE_CONSTRAINT (Z.shiftl 8 8).

(** The primary result code of a code: its low byte. *)
Definition ToPrimary (code : ResultCode) : ResultCode := Z.land code 255.

(** The comparison of two codes, [==] on the integers: an extended code is
    not equal to its primary code. *)
Definition ResultCode_eqb (a b : ResultCode) : bool := a =? b.

(** The error values the program builds or passes on.  [ErrNotFound] is the
    package's sentinel; [ErrorsNew] is a value made by [errors.New] at the
    place of the call; [Errorf] is [fmt.Errorf(format, args...)] on string
    operands and a format without [%w], kept as the format and the
    operands of the call (its text is what [fmt] makes of them); [Wrapf]
    is [fmt.Errorf("<prefix>: %w", e)]; [SqliteError] is what the engine
    reports, with the code the engine gave. *)
Inductive Err : Type :=
| ErrNotFound
| ErrUnexpectedJournalMode (actual : string)
| ErrorsNew (msg : string)
| Errorf (format : string) (args : list string)
| Wrapf (prefix : string) (e : Err)
| SqliteError (code : ResultCode).

Definition error := option Err.

Definition Err_eq_dec (a b : Err) : {a = b} + {a <> b}.
Proof.
  decide equality;
    try apply string_dec; try apply (list_eq_dec string_dec);
    try apply Z.eq_dec.
Defined.

Definition Err_eqb (a b : Err) : bool :=
  if Err_eq_dec a b then true else false.

(** [err != nil] *)
Definition isErr (e : error) : bool :=
  match e with Some _ => true | None => false end.

(** [err != ErrNotFound], a comparison of interface values. *)
Definition neqErrNotFound (e : error) : bool :=
  match e with
  | Some e' => negb (Err_eqb e' ErrNotFound)
  | None => true
  end.

(** [errors.Is]: the target is met somewhere along the chain of wrapped
    errors. *)
Fixpoint errorsIs (e target : Err) : bool :=
  Err_eqb e target ||
  match e with
  | Wrapf _ e' => errorsIs e' target
  | _ => false
  end.

(** [sqlite.IsResultCode(err, code)]: the error is, or wraps, an engine
    error whose code is that code, the whole code being compared; [nil]
    is none. *)
Fixpoint ErrIsResultCode (e : Err) (code : ResultCode) : bool :=
  match e with
  | SqliteError c => ResultCode_eqb c code
  | Wrapf _ e' => ErrIsResultCode e' code
  | _ => false
  end.

Definition IsResultCode (e : error) (code : ResultCode) : bool :=
  match e with
  | Some e' => ErrIsResultCode e' code
  | None => false
  end.

Record valueKey : Type := mkValueKey { keyId : rowid; offset : Z }.

(** What a [panic] carries. *)
Inductive PanicValue : Type :=
| PanicString (msg : string)
| PanicError (e : Err)
| PanicKey (key : valueKey)
| PanicUnwrap.

Inductive Res (S A : Type) : Type :=
| Ret (a : A) (s : S)
| Panic (v : PanicValue)
| OutOfFuel.

Arguments Ret {S A} a s.
Arguments Panic {S A} v.
Arguments OutOfFuel {S A}.

Definition M (S A : Type) : Type := S -> Res S A.

Definition ret {S A} (a : A) : M S A := fun s => Ret a s.

Definition bind {S A B} (m : M S A) (k : A -> M S B) : M S B :=
  fun s =>
    match m s with
    | Ret a s' => k a s'
    | Panic v => Panic v
    | OutOfFuel => OutOfFuel
    end.

Definition panic {S A} (v : PanicValue) : M S A := fun _ => Panic v.

Definition get {S} : M S S := fun s => Ret s s.
Definition put {S} (s : S) : M S unit := fun _ => Ret tt s.
Definition modify {S} (f : S -> S) : M S unit := fun s => Ret tt (f s).

Declare Scope go_scope.
Delimit Scope go_scope with go.

Notation "x <- m ;; k" := (bind m (fun x => k))
  (at level 61, m at next level, right associativity) : go_scope.
Notation "' pat <- m ;; k" := (bind m (fun x => match x with pat => k end))
  (at level 61, pat pattern, m at next level, right associativity) : go_scope.
Notation "m ;;; k" := (bind m (fun _ => k))
  (at level 61, right associativity) : go_scope.

Local Open Scope go_scope.

(** [err = f(); if err != nil { return err }] followed by [k]. *)
Definition orReturn {S} (m : M S error) (k : M S error) : M S error :=
  e <- m ;; if isErr e then ret e else k.

(** The same with the error rewritten on the way out. *)
Definition orReturnWith {S} (f : Err -> Err) (m : M S error) (k : M S error)
  : M S error :=
  e <- m ;; match e with Some e' => ret (Some (f e')) | None => k end.

(** [g.Option[T]] of the generics package: a value and whether it is set. *)
Record Option (A : Type) : Type := mkOption { Ok : bool; Value : A }.

Definition Unwrap {S A} (o : Option A) : M S A :=
  if Ok o then ret (Value o) else panic PanicUnwrap.

(** ** The SQLite engine

    The tables the program's statements touch, as lists of rows in the
    order of insertion.  The schema script ([init.sql]) is not part of the
    sources under study; the columns are those the program's own statements
    name. *)

Record keyRow : Type := mkKeyRow {
  key_id : rowid;
  key : string;
  key_length : Z;
  last_used : Z;
  access_count : Z
}.

Record blobRow : Type := mkBlobRow {
  blob_id : rowid;
  blob : list byte
}.

Record valueRow : Type := mkValueRow {
  value_id : rowid;
  value_offset : Z;
  value_blob_id : rowid
}.

Record settingRow : Type := mkSettingRow {
  setting_name : string;
  setting_value : Z
}.

(** The statements the program prepares, with their bound arguments. *)
Inductive Stmt : Type :=
| SqlPragmaRecursiveTriggersOn
    (* pragma recursive_triggers=on *)
| SqlDeleteCapacity
    (* delete from setting where name='capacity' *)
| SqlInsertCapacity (cap : Z)
    (* insert into setting values ('capacity', ?) *)
| SqlSelectKey (k : string)
    (* select key_id, length from keys where key=? *)
| SqlInsertKey (k : string) (len : Z)
    (* insert into keys (key, length) values (?, ?) returning key_id *)
| SqlInsertZeroBlob (size : Z)
    (* insert into blobs (blob) values (zeroblob(?)) *)
| SqlInsertValue (vid : rowid) (off : Z) (bid : rowid)
    (* insert into "values" (value_id, offset, blob_id) values (?, ?, ?) *)
| SqlSelectBlobs (vid : rowid) (startOffset : Z)
    (* select offset, blob_id from "values" join blobs using (blob_id)
       where value_id=? and offset+length(blob) > ? order by offset *)
| SqlUpdateAccessed (kid : rowid)
    (* update keys set last_used=cast(unixepoch('subsec')*1e3 as integer),
       access_count=access_count+1 where key_id=? *)
| SqlBlobOpen (bid : rowid)
| SqlBlobReopen (bid : rowid).
    (* sqlite3_blob_open and sqlite3_blob_reopen, counted as statements for
       the fault script *)

(** The state behind a [*sqlite.Conn].  [now_ms] is the value the engine
    computes for [cast(unixepoch('subsec')*1e3 as integer)], the wall clock
    in milliseconds; [faults] is the script of refusals; [log] records the
    statements handed to the engine, oldest first. *)
Record sqlite_Conn : Type := mkConn {
  tbl_keys : list keyRow;
  tbl_blobs : list blobRow;
  tbl_values : list valueRow;
  tbl_setting : list settingRow;
  recursive_triggers : bool;
  lastInsertRowID : rowid;
  now_ms : Z;
  faults : list (option ResultCode);
  log : list Stmt
}.

Definition set_keys (ks : list keyRow) (c : sqlite_Conn) : sqlite_Conn :=
  mkConn ks (tbl_blobs c) (tbl_values c) (tbl_setting c)
         (recursive_triggers c) (lastInsertRowID c) (now_ms c) (faults c)
         (log c).

Definition set_blobs (bs : list blobRow) (c : sqlite_Conn) : sqlite_Conn :=
  mkConn (tbl_keys c) bs (tbl_values c) (tbl_setting c)
         (recursive_triggers c) (lastInsertRowID c) (now_ms c) (faults c)
         (log c).

Definition set_values (vs : list valueRow) (c : sqlite_Conn) : sqlite_Conn :=
  mkConn (tbl_keys c) (tbl_blobs c) vs (tbl_setting c)
         (recursive_triggers c) (lastInsertRowID c) (now_ms c) (faults c)
         (log c).

Definition set_setting (ss : list settingRow) (c : sqlite_Conn)
  : sqlite_Conn :=
  mkConn (tbl_keys c) (tbl_blobs c) (tbl_values c) ss
         (recursive_triggers c) (lastInsertRowID c) (now_ms c) (faults c)
         (log c).

Definition set_recursive_triggers (b : bool) (c : sqlite_Conn)
  : sqlite_Conn :=
  mkConn (tbl_keys c) (tbl_blobs c) (tbl_values c) (tbl_setting c)
         b (lastInsertRowID c) (now_ms c) (faults c) (log c).

Definition set_lastInsertRowID (r : rowid) (c : sqlite_Conn) : sqlite_Conn :=
  mkConn (tbl_keys c) (tbl_blobs c) (tbl_values c) (tbl_setting c)
         (recursive_triggers c) r (now_ms c) (faults c) (log c).

Definition set_faults (fs : list (option ResultCode)) (c : sqlite_Conn)
  : sqlite_Conn :=
  mkConn (tbl_keys c) (tbl_blobs c) (tbl_values c) (tbl_setting c)
         (recursive_triggers c) (lastInsertRowID c) (now_ms c) fs (log c).

Definition set_log (l : list Stmt) (c : sqlite_Conn) : sqlite_Conn :=
  mkConn (tbl_keys c) (tbl_blobs c) (tbl_values c) (tbl_setting c)
         (recursive_triggers c) (lastInsertRowID c) (now_ms c) (faults c) l.

(** A column of a result row. *)
Inductive SqlValue : Type :=
| VInt (z : Z)
| VText (s : string).

Definition Row := list SqlValue.

(** [stmt.ColumnInt64(i)] *)
Definition ColumnInt64 (r : Row) (i : nat) : Z :=
  match nth_error r i with
  | Some (VInt z) => z
  | _ => 0
  end.

(** The rowid the engine gives to a row inserted without one: one more than
    the largest in the table, and 1 in an empty table. *)
Definition nextRowid (ids : list rowid) : rowid :=
  match ids with
  | [] => 1
  | i :: rest => fold_right Z.max i rest + 1
  end.

(** [zeroblob(n)]: [n] zero bytes, none when [n] is not positive. *)
Definition zeroblob (n : Z) : list byte := repeat x00 (Z.to_nat n).

(** [length(blob)] *)
Definition blob_length (b : blobRow) : Z := Z.of_nat (List.length (blob b)).

(** Insertion of a row into a list ordered by [offset], after the rows of
    an equal offset: the [order by offset] of the one query that has it. *)
Fixpoint insertByOffset (r : valueRow) (l : list valueRow) : list valueRow :=
  match l with
  | [] => [r]
  | x :: l' =>
      if value_offset r <? value_offset x then r :: l
      else x :: insertByOffset r l'
  end.

Definition orderByOffset (l : list valueRow) : list valueRow :=
  fold_left (fun acc r => insertByOffset r acc) l [].

(** The rows of ["values" join blobs using (blob_id)] that the query of
    [iterBlobs] selects.  The sum [offset+length(blob)] is the engine's,
    on integers. *)
Definition selectBlobs (vid : rowid) (startOffset : Z) (c : sqlite_Conn)
  : list valueRow :=
  orderByOffset
    (flat_map
       (fun v =>
          map (fun _ => v)
              (filter (fun b => (blob_id b =? value_blob_id v)
                                && (value_offset v + blob_length b >? startOffset))
                      (tbl_blobs c)))
       (filter (fun v => value_id v =? vid) (tbl_values c))).

Definition isCapacity (s : settingRow) : bool :=
  String.eqb (setting_name s) "capacity".

(** The update of [accessedKey] on one row of [keys]. *)
Definition touchKey (now : Z) (kid : rowid) (r : keyRow) : keyRow :=
  if key_id r =? kid
  then mkKeyRow (key_id r) (key r) (key_length r) now (access_count r + 1)
  else r.

(** Modelled from the spec: the declaration of [setting] is in the schema
    script ([init.sql]), which is not among the sources.  Its rows are
    singletons by name: an insert under a name that is there replaces the
    row, which makes the insert of the capacity directive an upsert. *)
Definition insertSetting (r : settingRow) (rows : list settingRow)
  : list settingRow :=
  filter (fun s => negb (String.eqb (setting_name s) (setting_name r))) rows
  ++ [r].

(** Modelled from the spec: the columns of [keys] that the insert of
    [createKey] does not name take the defaults of the schema script, which
    is not among the sources: the clock for [last_used], a count of
    accesses of 0. *)
Definition newKeyRow (i : rowid) (k : string) (len now : Z) : keyRow :=
  mkKeyRow i k len now 0.

(** What an accepted statement does to the tables, and the rows it yields.
    The statements are run without the optional trigger script (the
    [NoTriggers] configuration), and the constraints of the schema are not
    part of it: a statement the engine rejects is a refusal of the fault
    script. *)
Definition run (q : Stmt) (c : sqlite_Conn) : list Row * sqlite_Conn :=
  match q with
  | SqlPragmaRecursiveTriggersOn => ([], set_recursive_triggers true c)
  | SqlDeleteCapacity =>
      ([], set_setting (filter (fun s => negb (isCapacity s)) (tbl_setting c)) c)
  | SqlInsertCapacity cap =>
      ([], set_setting
             (insertSetting (mkSettingRow "capacity" cap) (tbl_setting c)) c)
  | SqlSelectKey k =>
      (map (fun r => [VInt (key_id r); VInt (key_length r)])
           (filter (fun r => String.eqb (key r) k) (tbl_keys c)), c)
  | SqlInsertKey k len =>
      let id := nextRowid (map key_id (tbl_keys c)) in
      ([[VInt id]],
       set_lastInsertRowID id
         (set_keys (tbl_keys c ++ [newKeyRow id k len (now_ms c)]) c))
  | SqlInsertZeroBlob size =>
      let id := nextRowid (map blob_id (tbl_blobs c)) in
      ([], set_lastInsertRowID id
             (set_blobs (tbl_blobs c ++ [mkBlobRow id (zeroblob size)]) c))
  | SqlInsertValue vid off bid =>
      ([], set_values (tbl_values c ++ [mkValueRow vid off bid]) c)
  | SqlSelectBlobs vid startOffset =>
      (map (fun v => [VInt (value_offset v); VInt (value_blob_id v)])
           (selectBlobs vid startOffset c), c)
  | SqlUpdateAccessed kid =>
      ([], set_keys (map (touchKey (now_ms c) kid) (tbl_keys c)) c)
  | SqlBlobOpen _ => ([], c)
  | SqlBlobReopen _ => ([], c)
  end.

(** One statement handed to the engine: it is logged, the next entry of
    the fault script is consumed, and the statement is refused with that
    entry's code or run. *)
Definition step (q : Stmt) (c : sqlite_Conn)
  : (ResultCode + list Row) * sqlite_Conn :=
  let c0 := set_log (log c ++ [q]) c in
  match faults c0 with
  | Some code :: fs => (inl code, set_faults fs c0)
  | None :: fs => let '(rows, c1) := run q (set_faults fs c0) in (inr rows, c1)
  | [] => let '(rows, c1) := run q c0 in (inr rows, c1)
  end.

(** [sqlitex.Exec(conn, query, resultFn, args...)] over a state [S] that
    holds the connection: the statement is stepped and [resultFn] is called
    on each row until it returns an error, which ends the call.  The
    variables a Go closure captures and assigns are the accumulator [L]. *)
Section Exec.

Variables S L : Type.
Variable getConn : S -> sqlite_Conn.
Variable setConn : sqlite_Conn -> S -> S.

Fixpoint forRows (resultFn : Row -> L -> M S (error * L))
         (rows : list Row) (l : L) : M S (error * L) :=
  match rows with
  | [] => ret (None, l)
  | r :: rows' =>
      '(e, l') <- resultFn r l ;;
      if isErr e then ret (e, l') else forRows resultFn rows' l'
  end.

Definition Exec (q : Stmt) (resultFn : option (Row -> L -> M S (error * L)))
           (l : L) : M S (error * L) :=
  fun s =>
    match step q (getConn s) with
    | (inl code, c') => Ret (Some (SqliteError code), l) (setConn c' s)
    | (inr rows, c') =>
        match resultFn with
        | Some f => forRows f rows l (setConn c' s)
        | None => Ret (None, l) (setConn c' s)
        end
    end.

End Exec.

(** ** Blob handles and the ordered map of handles *)

(** The state behind a [*sqlite.Blob]: the row of [blobs] it is open on,
    the size of that row's payload as read when it was opened, whether it
    was opened for writing, and whether a failed reopen aborted it. *)
Record sqlite_Blob : Type := mkBlob {
  blob_rowid : rowid;
  blob_size : Z;
  blob_write : bool;
  blob_aborted : bool
}.

(** [blob.Size()] *)
Definition Size (b : sqlite_Blob) : Z := blob_size b.

(** Modelled from the spec: the comparison that orders the handle map is
    declared outside the sources; the map is ordered by
    [(value_id, offset)]. *)
Definition valueKey_compare (a b : valueKey) : comparison :=
  match keyId a ?= keyId b with
  | Eq => offset a ?= offset b
  | c => c
  end.

(** [btree.Map[valueKey, *sqlite.Blob]] as the list of its entries in key
    order, and its iterator as a position in that list. *)
Module BTree.

Definition entry : Type := valueKey * sqlite_Blob.
Definition Map : Type := list entry.

Definition nilBlob : sqlite_Blob := mkBlob 0 0 false false.
Definition nilEntry : entry := (mkValueKey 0 0, nilBlob).

(** [m.Upsert(k, v)]: the map with [k] bound to [v], and whether a
    binding of [k] was replaced. *)
Fixpoint Upsert (k : valueKey) (v : sqlite_Blob) (m : Map) : Map * bool :=
  match m with
  | [] => ([(k, v)], false)
  | (k', v') :: m' =>
      match valueKey_compare k k' with
      | Lt => ((k, v) :: m, false)
      | Eq => ((k, v) :: m', true)
      | Gt => let '(m'', replaced) := Upsert k v m' in
              ((k', v') :: m'', replaced)
      end
  end.

Record Iterator : Type := mkIterator { it_map : Map; it_pos : Z }.

(** [m.Iterator()] *)
Definition iterator (m : Map) : Iterator := mkIterator m (-1).

Definition Valid (it : Iterator) : bool :=
  (0 <=? it_pos it) && (it_pos it <? Z.of_nat (List.length (it_map it))).

Definition curEntry (it : Iterator) : entry :=
  nth (Z.to_nat (it_pos it)) (it_map it) nilEntry.

Definition Cur (it : Iterator) : valueKey := fst (curEntry it).
Definition Value (it : Iterator) : sqlite_Blob := snd (curEntry it).

(** The index of the first entry whose key is not below [k], the length
    of the list when there is none. *)
Fixpoint seekIndex (k : valueKey) (m : Map) : nat :=
  match m with
  | [] => O
  | (k', _) :: m' =>
      match valueKey_compare k' k with
      | Lt => Datatypes.S (seekIndex k m')
      | _ => O
      end
  end.

Definition SeekGE (k : valueKey) (it : Iterator) : Iterator :=
  mkIterator (it_map it) (Z.of_nat (seekIndex k (it_map it))).

Definition Next (it : Iterator) : Iterator :=
  mkIterator (it_map it) (it_pos it + 1).

(** An iterator that is not valid cannot be moved back. *)
Definition Prev (it : Iterator) : Iterator :=
  if Valid it then mkIterator (it_map it) (it_pos it - 1) else it.

Definition Last (it : Iterator) : Iterator :=
  mkIterator (it_map it) (Z.of_nat (List.length (it_map it)) - 1).

End BTree.

Record connStruct : Type := mkConnStruct {
  sqliteConn : sqlite_Conn;
  blobs : BTree.Map;
  maxBlobSize : Z
}.

Definition set_sqliteConn (sc : sqlite_Conn) (c : connStruct) : connStruct :=
  mkConnStruct sc (blobs c) (maxBlobSize c).

Definition set_blobsMap (m : BTree.Map) (c : connStruct) : connStruct :=
  mkConnStruct (sqliteConn c) m (maxBlobSize c).

(** A computation on the connection run on the [sqliteConn] field. *)
Definition liftConn {A} (m : M sqlite_Conn A) : M connStruct A :=
  fun c =>
    match m (sqliteConn c) with
    | Ret a sc => Ret a (set_sqliteConn sc c)
    | Panic v => Panic v
    | OutOfFuel => OutOfFuel
    end.

Record keyCols : Type := mkKeyCols { id : rowid; length : Z }.

Record CreateOpts : Type := mkCreateOpts { Length : Z }.

(** A value bound to a pragma: the program passes strings and integers. *)
Inductive PragmaValue : Type :=
| PragmaText (s : string)
| PragmaInt (z : Z).

(** How the loop over the cached handles of [iterBlobs] is left: by the
    [return] inside it, or by its condition, with the values [more] and
    [startOffset] then have. *)
Inductive LoopExit : Type :=
| Returned (err : error)
| FellThrough (more : bool) (startOffset : Z).

(** ** The program *)

Section Squirrel.

(** Functions and constants of the package that the sources under study
    call and do not define, and the two transaction helpers of the
    [sqlitex] library.  They are parameters: what is proved below holds
    whatever they do. *)
Variable SynchronousMode : Type.
Variable setSynchronous : SynchronousMode -> M sqlite_Conn error.
Variable setAndVerifyPragma : string -> PragmaValue -> M sqlite_Conn error.
Variable setAndMaybeVerifyPragma :
  string -> string -> Option string -> M sqlite_Conn error.
Variable execTransientReturningText :
  string -> M sqlite_Conn (Option string * error).
Variable ExecScript : string -> M sqlite_Conn error.
Variable WithTransactionRollbackOnError :
  string -> M sqlite_Conn error -> M sqlite_Conn error.
Variables initScript initTriggers : string.
Variable openSqliteBlob : rowid -> bool -> M sqlite_Conn (sqlite_Blob * error).
Variable rowidForBlob : string -> M sqlite_Conn (rowid * Z * bool * error).

Record InitConnOpts : Type := mkInitConnOpts {
  SetSynchronous : SynchronousMode;
  SetJournalMode : string;
  SetLockingMode : string;
  MmapSizeOk : bool;
  MmapSize : Z;
  CacheSize : Option Z
}.

Record InitDbOpts : Type := mkInitDbOpts {
  SetAutoVacuum : Option string;
  RequireAutoVacuum : Option string;
  DontInitSchema : bool;
  PageSize : Z;
  NoTriggers : bool;
  Capacity : Z
}.

(** [sqlitex.ExecTransient(conn, query, nil)] and
    [sqlitex.Exec(conn, query, nil, args...)] *)
Definition sqlitexExec (q : Stmt) : M sqlite_Conn error :=
  '(err, _) <- Exec (fun c => c) (fun c _ => c) q None tt ;; ret err.

Definition setPageSize (pageSize : Z) : M sqlite_Conn error :=
  if pageSize =? 0 then ret None
  else setAndVerifyPragma "page_size" (PragmaInt pageSize).

Definition initConn (opts : InitConnOpts) (pageSize : Z)
  : M sqlite_Conn error :=
  orReturn (setSynchronous (SetSynchronous opts)) (
  orReturn (sqlitexExec SqlPragmaRecursiveTriggersOn) (
  orReturnWith (Wrapf "setting page size") (setPageSize pageSize) (
  orReturn
    (if String.eqb (SetJournalMode opts) "" then ret None
     else
       '(journalMode, err) <-
         execTransientReturningText
           ("pragma journal_mode=" ++ SetJournalMode opts) ;;
       if isErr err then ret err
       else
         actual <- Unwrap journalMode ;;
         if negb (String.eqb actual (SetJournalMode opts))
         then ret (Some (ErrUnexpectedJournalMode actual))
         else ret None) (
  orReturn
    (if String.eqb (SetLockingMode opts) "" then ret None
     else setAndVerifyPragma "locking_mode"
                             (PragmaText (SetLockingMode opts))) (
  let mmapSize := if negb (MmapSizeOk opts) then -1 else MmapSize opts in
  orReturn
    (if mmapSize >=? 0
     then setAndVerifyPragma "mmap_size" (PragmaInt mmapSize)
     else ret None) (
  if Ok (CacheSize opts)
  then setAndVerifyPragma "cache_size" (PragmaInt (Value (CacheSize opts)))
  else ret None)))))).

Definition InitSchema (pageSize : Z) (triggers : bool)
  : M sqlite_Conn error :=
  orReturnWith (Wrapf "setting page size") (setPageSize pageSize) (
  WithTransactionRollbackOnError "immediate" (
    orReturn (ExecScript initScript) (
    if triggers
    then orReturnWith (Wrapf "initing triggers") (ExecScript initTriggers)
                      (ret None)
    else ret None))).

(** Remove any capacity limits. *)
Definition unlimitCapacity : M sqlite_Conn error :=
  sqlitexExec SqlDeleteCapacity.

(** Set the capacity limit to exactly this value. *)
Definition setCapacity (cap : Z) : M sqlite_Conn error :=
  sqlitexExec (SqlInsertCapacity cap).

Definition initDatabase (opts : InitDbOpts) : M sqlite_Conn error :=
  orReturn
    (if Ok (SetAutoVacuum opts)
     then setAndMaybeVerifyPragma "auto_vacuum" (Value (SetAutoVacuum opts))
                                  (RequireAutoVacuum opts)
     else if Ok (RequireAutoVacuum opts)
     then
       '(autoVacuumValue, err) <-
         execTransientReturningText "pragma auto_vacuum" ;;
       if isErr err then ret err
       else
         actual <- Unwrap autoVacuumValue ;;
         if negb (String.eqb actual (Value (RequireAutoVacuum opts)))
         then ret (Some (Errorf "auto_vacuum is %q not %q"
                                [Value autoVacuumValue;
                                 Value (RequireAutoVacuum opts)]))
         else ret None
     else ret None) (
  orReturnWith (Wrapf "initing schema")
    (if negb (DontInitSchema opts)
     then InitSchema (PageSize opts) (negb (NoTriggers opts))
     else ret None) (
  if Capacity opts <? 0 then unlimitCapacity
  else if Capacity opts >? 0 then setCapacity (Capacity opts)
  else ret None)).

(** The steps of [initDatabase] that come before its capacity directive,
    taken alone: the properties of the directive are stated from the state
    these steps leave. *)
Definition initDatabaseBeforeCapacity (opts : InitDbOpts)
  : M sqlite_Conn error :=
  orReturn
    (if Ok (SetAutoVacuum opts)
     then setAndMaybeVerifyPragma "auto_vacuum" (Value (SetAutoVacuum opts))
                                  (RequireAutoVacuum opts)
     else if Ok (RequireAutoVacuum opts)
     then
       '(autoVacuumValue, err) <-
         execTransientReturningText "pragma auto_vacuum" ;;
       if isErr err then ret err
       else
         actual <- Unwrap autoVacuumValue ;;
         if negb (String.eqb actual (Value (RequireAutoVacuum opts)))
         then ret (Some (Errorf "auto_vacuum is %q not %q"
                                [Value autoVacuumValue;
                                 Value (RequireAutoVacuum opts)]))
         else ret None
     else ret None) (
  orReturnWith (Wrapf "initing schema")
    (if negb (DontInitSchema opts)
     then InitSchema (PageSize opts) (negb (NoTriggers opts))
     else ret None) (
  ret None)).

(** The steps of [initConn] before the journal mode, and those after it,
    taken alone. *)
Definition initConnBeforeJournalMode (opts : InitConnOpts) (pageSize : Z)
  : M sqlite_Conn error :=
  orReturn (setSynchronous (SetSynchronous opts)) (
  orReturn (sqlitexExec SqlPragmaRecursiveTriggersOn) (
  orReturnWith (Wrapf "setting page size") (setPageSize pageSize) (
  ret None))).

Definition initConnAfterJournalMode (opts : InitConnOpts)
  : M sqlite_Conn error :=
  orReturn
    (if String.eqb (SetLockingMode opts) "" then ret None
     else setAndVerifyPragma "locking_mode"
                             (PragmaText (SetLockingMode opts))) (
  let mmapSize := if negb (MmapSizeOk opts) then -1 else MmapSize opts in
  orReturn
    (if mmapSize >=? 0
     then setAndVerifyPragma "mmap_size" (PragmaInt mmapSize)
     else ret None) (
  if Ok (CacheSize opts)
  then setAndVerifyPragma "cache_size" (PragmaInt (Value (CacheSize opts)))
  else ret None)).

(** *** Queries on a [conn] *)

Definition sqliteQuery {L} (q : Stmt)
           (result : option (Row -> L -> M connStruct (error * L))) (l : L)
  : M connStruct (error * L) :=
  Exec sqliteConn set_sqliteConn q result l.

(** Executes sqlite query, panicking if there's more than one row.
    Returns ok if a row matched. *)
Definition sqliteQueryRow {R} (q : Stmt)
           (result : Row -> R -> M connStruct (error * R)) (r0 : R)
  : M connStruct (bool * error * R) :=
  '(err, (ok, r)) <-
    sqliteQuery q
      (Some (fun stmt '(ok, r) =>
               if (ok : bool)
               then panic (PanicString "got more than one row")
               else '(e, r') <- result stmt r ;; ret (e, (true, r'))))
      (false, r0) ;;
  ret (ok, err, r).

Definition sqliteQueryMustOneRow {R} (q : Stmt)
           (result : Row -> R -> M connStruct (error * R)) (r0 : R)
  : M connStruct (error * R) :=
  '(err, (hadResult, r)) <-
    sqliteQuery q
      (Some (fun stmt '(hadResult, r) =>
               if (hadResult : bool)
               then panic (PanicString "got more than one row")
               else '(e, r') <- result stmt r ;; ret (e, (true, r'))))
      (false, r0) ;;
  if isErr err then ret (err, r)
  else if negb hadResult then panic (PanicString "got no results")
  else ret (err, r).

Definition sqliteExec (q : Stmt) : M connStruct error :=
  '(err, _) <- sqliteQuery q None tt ;; ret err.

Definition openBlob (blobId : rowid) (write : bool)
  : M connStruct (sqlite_Blob * error) :=
  liftConn (openSqliteBlob blobId write).

Definition openKey (k : string) : M connStruct (keyCols * error) :=
  '(ok, err, cols) <-
    sqliteQueryRow (SqlSelectKey k)
      (fun stmt _ =>
         ret (None, mkKeyCols (ColumnInt64 stmt 0) (ColumnInt64 stmt 1)))
      (mkKeyCols 0 0) ;;
  if isErr err then ret (cols, err)
  else if negb ok then ret (cols, Some ErrNotFound)
  else ret (cols, err).

(** The [for] loop of [createKey], from the offset [off] on. *)
Fixpoint createKeyLoop (fuel : nat) (keyId : rowid) (len off : Z)
         (err : error) : M connStruct error :=
  match fuel with
  | O => fun _ => OutOfFuel
  | Datatypes.S fuel' =>
      if off <? len then
        c <- get ;;
        let blobSize := sub64 len off in
        let blobSize :=
          if blobSize >? maxBlobSize c then maxBlobSize c else blobSize in
        err <- sqliteExec (SqlInsertZeroBlob blobSize) ;;
        match err with
        | Some e => panic (PanicError e)
        | None =>
            c' <- get ;;
            let blobId := lastInsertRowID (sqliteConn c') in
            err <- sqliteExec (SqlInsertValue keyId off blobId) ;;
            match err with
            | Some e => panic (PanicError e)
            | None =>
                createKeyLoop fuel' keyId len (add64 off (maxBlobSize c)) err
            end
        end
      else ret err
  end.

Definition createKey (fuel : nat) (k : string) (create : CreateOpts)
  : M connStruct (rowid * error) :=
  '(cols, err) <- openKey k ;;
  if neqErrNotFound err then ret (id cols, err)
  else
    '(err, keyId) <-
      sqliteQueryMustOneRow (SqlInsertKey k (Length create))
        (fun stmt _ => ret (None, ColumnInt64 stmt 0)) 0 ;;
    if isErr err then ret (keyId, err)
    else
      err <- createKeyLoop fuel keyId (Length create) 0 err ;;
      ret (keyId, err).

Definition accessedKey (keyId : rowid) (ignoreBusy : bool)
  : M connStruct error :=
  err <- sqliteExec (SqlUpdateAccessed keyId) ;;
  if ignoreBusy && IsResultCode err SQLITE_BUSY then ret None else ret err.

(** *** Iteration over the blobs of a value *)

(** The callback of [iterBlobs].  It works through the handle it is given,
    on the connection; it does not touch the handle map it is being
    iterated from. *)
Definition iterFunc : Type := Z -> sqlite_Blob -> M sqlite_Conn (bool * error).

(** The loop over the handles already in the map. *)
Fixpoint iterBlobsCached (fuel : nat) (valueId : rowid) (iter : iterFunc)
         (it : BTree.Iterator) (more : bool) (startOffset : Z)
  : M connStruct LoopExit :=
  match fuel with
  | O => fun _ => OutOfFuel
  | Datatypes.S fuel' =>
      if BTree.Valid it && (keyId (BTree.Cur it) =? valueId) then
        let blobEnd := add64 (offset (BTree.Cur it)) (Size (BTree.Value it)) in
        if blobEnd >? startOffset then
          '(more', err) <-
            liftConn (iter (offset (BTree.Cur it)) (BTree.Value it)) ;;
          if isErr err || negb more' then ret (Returned err)
          else iterBlobsCached fuel' valueId iter (BTree.Next it) more' blobEnd
        else iterBlobsCached fuel' valueId iter (BTree.Next it) more startOffset
      else ret (FellThrough more startOffset)
  end.

(** The function called on each row of the query; [more] is the variable
    of [iterBlobs] it captures. *)
Definition iterBlobsRow (valueId : rowid) (iter : iterFunc) (write : bool)
           (stmt : Row) (more : bool) : M connStruct (error * bool) :=
  if negb more then ret (None, more)
  else
    let off := ColumnInt64 stmt 0 in
    let blobId := ColumnInt64 stmt 1 in
    '(b, err) <- openBlob blobId write ;;
    (if isErr err then ret tt
     else
       let k := mkValueKey valueId off in
       c <- get ;;
       let '(m, replaced) := BTree.Upsert k b (blobs c) in
       put (set_blobsMap m c) ;;;
       if replaced then panic (PanicKey k) else ret tt) ;;;
    if isErr err then ret (err, more)
    else '(more', err') <- liftConn (iter off b) ;; ret (err', more').

(** Where [iterBlobs] starts in the map: it seeks the blob after the one
    wanted and steps back, or goes to the last when there is none after. *)
Definition iterBlobsSeek (valueId : rowid) (startOffset : Z) (m : BTree.Map)
  : BTree.Iterator :=
  let it := BTree.iterator m in
  let it := BTree.SeekGE (mkValueKey valueId (add64 startOffset 1)) it in
  if BTree.Valid it then BTree.Prev it else BTree.Last it.

Definition iterBlobs (fuel : nat) (valueId : rowid) (iter : iterFunc)
           (write : bool) (startOffset : Z) : M connStruct error :=
  c <- get ;;
  let it := iterBlobsSeek valueId startOffset (blobs c) in
  exit <- iterBlobsCached fuel valueId iter it true startOffset ;;
  match exit with
  | Returned err => ret err
  | FellThrough more startOffset' =>
      '(err, _) <-
        sqliteQuery (SqlSelectBlobs valueId startOffset')
                    (Some (iterBlobsRow valueId iter write)) more ;;
      ret err
  end.

(** *** Pinned blobs *)

(** [blob.Reopen(rowid)], the engine's [sqlite3_blob_reopen]: an aborted
    handle stays aborted; a reopen that the engine refuses, or on a row
    that does not exist, aborts the handle; otherwise the handle moves to
    the row and takes its size. *)
Definition BlobReopen (r : rowid) : M (sqlite_Conn * sqlite_Blob) error :=
  fun '(c, b) =>
    if blob_aborted b then Ret (Some (SqliteError SQLITE_ABORT)) (c, b)
    else
      match step (SqlBlobReopen r) c with
      | (inl code, c') =>
          Ret (Some (SqliteError code))
              (c', mkBlob (blob_rowid b) (blob_size b) (blob_write b) true)
      | (inr _, c') =>
          match find (fun row => blob_id row =? r) (tbl_blobs c') with
          | Some row =>
              Ret None (c', mkBlob r (blob_length row) (blob_write b) false)
          | None =>
              Ret (Some (SqliteError SQLITE_ERROR))
                  (c', mkBlob (blob_rowid b) (blob_size b) (blob_write b) true)
          end
      end.

(** [PinnedBlob.Reopen], on the connection of the cache and the handle the
    pinned blob wraps. *)
Definition Reopen (name : string) : M (sqlite_Conn * sqlite_Blob) error :=
  fun '(c, b) =>
    match rowidForBlob name c with
    | Ret (r, _, ok, err) c' =>
        if isErr err then Ret err (c', b)
        else if negb ok
        then Ret (Some (ErrorsNew "rowid for name not found")) (c', b)
        else BlobReopen r (c', b)
    | Panic v => Panic v
    | OutOfFuel => OutOfFuel
    end.

End Squirrel.

(** ** [iterBlobs] as the specification words it

    The three steps of the extent iteration written on the entries of the
    map rather than on iterator positions: the entries from the one before
    the first key strictly above [(value_id, startOffset)] on (from the
    last entry when no key is above it); the walk over them while they
    belong to the value; the rows of the query, a handle opened and handed
    to the callback for each until the callback asks to stop. *)

Definition keyAbove (a b : valueKey) : bool :=
  match valueKey_compare a b with
  | Gt => true
  | _ => false
  end.

Fixpoint seekBack (k : valueKey) (prev : option BTree.entry) (m : BTree.Map)
  : BTree.Map :=
  match m with
  | [] => match prev with Some p => [p] | None => [] end
  | e :: m' =>
      if keyAbove (fst e) k
      then match prev with Some p => p :: m | None => [] end
      else seekBack k (Some e) m'
  end.

Section IterBlobsSpec.

Variable openSqliteBlob : rowid -> bool -> M sqlite_Conn (sqlite_Blob * error).
Variable valueId : rowid.
Variable iter : iterFunc.
Variable write : bool.

(** An error to return with, or the offset to query the database from. *)
Fixpoint walkCached (rest : BTree.Map) (startOffset : Z)
  : M connStruct (error + Z) :=
  match rest with
  | [] => ret (inr startOffset)
  | (k, h) :: rest' =>
      if keyId k =? valueId then
        let blobEnd := add64 (offset k) (Size h) in
        if blobEnd >? startOffset then
          '(more, err) <- liftConn (iter (offset k) h) ;;
          match err with
          | Some _ => ret (inl err)
          | None => if more then walkCached rest' blobEnd else ret (inl None)
          end
        else walkCached rest' startOffset
      else ret (inr startOffset)
  end.

Fixpoint walkRows (rows : list Row) : M connStruct error :=
  match rows with
  | [] => ret None
  | r :: rows' =>
      '(h, err) <- liftConn (openSqliteBlob (ColumnInt64 r 1) write) ;;
      match err with
      | Some _ => ret err
      | None =>
          let k := mkValueKey valueId (ColumnInt64 r 0) in
          c <- get ;;
          let '(m, replaced) := BTree.Upsert k h (blobs c) in
          if replaced then panic (PanicKey k)
          else
            put (set_blobsMap m c) ;;;
            '(more, err') <- liftConn (iter (ColumnInt64 r 0) h) ;;
            match err' with
            | Some _ => ret err'
            | None => if more then walkRows rows' else ret None
            end
      end
  end.

Definition iterBlobsSpec (startOffset : Z) : M connStruct error :=
  c <- get ;;
  exit <- walkCached (seekBack (mkValueKey valueId startOffset) None (blobs c))
                     startOffset ;;
  match exit with
  | inl err => ret err
  | inr startOffset' =>
      fun c' =>
        match step (SqlSelectBlobs valueId startOffset') (sqliteConn c') with
        | (inl code, sc) =>
            Ret (Some (SqliteError code)) (set_sqliteConn sc c')
        | (inr rows, sc) => walkRows rows (set_sqliteConn sc c')
        end
  end.

End IterBlobsSpec.

(** ** Instances of the parameters, for examples *)

Module Model.

(** Modelled from the spec: [rowidForBlob] is not among the sources; it
    looks up the [(rowid, length)] of a key name, and reports whether a
    row was found. *)
Definition rowidForBlob (name : string)
  : M sqlite_Conn (rowid * Z * bool * error) :=
  '(err, (r, len, ok)) <-
    Exec (fun c => c) (fun c _ => c) (SqlSelectKey name)
      (Some (fun stmt (_ : rowid * Z * bool) =>
               ret (None, (ColumnInt64 stmt 0, ColumnInt64 stmt 1, true))))
      (0, 0, false) ;;
  ret (r, len, ok, err).

(** Modelled from the spec: [openSqliteBlob] is not among the sources; it
    opens a handle on the row of [blobs] with the given rowid. *)
Definition openSqliteBlob (blobId : rowid) (write : bool)
  : M sqlite_Conn (sqlite_Blob * error) :=
  fun c =>
    match step (SqlBlobOpen blobId) c with
    | (inl code, c') => Ret (BTree.nilBlob, Some (SqliteError code)) c'
    | (inr _, c') =>
        match find (fun row => blob_id row =? blobId) (tbl_blobs c') with
        | Some row => Ret (mkBlob blobId (blob_length row) write false, None) c'
        | None => Ret (BTree.nilBlob, Some (SqliteError SQLITE_ERROR)) c'
        end
    end.

(** An engine that accepts every pragma, and one whose text pragmas answer
    a fixed string. *)
Definition setSynchronous (_ : string) : M sqlite_Conn error := ret None.

Definition setAndVerifyPragma (_ : string) (_ : PragmaValue)
  : M sqlite_Conn error := ret None.

Definition setAndMaybeVerifyPragma (_ _ : string) (_ : Option string)
  : M sqlite_Conn error := ret None.

Definition answering (answer : string) (_ : string)
  : M sqlite_Conn (Option string * error) :=
  ret (mkOption true answer, None).

Definition ExecScript (_ : string) : M sqlite_Conn error := ret None.

Definition WithTransactionRollbackOnError (_ : string)
           (f : M sqlite_Conn error) : M sqlite_Conn error := f.

Definition emptyDb : sqlite_Conn := mkConn [] [] [] [] false 0 1700000000000 [] [].

Definition emptyConn (m : Z) : connStruct := mkConnStruct emptyDb [] m.

End Model.

(** ** The rest of the connection layer

    The functions of the connection that stand beside those above: the
    lookups by key, the closing of the cached handles, and what a pinned
    blob answers about its handle. *)

(** Edits of the handle map, beside [BTree]: [First] of an iterator,
    [Delete] of a key (a search in key order, as [BTree.Upsert]) and
    [Reset]. *)
Module BTreeEdit.

Definition First (it : BTree.Iterator) : BTree.Iterator :=
  BTree.mkIterator (BTree.it_map it) 0.

Fixpoint Delete (k : valueKey) (m : BTree.Map) : BTree.Map :=
  match m with
  | [] => []
  | (k', v') :: m' =>
      match valueKey_compare k k' with
      | Lt => m
      | Eq => m'
      | Gt => (k', v') :: Delete k m'
      end
  end.

Definition Reset : BTree.Map := [].

End BTreeEdit.

(** The statement of [getValueLength], [select length from keys where
    key=?], handed to the engine: the next entry of the fault script is
    consumed, and the statement is refused with it or yields the [length]
    of the rows of the key.  ([Stmt] lists the statements of the functions
    above; this one leaves the log as it is.) *)
Definition stepSelectLength (k : string) (c : sqlite_Conn)
  : (ResultCode + list Row) * sqlite_Conn :=
  match faults c with
  | Some code :: fs => (inl code, set_faults fs c)
  | None :: fs =>
      (inr (map (fun r => [VInt (key_length r)])
                (filter (fun r => String.eqb (key r) k) (tbl_keys c))),
       set_faults fs c)
  | [] =>
      (inr (map (fun r => [VInt (key_length r)])
                (filter (fun r => String.eqb (key r) k) (tbl_keys c))), c)
  end.

(** [errors.Join(err, e)] on an error that is itself the join of the
    errors met so far: the joined error as the list of its parts, the
    empty list being [nil]. *)
Definition errorsJoin (err : list Err) (e : error) : list Err :=
  match e with
  | Some e' => err ++ [e']
  | None => err
  end.

Section Handles.

(** [blob.Close()] of the SQLite binding: a parameter. *)
Variable blobClose : sqlite_Blob -> M sqlite_Conn error.

Definition getValueIdForKey (k : string) : M connStruct (rowid * error) :=
  '(cols, err) <- openKey k ;; ret (id cols, err).

Definition getValueLength (k : string) : M connStruct (Z * error) :=
  fun c =>
    match stepSelectLength k (sqliteConn c) with
    | (inl code, sc) => Ret (0, Some (SqliteError code)) (set_sqliteConn sc c)
    | (inr rows, sc) =>
        match forRows (fun stmt (_ : Z) => ret (None, ColumnInt64 stmt 0))
                      rows 0 (set_sqliteConn sc c) with
        | Ret (err, len) c' => Ret (len, err) c'
        | Panic v => Panic v
        | OutOfFuel => OutOfFuel
        end
    end.

(** The loop of [closeBlobs]. *)
Fixpoint closeBlobsLoop (fuel : nat) (it : BTree.Iterator)
  : M connStruct unit :=
  match fuel with
  | O => fun _ => OutOfFuel
  | Datatypes.S fuel' =>
      if BTree.Valid it then
        liftConn (blobClose (BTree.Value it)) ;;;
        closeBlobsLoop fuel' (BTree.Next it)
      else ret tt
  end.

Definition closeBlobs (fuel : nat) : M connStruct unit :=
  c <- get ;;
  let it := BTreeEdit.First (BTree.iterator (blobs c)) in
  closeBlobsLoop fuel it ;;;
  modify (set_blobsMap BTreeEdit.Reset).

(** The loop of [forgetBlobsForKeyId]; [err] is the error joined so
    far. *)
Fixpoint forgetBlobsLoop (fuel : nat) (kid : rowid) (err : list Err)
  : M connStruct (list Err) :=
  match fuel with
  | O => fun _ => OutOfFuel
  | Datatypes.S fuel' =>
      c <- get ;;
      let it := BTree.SeekGE (mkValueKey kid 0) (BTree.iterator (blobs c)) in
      if negb (BTree.Valid it) || negb (keyId (BTree.Cur it) =? kid)
      then ret err
      else
        e <- liftConn (blobClose (BTree.Value it)) ;;
        modify (fun c' => set_blobsMap
                            (BTreeEdit.Delete (BTree.Cur it) (blobs c')) c') ;;;
        forgetBlobsLoop fuel' kid (errorsJoin err e)
  end.

Definition forgetBlobsForKeyId (fuel : nat) (kid : rowid)
  : M connStruct (list Err) :=
  forgetBlobsLoop fuel kid [].

(** [PinnedBlob.Length] on the handle the pinned blob wraps. *)
Definition PinnedLength (b : sqlite_Blob) : Z := Size b.

End Handles.

(** What the loops over the handles come to: the handles closed one after
    the other, the results dropped ([closeBlobs]) or joined
    ([forgetBlobsForKeyId]). *)
Section CloseEach.

Variable blobClose : sqlite_Blob -> M sqlite_Conn error.

Fixpoint closeEach (hs : list sqlite_Blob) : M sqlite_Conn unit :=
  match hs with
  | [] => ret tt
  | h :: hs' => blobClose h ;;; closeEach hs'
  end.

Fixpoint closeJoin (hs : list sqlite_Blob) (err : list Err)
  : M sqlite_Conn (list Err) :=
  match hs with
  | [] => ret err
  | h :: hs' => e <- blobClose h ;; closeJoin hs' (errorsJoin err e)
  end.

End CloseEach.

(** An instance of [blob.Close()] for examples: a closing is a statement
    for the fault script, and touches nothing else. *)
Module ModelHandles.

Definition blobClose (_ : sqlite_Blob) : M sqlite_Conn error :=
  fun c =>
    match faults c with
    | Some code :: fs => Ret (Some (SqliteError code)) (set_faults fs c)
    | None :: fs => Ret None (set_faults fs c)
    | [] => Ret None c
    end.

End ModelHandles.

(** The chunks of a value tile the bytes from [from] to [to]: each row of
    ["values"] starts where the one before ended and points at its row of
    [blobs], which is not empty. *)
Fixpoint tiles (vs : list valueRow) (bs : list blobRow) (from to : Z)
  : Prop :=
  match vs, bs with
  | [], [] => from = to
  | v :: vs', b :: bs' =>
      value_offset v = from /\ value_blob_id v = blob_id b
      /\ 0 < blob_length b
      /\ tiles vs' bs' (from + blob_length b) to
  | _, _ => False
  end.

(** A callback that looks on: on every handle it returns [more = true]
    and no error, and it leaves [blobs] and the fault script of the engine
    as they are. *)
Definition looksOn (iter : iterFunc) : Prop :=
  forall off b sc, exists sc',
    iter off b sc = Ret (true, None) sc'
    /\ tbl_blobs sc' = tbl_blobs sc /\ faults sc' = faults sc.

(** The handle [openSqliteBlob] gives on the [i]-th chunk of a value of
    [len] bytes, the rowids of the chunks being counted from [b0]. *)
Definition chunkHandle (len m : Z) (b0 : rowid) (write : bool) (i : nat)
  : sqlite_Blob :=
  mkBlob (b0 + Z.of_nat i) (Z.min m (len - Z.of_nat i * m)) write false.

(** The connection after the chunks of the indices [ixs] were visited in
    turn: for each, the blob is opened and the callback is called on its
    offset and handle. *)
Fixpoint visitChunks (iter : iterFunc) (len m : Z) (b0 : rowid)
         (write : bool) (ixs : list nat) (sc : sqlite_Conn) : sqlite_Conn :=
  match ixs with
  | [] => sc
  | i :: ixs' =>
      let sc1 := set_log (log sc ++ [SqlBlobOpen (b0 + Z.of_nat i)]) sc in
      match iter (Z.of_nat i * m) (chunkHandle len m b0 write i) sc1 with
      | Ret _ sc2 => visitChunks iter len m b0 write ixs' sc2
      | _ => sc1
      end
  end.

(** ** Vocabulary of the statements *)

Local Open Scope list_scope.

(** The connection after a statement was handed to the engine: it is in
    the log. *)
Definition logged (q : Stmt) (c : sqlite_Conn) : sqlite_Conn :=
  set_log (log c ++ [q]) c.

(** No row of [keys] has the key [k]. *)
Definition keyAbsent (k : string) (c : sqlite_Conn) : Prop :=
  forall r, In r (tbl_keys c) -> key r <> k.

(** The [unique] constraint on [keys.key]. *)
Definition keysUnique (c : sqlite_Conn) : Prop :=
  NoDup (map key (tbl_keys c)).

(** The same rows in [keys], [blobs] and ["values"]. *)
Definition sameRows (c c' : sqlite_Conn) : Prop :=
  tbl_keys c' = tbl_keys c /\ tbl_blobs c' = tbl_blobs c
  /\ tbl_values c' = tbl_values c.

(** The number of chunks of a value of [len] bytes: the ceiling of
    [len / m]. *)
Definition chunkCount (len m : Z) : nat := Z.to_nat ((len + m - 1) / m).

(** The [i]-th chunk created for a key: its row of [blobs], with rowids
    counted from [b0], and its row of ["values"]. *)
Definition chunkBlob (len m : Z) (b0 : rowid) (i : nat) : blobRow :=
  mkBlobRow (b0 + Z.of_nat i)
            (repeat x00 (Z.to_nat (Z.min m (len - Z.of_nat i * m)))).

Definition chunkValue (m : Z) (kid b0 : rowid) (i : nat) : valueRow :=
  mkValueRow kid (Z.of_nat i * m) (b0 + Z.of_nat i).

Definition chunkStmts (len m : Z) (kid b0 : rowid) (i : nat) : list Stmt :=
  [SqlInsertZeroBlob (Z.min m (len - Z.of_nat i * m));
   SqlInsertValue kid (Z.of_nat i * m) (b0 + Z.of_nat i)].

(** The connection after the lookup and the insertion into [keys] that
    [createKey] makes for a key it does not find. *)
Definition afterInsertKey (k : string) (len : Z) (c : connStruct)
  : connStruct :=
  set_sqliteConn
    (snd (run (SqlInsertKey k len)
              (logged (SqlInsertKey k len)
                      (logged (SqlSelectKey k) (sqliteConn c))))) c.

(** The engine refuses the next statement with [code]. *)
Definition nextRefused (code : ResultCode) (c : sqlite_Conn) : Prop :=
  exists fs, faults c = Some code :: fs.

(** The engine accepts the next statement. *)
Definition nextAccepted (c : sqlite_Conn) : Prop :=
  hd None (faults c) = None.

(** What the update of [accessedKey] makes of a row [r] of [keys]. *)
Definition accessed (now : Z) (kid : rowid) (r r' : keyRow) : Prop :=
  if key_id r =? kid
  then last_used r' = now /\ access_count r' = access_count r + 1
       /\ key_id r' = key_id r /\ key r' = key r
       /\ key_length r' = key_length r
  else r' = r.

(** The entries from the one before the index [idx] on. *)
Definition suffixBefore (idx : nat) (m : BTree.Map) : BTree.Map :=
  match idx with
  | O => []
  | Datatypes.S i => skipn i m
  end.

(** The exit of the walk over the entries as an exit of the loop. *)
Definition exitOf {S} (r : Res S (error + Z)) : Res S LoopExit :=
  match r with
  | Ret (inl err) s => Ret (Returned err) s
  | Ret (inr startOffset) s => Ret (FellThrough true startOffset) s
  | Panic v => Panic v
  | OutOfFuel => OutOfFuel
  end.

(** ** Lemmas on machine integers *)

Lemma wrap_in_range z : Int64.in_range (Int64.wrap z).
Proof.
  unfold Int64.in_range, Int64.wrap, Int64.min_int, Int64.max_int,
    Int64.modulus.
  pose proof (Z.mod_pos_bound (z - - 2 ^ 63) (2 ^ 64) ltac:(lia)). lia.
Qed.

Lemma wrap_small z : Int64.in_range z -> Int64.wrap z = z.
Proof.
  unfold Int64.in_range, Int64.wrap, Int64.min_int, Int64.max_int,
    Int64.modulus. intros H.
  rewrite Z.mod_small by lia. lia.
Qed.

Lemma wrap_max_succ : Int64.wrap (Int64.max_int + 1) = Int64.min_int.
Proof. reflexivity. Qed.

(** ** Lemmas on the engine *)

Lemma step_nofault q c :
  faults c = [] ->
  step q c = (inr (fst (run q (logged q c))), snd (run q (logged q c))).
Proof.
  intros H. unfold step, logged. cbn [faults set_log]. rewrite H.
  destruct (run q _); reflexivity.
Qed.

Lemma run_faults q c : faults (snd (run q c)) = faults c.
Proof. destruct q; reflexivity. Qed.

Lemma faults_logged q c : faults (logged q c) = faults c.
Proof. reflexivity. Qed.

Lemma sqliteExec_nofault q c :
  faults (sqliteConn c) = [] ->
  sqliteExec q c
  = Ret None (set_sqliteConn (snd (run q (logged q (sqliteConn c)))) c).
Proof.
  intros H. unfold sqliteExec, sqliteQuery, Exec, bind.
  rewrite step_nofault by exact H. reflexivity.
Qed.

Lemma filter_key_absent k (l : list keyRow) :
  (forall r, In r l -> key r <> k) ->
  filter (fun r => String.eqb (key r) k) l = [].
Proof.
  induction l as [|x l IH]; intros H; [reflexivity|].
  cbn. destruct (String.eqb_spec (key x) k) as [E|E].
  - exfalso. apply (H x); [left; reflexivity | exact E].
  - apply IH. intros r Hr. apply H. right. exact Hr.
Qed.

Lemma filter_key_unique (l : list keyRow) r :
  NoDup (map key l) -> In r l ->
  filter (fun x => String.eqb (key x) (key r)) l = [r].
Proof.
  induction l as [|x l IH]; intros Hnd Hin; [destruct Hin|].
  cbn in Hnd. inversion Hnd as [|? ? Hnotin Hnd']; subst.
  destruct Hin as [->|Hin].
  - cbn. rewrite String.eqb_refl. f_equal.
    apply filter_key_absent. intros r' Hr' E.
    apply Hnotin. rewrite <- E. apply in_map. exact Hr'.
  - cbn. destruct (String.eqb_spec (key x) (key r)) as [E|E].
    + exfalso. apply Hnotin. rewrite E. apply in_map. exact Hin.
    + apply IH; assumption.
Qed.

Lemma openKey_absent k c :
  faults (sqliteConn c) = [] -> keyAbsent k (sqliteConn c) ->
  openKey k c
  = Ret (mkKeyCols 0 0, Some ErrNotFound)
        (set_sqliteConn (logged (SqlSelectKey k) (sqliteConn c)) c).
Proof.
  intros Hf Ha.
  unfold openKey, sqliteQueryRow, sqliteQuery, Exec, bind.
  rewrite step_nofault by exact Hf. cbn [run fst snd].
  cbn [logged tbl_keys set_log].
  rewrite filter_key_absent by exact Ha.
  reflexivity.
Qed.

Lemma openKey_present r c :
  faults (sqliteConn c) = [] -> keysUnique (sqliteConn c) ->
  In r (tbl_keys (sqliteConn c)) ->
  openKey (key r) c
  = Ret (mkKeyCols (key_id r) (key_length r), None)
        (set_sqliteConn (logged (SqlSelectKey (key r)) (sqliteConn c)) c).
Proof.
  intros Hf Hu Hin.
  unfold openKey, sqliteQueryRow, sqliteQuery, Exec, bind.
  rewrite step_nofault by exact Hf. cbn [run fst snd].
  cbn [logged tbl_keys set_log].
  rewrite filter_key_unique by assumption.
  reflexivity.
Qed.

(** ** Lemmas on [createKey] *)

Lemma fold_max_snoc x i (l : list Z) :
  fold_right Z.max (Z.max x i) l = Z.max x (fold_right Z.max i l).
Proof. induction l as [|y l IH]; cbn; [reflexivity | rewrite IH; lia]. Qed.

Lemma nextRowid_snoc (ids : list rowid) :
  nextRowid (ids ++ [nextRowid ids]) = nextRowid ids + 1.
Proof.
  destruct ids as [|i rest]; [reflexivity|].
  cbn [nextRowid app]. rewrite fold_right_app. cbn [fold_right].
  rewrite fold_max_snoc. lia.
Qed.

(** What the loop of [createKey] leaves when it runs its [n] remaining
    rounds, from the round of index [i0] on, on an engine that refuses
    nothing. *)
Lemma createKeyLoop_rounds kid len b0 (n : nat) :
  forall (i0 fuel : nat) (c : connStruct),
    faults (sqliteConn c) = [] ->
    0 < maxBlobSize c ->
    Z.of_nat (i0 + n) * maxBlobSize c <= Int64.max_int ->
    len <= Z.of_nat (i0 + n) * maxBlobSize c ->
    ((0 < n)%nat -> (Z.of_nat (i0 + n) - 1) * maxBlobSize c < len) ->
    nextRowid (map blob_id (tbl_blobs (sqliteConn c))) = b0 + Z.of_nat i0 ->
    (n < fuel)%nat ->
    exists c',
      createKeyLoop fuel kid len (Z.of_nat i0 * maxBlobSize c) None c
      = Ret None c'
      /\ blobs c' = blobs c /\ maxBlobSize c' = maxBlobSize c
      /\ faults (sqliteConn c') = []
      /\ tbl_keys (sqliteConn c') = tbl_keys (sqliteConn c)
      /\ tbl_blobs (sqliteConn c')
         = tbl_blobs (sqliteConn c)
           ++ map (chunkBlob len (maxBlobSize c) b0) (seq i0 n)
      /\ tbl_values (sqliteConn c')
         = tbl_values (sqliteConn c)
           ++ map (chunkValue (maxBlobSize c) kid b0) (seq i0 n)
      /\ log (sqliteConn c')
         = log (sqliteConn c)
           ++ flat_map (chunkStmts len (maxBlobSize c) kid b0) (seq i0 n).
Proof.
  induction n as [|n IH]; intros i0 fuel c Hf Hm Hov Hcov Hlast Hb Hfuel.
  - destruct fuel as [|fuel]; [lia|].
    exists c. cbn [createKeyLoop].
    replace (Z.of_nat i0 * maxBlobSize c <? len) with false
      by (symmetry; apply Z.ltb_ge; replace (i0 + 0)%nat with i0 in Hcov by lia; lia).
    cbn [seq map flat_map]. rewrite !app_nil_r. repeat split; reflexivity || assumption.
  - destruct fuel as [|fuel]; [lia|].
    set (m := maxBlobSize c) in *.
    set (off := Z.of_nat i0 * m).
    assert (Hoff : 0 <= off < len) by (subst off; specialize (Hlast ltac:(lia)); nia).
    cbn [createKeyLoop]. fold off.
    replace (off <? len) with true by (symmetry; apply Z.ltb_lt; lia).
    unfold bind at 1, get at 1. fold m.
    assert (Hsub : sub64 len off = len - off).
    { unfold sub64. apply wrap_small.
      unfold Int64.in_range, Int64.min_int, Int64.max_int in *. lia. }
    rewrite Hsub.
    assert (Hsz : (if len - off >? m then m else len - off) = Z.min m (len - off)).
    { destruct (Z.gtb_spec (len - off) m); lia. }
    rewrite Hsz.
    unfold bind at 1. rewrite sqliteExec_nofault by exact Hf.
    set (c1 := set_sqliteConn _ c).
    unfold bind at 1, get at 1.
    assert (Hf1 : faults (sqliteConn c1) = []) by exact Hf.
    unfold bind at 1. rewrite sqliteExec_nofault by exact Hf1.
    set (c2 := set_sqliteConn _ c1).
    assert (Hadd : add64 off m = Z.of_nat (Datatypes.S i0) * m).
    { unfold add64. rewrite wrap_small; [subst off; lia|].
      unfold Int64.in_range, Int64.min_int, Int64.max_int in *. lia. }
    rewrite Hadd.
    destruct (IH (Datatypes.S i0) fuel c2) as (c' & Hrun & Hbl & Hmx & Hf' & Hk & Hb' & Hv & Hl).
    + exact Hf.
    + exact Hm.
    + change (maxBlobSize c2) with m.
      replace (Datatypes.S i0 + n)%nat with (i0 + Datatypes.S n)%nat by lia. exact Hov.
    + change (maxBlobSize c2) with m.
      replace (Datatypes.S i0 + n)%nat with (i0 + Datatypes.S n)%nat by lia. exact Hcov.
    + intros _. change (maxBlobSize c2) with m.
      replace (Datatypes.S i0 + n)%nat with (i0 + Datatypes.S n)%nat by lia.
      apply Hlast. lia.
    + subst c2 c1. cbn [sqliteConn set_sqliteConn run snd logged tbl_blobs set_log
                        set_blobs set_lastInsertRowID set_values].
      rewrite map_app. cbn [map blob_id]. rewrite nextRowid_snoc. lia.
    + lia.
    + exists c'. change (maxBlobSize c2) with m in *.
      split; [exact Hrun|].
      split; [rewrite Hbl; reflexivity|].
      split; [rewrite Hmx; reflexivity|].
      split; [exact Hf'|].
      split; [rewrite Hk; reflexivity|].
      split; [|split].
      * rewrite Hb'. subst c2 c1.
        cbn [sqliteConn set_sqliteConn run snd logged tbl_blobs set_log
             set_blobs set_lastInsertRowID set_values].
        rewrite <- app_assoc. f_equal. cbn [seq map app]. f_equal.
        unfold chunkBlob, zeroblob. rewrite Hb. fold off. reflexivity.
      * rewrite Hv. subst c2 c1.
        cbn [sqliteConn set_sqliteConn run snd logged tbl_values set_log
             set_blobs set_lastInsertRowID set_values lastInsertRowID tbl_blobs].
        rewrite <- app_assoc. f_equal. cbn [seq map app]. f_equal.
        unfold chunkValue. rewrite Hb. fold off. reflexivity.
      * rewrite Hl. subst c2 c1.
        cbn [sqliteConn set_sqliteConn run snd logged log set_log
             set_blobs set_lastInsertRowID set_values lastInsertRowID tbl_blobs].
        rewrite <- !app_assoc. f_equal. cbn [seq flat_map app chunkStmts].
        rewrite Hb. fold off. reflexivity.
Qed.

Lemma createKey_absent fuel k create c :
  faults (sqliteConn c) = [] -> keyAbsent k (sqliteConn c) ->
  createKey fuel k create c
  = match createKeyLoop fuel (nextRowid (map key_id (tbl_keys (sqliteConn c))))
                        (Length create) 0 None
                        (afterInsertKey k (Length create) c) with
    | Ret err c' =>
        Ret (nextRowid (map key_id (tbl_keys (sqliteConn c))), err) c'
    | Panic v => Panic v
    | OutOfFuel => OutOfFuel
    end.
Proof.
  intros Hf Ha. unfold createKey. unfold bind at 1.
  rewrite openKey_absent by assumption. cbn [neqErrNotFound Err_eqb].
  change (negb (Err_eqb ErrNotFound ErrNotFound)) with false.
  cbv iota. unfold bind at 1.
  unfold sqliteQueryMustOneRow, sqliteQuery, Exec. unfold bind at 1.
  cbn [sqliteConn set_sqliteConn].
  rewrite step_nofault by exact Hf.
  reflexivity.
Qed.

Lemma createKey_present fuel r create c :
  faults (sqliteConn c) = [] -> keysUnique (sqliteConn c) ->
  In r (tbl_keys (sqliteConn c)) ->
  createKey fuel (key r) create c
  = Ret (key_id r, None)
        (set_sqliteConn (logged (SqlSelectKey (key r)) (sqliteConn c)) c).
Proof.
  intros Hf Hu Hin. unfold createKey. unfold bind at 1.
  rewrite openKey_present by assumption. reflexivity.
Qed.

Lemma createKeyLoop_frame kid len :
  forall fuel off err c e c',
    faults (sqliteConn c) = [] ->
    createKeyLoop fuel kid len off err c = Ret e c' ->
    faults (sqliteConn c') = []
    /\ tbl_keys (sqliteConn c') = tbl_keys (sqliteConn c).
Proof.
  induction fuel as [|fuel IH]; intros off err c e c' Hf Hrun;
    [discriminate Hrun|].
  cbn [createKeyLoop] in Hrun.
  destruct (off <? len).
  - unfold bind at 1, get at 1 in Hrun.
    unfold bind at 1 in Hrun. rewrite sqliteExec_nofault in Hrun by exact Hf.
    unfold bind at 1, get at 1 in Hrun.
    unfold bind at 1 in Hrun. rewrite sqliteExec_nofault in Hrun by exact Hf.
    apply IH in Hrun; [|exact Hf].
    destruct Hrun as [Hf' Hk]. split; [exact Hf'|].
    rewrite Hk. reflexivity.
  - inversion Hrun; subst. split; [exact Hf | reflexivity].
Qed.

Lemma chunkCount_spec len m (i : nat) :
  0 < m -> 0 < len ->
  ((i < chunkCount len m)%nat <-> Z.of_nat i * m < len).
Proof.
  intros Hm Hl. unfold chunkCount.
  pose proof (Z.div_mod (len + m - 1) m ltac:(lia)) as Hdm.
  pose proof (Z.mod_pos_bound (len + m - 1) m Hm) as Hmod.
  assert (0 <= (len + m - 1) / m) by (apply Z.div_pos; lia).
  split; intros H1.
  - assert (Z.of_nat i < (len + m - 1) / m) by lia. nia.
  - assert (Z.of_nat i < (len + m - 1) / m) by nia. lia.
Qed.

(** ** Properties of [createKey] *)

(** C10.  For a key [k] that has no row in [keys] and a length [len <= 0],
    on an engine that refuses nothing, [createKey k {len}] returns, without
    error, the rowid the engine gave to the one row it appended to [keys],
    a row for [k] with the length [len]; [blobs] and ["values"] keep their
    rows, and the statements handed to the engine are the lookup and that
    one insertion. *)
Theorem createKey_nonpositive_length (fuel : nat) (k : string) (len : Z)
        (c : connStruct) :
  faults (sqliteConn c) = [] ->
  keyAbsent k (sqliteConn c) ->
  len <= 0 ->
  exists c' row,
    createKey (Datatypes.S fuel) k (mkCreateOpts len) c
    = Ret (key_id row, None) c'
    /\ tbl_keys (sqliteConn c') = tbl_keys (sqliteConn c) ++ [row]
    /\ key row = k /\ key_length row = len
    /\ key_id row = nextRowid (map key_id (tbl_keys (sqliteConn c)))
    /\ tbl_blobs (sqliteConn c') = tbl_blobs (sqliteConn c)
    /\ tbl_values (sqliteConn c') = tbl_values (sqliteConn c)
    /\ log (sqliteConn c')
       = log (sqliteConn c) ++ [SqlSelectKey k; SqlInsertKey k len].
Proof.
  intros Hf Ha Hlen.
  exists (afterInsertKey k len c).
  exists (mkKeyRow (nextRowid (map key_id (tbl_keys (sqliteConn c)))) k len
                   (now_ms (sqliteConn c)) 0).
  rewrite createKey_absent by assumption.
  cbn [Length createKeyLoop].
  replace (0 <? len) with false by (symmetry; apply Z.ltb_ge; exact Hlen).
  unfold ret, afterInsertKey.
  cbn [sqliteConn set_sqliteConn run snd logged set_log set_keys
       set_lastInsertRowID tbl_keys tbl_blobs tbl_values log now_ms
       key key_id key_length].
  rewrite <- app_assoc.
  repeat split; reflexivity.
Qed.

Lemma createKey_nonpositive_length_witness :
  exists c' row,
    createKey 1 "k" (mkCreateOpts (-3)) (Model.emptyConn 16)
    = Ret (key_id row, None) c'
    /\ tbl_keys (sqliteConn c') = [row]
    /\ key row = "k" /\ key_length row = -3
    /\ key_id row = 1
    /\ tbl_blobs (sqliteConn c') = []
    /\ tbl_values (sqliteConn c') = []
    /\ log (sqliteConn c') = [SqlSelectKey "k"; SqlInsertKey "k" (-3)].
Proof.
  apply (@createKey_nonpositive_length 0 "k" (-3) (Model.emptyConn 16)).
  - reflexivity.
  - intros r [].
  - lia.
Defined.

(** C4.  For a key [k] that has no row in [keys] and a length [len > 0],
    with a positive [maxBlobSize] [m] (the end [n * m] of the last chunk
    being an [int64], so that the offsets do not wrap), on an engine that
    refuses nothing, [createKey k {len}] appends one row to
    [keys] and then, for each offset [i * m] below [len] and only for
    those, in increasing order, a blob of [min m (len - i * m)] zero bytes
    and the row of ["values"] that maps [(key_id, i * m)] to the rowid of
    that blob; the number of chunks is the ceiling of [len / m]. *)
Theorem createKey_chunks (fuel : nat) (k : string) (len : Z) (c : connStruct) :
  let m := maxBlobSize c in
  let n := chunkCount len m in
  let b0 := nextRowid (map blob_id (tbl_blobs (sqliteConn c))) in
  faults (sqliteConn c) = [] ->
  keyAbsent k (sqliteConn c) ->
  0 < len -> 0 < m -> Z.of_nat n * m <= Int64.max_int ->
  (n < fuel)%nat ->
  exists c' row,
    createKey fuel k (mkCreateOpts len) c = Ret (key_id row, None) c'
    /\ tbl_keys (sqliteConn c') = tbl_keys (sqliteConn c) ++ [row]
    /\ key row = k /\ key_length row = len
    /\ tbl_blobs (sqliteConn c')
       = tbl_blobs (sqliteConn c) ++ map (chunkBlob len m b0) (seq 0 n)
    /\ tbl_values (sqliteConn c')
       = tbl_values (sqliteConn c)
         ++ map (chunkValue m (key_id row) b0) (seq 0 n)
    /\ log (sqliteConn c')
       = log (sqliteConn c)
         ++ [SqlSelectKey k; SqlInsertKey k len]
         ++ flat_map (chunkStmts len m (key_id row) b0) (seq 0 n)
    /\ (forall i : nat, (i < n)%nat <-> Z.of_nat i * m < len)
    /\ Z.of_nat n = (len + m - 1) / m.
Proof.
  intros m n b0 Hf Ha Hlen Hm Hov Hfuel.
  set (kid := nextRowid (map key_id (tbl_keys (sqliteConn c)))).
  destruct (@createKeyLoop_rounds kid len b0 n 0%nat fuel
              (afterInsertKey k len c))
    as (c' & Hrun & _ & _ & _ & Hk & Hb & Hv & Hl).
  - exact Hf.
  - exact Hm.
  - change (maxBlobSize (afterInsertKey k len c)) with m. cbn [Nat.add].
    exact Hov.
  - change (maxBlobSize (afterInsertKey k len c)) with m. cbn [Nat.add].
    destruct (Z.le_gt_cases len (Z.of_nat n * m)) as [H|H]; [exact H|].
    exfalso. apply (chunkCount_spec n Hm Hlen) in H. fold n in H. lia.
  - intros Hn. change (maxBlobSize (afterInsertKey k len c)) with m.
    cbn [Nat.add].
    assert (H : (Nat.pred n < chunkCount len m)%nat) by (fold n; lia).
    apply (chunkCount_spec _ Hm Hlen) in H.
    replace (Z.of_nat n - 1) with (Z.of_nat (Nat.pred n)) by lia. exact H.
  - cbn. fold b0. lia.
  - exact Hfuel.
  - exists c'.
    exists (mkKeyRow kid k len (now_ms (sqliteConn c)) 0).
    rewrite createKey_absent by assumption. cbn [Length].
    change (maxBlobSize (afterInsertKey k len c)) with m in *.
    cbn [Z.of_nat Z.mul] in Hrun. fold kid. rewrite Hrun.
    cbn [key_id key key_length].
    split; [reflexivity|].
    split; [rewrite Hk; reflexivity|].
    split; [reflexivity|]. split; [reflexivity|].
    split; [rewrite Hb; reflexivity|].
    split; [rewrite Hv; reflexivity|].
    split.
    { rewrite Hl. unfold afterInsertKey.
      cbn [sqliteConn set_sqliteConn run snd logged set_log set_keys
           set_lastInsertRowID log].
      rewrite <- !app_assoc. reflexivity. }
    split.
    { intros i. apply chunkCount_spec; assumption. }
    { unfold n, chunkCount. apply Z2Nat.id. apply Z.div_pos; lia. }
Qed.

Lemma createKey_chunks_witness :
  exists c' row,
    createKey 8 "k" (mkCreateOpts 100) (Model.emptyConn 16)
    = Ret (key_id row, None) c'
    /\ tbl_keys (sqliteConn c') = [row]
    /\ key row = "k" /\ key_length row = 100
    /\ tbl_blobs (sqliteConn c') = map (chunkBlob 100 16 1) (seq 0 7)
    /\ tbl_values (sqliteConn c')
       = map (chunkValue 16 (key_id row) 1) (seq 0 7)
    /\ log (sqliteConn c')
       = [SqlSelectKey "k"; SqlInsertKey "k" 100]
         ++ flat_map (chunkStmts 100 16 (key_id row) 1) (seq 0 7)
    /\ (forall i : nat, (i < 7)%nat <-> Z.of_nat i * 16 < 100)
    /\ Z.of_nat 7 = (100 + 16 - 1) / 16.
Proof.
  apply (@createKey_chunks 8 "k" 100 (Model.emptyConn 16)).
  - reflexivity.
  - intros r [].
  - lia.
  - reflexivity.
  - vm_compute. discriminate.
  - vm_compute. lia.
Defined.

Lemma key_present_or_absent k (c : sqlite_Conn) :
  (exists r, In r (tbl_keys c) /\ key r = k) \/ keyAbsent k c.
Proof.
  destruct (in_dec string_dec k (map key (tbl_keys c))) as [Hin|Hnot].
  - left. apply in_map_iff in Hin. destruct Hin as (r & E & Hr).
    exists r. split; assumption.
  - right. intros r Hr E. apply Hnot. rewrite <- E. apply in_map. exact Hr.
Qed.

(** C3.  On an engine that refuses nothing and a [keys] table that honours
    the uniqueness of [key]: if a row of [keys] has the key [k], then
    [createKey k n] returns that row's [key_id] without error, the three
    tables keep their rows and the only statement handed to the engine is
    the lookup; and whenever a call [createKey k n] has returned a key id
    without error, a second call returns the same id and leaves the rows
    of the three tables as the first call left them. *)
Theorem createKey_idempotent (fuel : nat) (k : string) (create : CreateOpts)
        (c : connStruct) :
  faults (sqliteConn c) = [] ->
  keysUnique (sqliteConn c) ->
  (forall r, In r (tbl_keys (sqliteConn c)) -> key r = k ->
     exists c',
       createKey fuel k create c = Ret (key_id r, None) c'
       /\ sameRows (sqliteConn c) (sqliteConn c')
       /\ log (sqliteConn c') = log (sqliteConn c) ++ [SqlSelectKey k])
  /\ (forall id1 c1,
        createKey fuel k create c = Ret (id1, None) c1 ->
        exists c2,
          createKey fuel k create c1 = Ret (id1, None) c2
          /\ sameRows (sqliteConn c1) (sqliteConn c2)
          /\ log (sqliteConn c2) = log (sqliteConn c1) ++ [SqlSelectKey k]).
Proof.
  intros Hf Hu.
  assert (Hfound :
    forall c0 r, faults (sqliteConn c0) = [] -> keysUnique (sqliteConn c0) ->
      In r (tbl_keys (sqliteConn c0)) ->
      exists c',
        createKey fuel (key r) create c0 = Ret (key_id r, None) c'
        /\ sameRows (sqliteConn c0) (sqliteConn c')
        /\ log (sqliteConn c') = log (sqliteConn c0) ++ [SqlSelectKey (key r)]).
  { intros c0 r Hf0 Hu0 Hin.
    eexists. split; [apply createKey_present; assumption|].
    split; [repeat split|]; reflexivity. }
  split.
  - intros r Hin <-. apply Hfound; assumption.
  - intros id1 c1 Hrun.
    destruct (key_present_or_absent k (sqliteConn c)) as [(r & Hin & <-)|Ha].
    + rewrite createKey_present in Hrun by assumption.
      inversion Hrun; subst. apply Hfound; assumption.
    + rewrite createKey_absent in Hrun by assumption.
      destruct (createKeyLoop _ _ _ _ _ _) as [e c'| |] eqn:Hloop;
        try discriminate Hrun.
      inversion Hrun; subst.
      apply createKeyLoop_frame in Hloop; [|exact Hf].
      destruct Hloop as [Hf1 Hk1].
      set (row := mkKeyRow (nextRowid (map key_id (tbl_keys (sqliteConn c))))
                           k (Length create) (now_ms (sqliteConn c)) 0).
      assert (Hk1' : tbl_keys (sqliteConn c1) = tbl_keys (sqliteConn c) ++ [row])
        by (rewrite Hk1; reflexivity).
      apply (Hfound c1 row).
      * exact Hf1.
      * unfold keysUnique. rewrite Hk1', map_app. apply NoDup_app.
        -- exact Hu.
        -- cbn. constructor; [intros [] | constructor].
        -- intros a Hin [E|[]]. cbn in E. subst a.
           apply in_map_iff in Hin. destruct Hin as (r & E & Hr).
           exact (Ha r Hr E).
      * rewrite Hk1'. apply in_or_app. right. left. reflexivity.
Qed.

Lemma createKey_idempotent_witness :
  let c := mkConnStruct
             (mkConn [mkKeyRow 1 "k" 100 0 0] [] [] [] true 0 9 [] []) [] 16 in
  (forall r, In r [mkKeyRow 1 "k" 100 0 0] -> key r = "k"%string ->
     exists c',
       createKey 8 "k" (mkCreateOpts 100) c = Ret (key_id r, None) c'
       /\ sameRows (sqliteConn c) (sqliteConn c')
       /\ log (sqliteConn c') = [SqlSelectKey "k"])
  /\ (forall id1 c1,
        createKey 8 "k" (mkCreateOpts 100) c = Ret (id1, None) c1 ->
        exists c2,
          createKey 8 "k" (mkCreateOpts 100) c1 = Ret (id1, None) c2
          /\ sameRows (sqliteConn c1) (sqliteConn c2)
          /\ log (sqliteConn c2) = log (sqliteConn c1) ++ [SqlSelectKey "k"]).
Proof.
  intros c.
  apply (@createKey_idempotent 8 "k" (mkCreateOpts 100) c).
  - reflexivity.
  - repeat constructor. simpl. intros [].
Defined.

(** A key of 100 bytes in chunks of 16: seven chunks, at the offsets 0, 16,
    ..., 96, the last of 4 bytes; a second call returns the same key id and
    finds the rows as the first left them. *)
Example createKey_100_by_16 :
  match createKey 8 "k" (mkCreateOpts 100) (Model.emptyConn 16) with
  | Ret (kid, err) c1 =>
      kid = 1 /\ err = None
      /\ map value_offset (tbl_values (sqliteConn c1))
         = [0; 16; 32; 48; 64; 80; 96]
      /\ map blob_length (tbl_blobs (sqliteConn c1))
         = [16; 16; 16; 16; 16; 16; 4]
      /\ map key_length (tbl_keys (sqliteConn c1)) = [100]
      /\ match createKey 8 "k" (mkCreateOpts 100) c1 with
         | Ret (kid', err') c2 =>
             kid' = 1 /\ err' = None
             /\ tbl_values (sqliteConn c2) = tbl_values (sqliteConn c1)
             /\ tbl_blobs (sqliteConn c2) = tbl_blobs (sqliteConn c1)
             /\ tbl_keys (sqliteConn c2) = tbl_keys (sqliteConn c1)
         | _ => False
         end
  | _ => False
  end.
Proof. vm_compute. repeat split. Qed.

(** A refusal of the engine in the middle of the chunks is a panic. *)
Example createKey_full_disk :
  createKey 8 "k" (mkCreateOpts 100)
            (mkConnStruct
               (mkConn [] [] [] [] true 0 9
                       [None; None; None; None; Some SQLITE_FULL] [])
               [] 16)
  = Panic (PanicError (SqliteError SQLITE_FULL)).
Proof. vm_compute. reflexivity. Qed.

(** Without fuel for its rounds the loop does not return: a [maxBlobSize]
    of 0 never advances the offset. *)
Example createKey_zero_maxBlobSize :
  createKey 50 "k" (mkCreateOpts 100) (Model.emptyConn 0) = OutOfFuel.
Proof. vm_compute. reflexivity. Qed.

(** ** Access accounting *)

Lemma step_accepted q c :
  nextAccepted c ->
  step q c
  = (inr (fst (run q (set_faults (tl (faults c)) (logged q c)))),
     snd (run q (set_faults (tl (faults c)) (logged q c)))).
Proof.
  unfold nextAccepted, step, logged. intros H.
  cbn [faults set_log].
  destruct (faults c) as [|[code|] fs] eqn:E; cbn in H; try discriminate H.
  - cbn [tl].
    replace (set_faults [] (set_log (log c ++ [q]) c))
      with (set_log (log c ++ [q]) c)
      by (unfold set_faults, set_log; cbn; rewrite E; reflexivity).
    destruct (run q _); reflexivity.
  - cbn [tl]. destruct (run q _); reflexivity.
Qed.

(** C8, as the code has it.  When the engine refuses the update of
    [accessedKey] with the result code [SQLITE_BUSY] itself, the call
    returns [nil] if [ignoreBusy] is set and the engine's error if it is
    not, and [keys] is as it was.  When the engine refuses it with an
    extended code of [BUSY] (a code whose primary code is [SQLITE_BUSY]
    and that is not [SQLITE_BUSY]: [SQLITE_BUSY_SNAPSHOT],
    [SQLITE_BUSY_RECOVERY], [SQLITE_BUSY_TIMEOUT]), the call returns the
    engine's error whether [ignoreBusy] is set or not: the comparison of
    [IsResultCode] is on the whole code.  When the engine accepts the
    update, the call returns [nil] and every row of [keys] with the given
    [key_id] has [last_used] set to the engine's clock in milliseconds and
    [access_count] raised by one, the other rows and columns being
    kept. *)
Theorem accessedKey_busy (keyId : rowid) (c : connStruct) :
  (nextRefused SQLITE_BUSY (sqliteConn c) ->
   (exists c', accessedKey keyId true c = Ret None c'
               /\ tbl_keys (sqliteConn c') = tbl_keys (sqliteConn c))
   /\ (exists c', accessedKey keyId false c
                  = Ret (Some (SqliteError SQLITE_BUSY)) c'
                  /\ tbl_keys (sqliteConn c') = tbl_keys (sqliteConn c)))
  /\ (forall code,
        ToPrimary code = SQLITE_BUSY -> code <> SQLITE_BUSY ->
        nextRefused code (sqliteConn c) ->
        forall ignoreBusy, exists c',
          accessedKey keyId ignoreBusy c = Ret (Some (SqliteError code)) c'
          /\ tbl_keys (sqliteConn c') = tbl_keys (sqliteConn c))
  /\ (nextAccepted (sqliteConn c) ->
      forall ignoreBusy, exists c',
        accessedKey keyId ignoreBusy c = Ret None c'
        /\ Forall2 (accessed (now_ms (sqliteConn c)) keyId)
                   (tbl_keys (sqliteConn c)) (tbl_keys (sqliteConn c'))).
Proof.
  split; [|split].
  - intros [fs Hfs].
    split; eexists; unfold accessedKey, sqliteExec, sqliteQuery, Exec, bind, step;
      cbn [faults set_log]; rewrite Hfs; cbn; split; reflexivity.
  - intros code _ Hne [fs Hfs] ignoreBusy. eexists.
    unfold accessedKey, sqliteExec, sqliteQuery, Exec, bind, step.
    cbn [faults set_log]. rewrite Hfs. unfold ret. cbv beta iota.
    cbn [IsResultCode ErrIsResultCode].
    replace (ResultCode_eqb code SQLITE_BUSY) with false
      by (symmetry; apply Z.eqb_neq; exact Hne).
    rewrite andb_false_r. split; reflexivity.
  - intros Hacc ignoreBusy. eexists.
    unfold accessedKey, sqliteExec, sqliteQuery, Exec, bind.
    rewrite step_accepted by exact Hacc.
    cbn [run fst snd].
    split; [destruct ignoreBusy; reflexivity|].
    cbn [sqliteConn set_sqliteConn tbl_keys set_keys set_faults logged set_log
         now_ms].
    induction (tbl_keys (sqliteConn c)) as [|r l IH]; cbn [map];
      constructor; [|exact IH].
    unfold accessed, touchKey. destruct (key_id r =? keyId); cbn; auto.
Qed.

Lemma accessedKey_busy_witness :
  let c := mkConnStruct
             (mkConn [mkKeyRow 1 "a" 60 5 0] [] [] [] true 0 9 [] []) [] 16 in
  let busy := mkConnStruct
                (mkConn [mkKeyRow 1 "a" 60 5 0] [] [] [] true 0 9
                        [Some SQLITE_BUSY] []) [] 16 in
  let snapshot := mkConnStruct
                    (mkConn [mkKeyRow 1 "a" 60 5 0] [] [] [] true 0 9
                            [Some SQLITE_BUSY_SNAPSHOT] []) [] 16 in
  ((exists c', accessedKey 1 true busy = Ret None c'
               /\ tbl_keys (sqliteConn c') = [mkKeyRow 1 "a" 60 5 0])
   /\ (exists c', accessedKey 1 false busy
                  = Ret (Some (SqliteError SQLITE_BUSY)) c'
                  /\ tbl_keys (sqliteConn c') = [mkKeyRow 1 "a" 60 5 0]))
  /\ (forall ignoreBusy, exists c',
        accessedKey 1 ignoreBusy snapshot
        = Ret (Some (SqliteError SQLITE_BUSY_SNAPSHOT)) c'
        /\ tbl_keys (sqliteConn c') = [mkKeyRow 1 "a" 60 5 0])
  /\ (forall ignoreBusy, exists c',
        accessedKey 1 ignoreBusy c = Ret None c'
        /\ Forall2 (accessed 9 1) [mkKeyRow 1 "a" 60 5 0]
                   (tbl_keys (sqliteConn c'))).
Proof.
  intros c busy snapshot. split; [|split].
  - apply (proj1 (accessedKey_busy 1 busy)). exists []. reflexivity.
  - apply (proj1 (proj2 (accessedKey_busy 1 snapshot)) SQLITE_BUSY_SNAPSHOT).
    + reflexivity.
    + discriminate.
    + exists []. reflexivity.
  - apply (proj2 (proj2 (accessedKey_busy 1 c))). reflexivity.
Defined.

(** C8, as the specification has it, fails: the engine refuses the update
    with [SQLITE_BUSY_SNAPSHOT], a failure whose result code is [BUSY]
    (its primary code is [SQLITE_BUSY]), [ignoreBusy] is set, and
    [accessedKey] does not return [nil]: it returns the engine's error. *)
Lemma accessedKey_busy_snapshot_not_ignored :
  let c := mkConnStruct
             (mkConn [mkKeyRow 1 "a" 60 5 0] [] [] [] true 0 9
                     [Some SQLITE_BUSY_SNAPSHOT] []) [] 16 in
  ToPrimary SQLITE_BUSY_SNAPSHOT = SQLITE_BUSY
  /\ nextRefused SQLITE_BUSY_SNAPSHOT (sqliteConn c)
  /\ ~ (exists c', accessedKey 1 true c = Ret None c')
  /\ (exists c',
        accessedKey 1 true c
        = Ret (Some (SqliteError SQLITE_BUSY_SNAPSHOT)) c').
Proof.
  intros c.
  split; [reflexivity|].
  split; [exists []; reflexivity|].
  split.
  - intros [c' H]. vm_compute in H. discriminate H.
  - eexists. reflexivity.
Qed.

(** ** The capacity directive of [initDatabase] *)

Section InitDatabase.

Variable setAndVerifyPragma : string -> PragmaValue -> M sqlite_Conn error.
Variable setAndMaybeVerifyPragma :
  string -> string -> Option string -> M sqlite_Conn error.
Variable execTransientReturningText :
  string -> M sqlite_Conn (Option string * error).
Variable ExecScript : string -> M sqlite_Conn error.
Variable WithTransactionRollbackOnError :
  string -> M sqlite_Conn error -> M sqlite_Conn error.
Variables initScript initTriggers : string.

Let initDatabase' :=
  initDatabase setAndVerifyPragma setAndMaybeVerifyPragma
               execTransientReturningText ExecScript
               WithTransactionRollbackOnError initScript initTriggers.
Let before' :=
  initDatabaseBeforeCapacity setAndVerifyPragma setAndMaybeVerifyPragma
               execTransientReturningText ExecScript
               WithTransactionRollbackOnError initScript initTriggers.

Lemma initDatabase_split opts c :
  initDatabase' opts c
  = match before' opts c with
    | Ret None c1 =>
        (if Capacity opts <? 0 then unlimitCapacity
         else if Capacity opts >? 0 then setCapacity (Capacity opts)
         else ret None) c1
    | other => other
    end.
Proof.
  unfold initDatabase', before', initDatabase, initDatabaseBeforeCapacity.
  unfold orReturn, orReturnWith, bind.
  repeat match goal with
         | |- context [match ?x with Ret _ _ => _ | Panic _ => _
                                | OutOfFuel => _ end] =>
             destruct x as [[?|] ?| |]; cbn [isErr ret]; try reflexivity
         end.
Qed.

(** C1.  From the state [c1] in which the steps that precede it leave the
    connection without error, and when the engine accepts the statement,
    the capacity directive of [initDatabase] does this to [setting]: with
    a negative [Capacity] no row named [capacity] is left; with a positive
    [Capacity] exactly one row named [capacity] is left, and it carries
    [Capacity], whatever rows of that name there were; in both cases the
    rows of other names are kept; with [Capacity] zero the connection is
    returned as it was, no statement being handed to the engine.  Each
    time [initDatabase] returns [nil]. *)
Theorem initDatabase_capacity (opts : InitDbOpts) (c c1 : sqlite_Conn) :
  before' opts c = Ret None c1 ->
  nextAccepted c1 ->
  exists c2,
    initDatabase' opts c = Ret None c2
    /\ (Capacity opts < 0 ->
        filter isCapacity (tbl_setting c2) = []
        /\ filter (fun s => negb (isCapacity s)) (tbl_setting c2)
           = filter (fun s => negb (isCapacity s)) (tbl_setting c1)
        /\ log c2 = log c1 ++ [SqlDeleteCapacity])
    /\ (Capacity opts > 0 ->
        filter isCapacity (tbl_setting c2)
        = [mkSettingRow "capacity" (Capacity opts)]
        /\ filter (fun s => negb (isCapacity s)) (tbl_setting c2)
           = filter (fun s => negb (isCapacity s)) (tbl_setting c1)
        /\ log c2 = log c1 ++ [SqlInsertCapacity (Capacity opts)])
    /\ (Capacity opts = 0 -> c2 = c1).
Proof.
  intros Hpre Hacc. rewrite initDatabase_split, Hpre.
  destruct (Z.ltb_spec (Capacity opts) 0) as [Hneg|Hnn].
  - eexists. split.
    + unfold unlimitCapacity, sqlitexExec, Exec, bind.
      rewrite step_accepted by exact Hacc. reflexivity.
    + cbn [run snd tbl_setting set_setting log set_faults logged set_log].
      split; [intros _|split; intros; lia].
      split; [|split; [|reflexivity]].
      * induction (tbl_setting c1) as [|s l IH]; [reflexivity|].
        cbn [filter]. destruct (isCapacity s) eqn:E; cbn [negb filter];
          [exact IH | rewrite E; exact IH].
      * induction (tbl_setting c1) as [|s l IH]; [reflexivity|].
        cbn [filter]. destruct (isCapacity s) eqn:E; cbn [negb filter];
          [exact IH | rewrite E; cbn [negb]; f_equal; exact IH].
  - destruct (Z.gtb_spec (Capacity opts) 0) as [Hpos|Hz].
    + eexists. split.
      * unfold setCapacity, sqlitexExec, Exec, bind.
        rewrite step_accepted by exact Hacc. reflexivity.
      * cbn [run snd tbl_setting set_setting log set_faults logged set_log].
        split; [intros; lia|split; [intros _|intros; lia]].
        unfold insertSetting. cbn [setting_name].
        change (fun s => negb (String.eqb (setting_name s) "capacity"))
          with (fun s => negb (isCapacity s)).
        rewrite !filter_app. cbn [filter isCapacity setting_name negb].
        change (String.eqb "capacity" "capacity") with true. cbv iota.
        cbn [negb]. rewrite app_nil_r.
        split; [|split; [|reflexivity]].
        -- induction (tbl_setting c1) as [|s l IH]; [reflexivity|].
           cbn [filter]. destruct (isCapacity s) eqn:E; cbn [negb filter];
             [exact IH | rewrite E; exact IH].
        -- induction (tbl_setting c1) as [|s l IH]; [reflexivity|].
           cbn [filter]. destruct (isCapacity s) eqn:E; cbn [negb filter];
             [exact IH | rewrite E; cbn [negb]; f_equal; exact IH].
    + exists c1. split; [reflexivity|].
      split; [intros; lia|split; [intros; lia|reflexivity]].
Qed.

End InitDatabase.

Lemma initDatabase_capacity_witness :
  let opts := mkInitDbOpts (mkOption false "") (mkOption false "") false 0
                           false 100 in
  let c := mkConn [] [] [] [mkSettingRow "capacity" 50; mkSettingRow "other" 7]
                  true 0 9 [] [] in
  exists c2,
    initDatabase Model.setAndVerifyPragma Model.setAndMaybeVerifyPragma
                 (Model.answering "full") Model.ExecScript
                 Model.WithTransactionRollbackOnError "" "" opts c
    = Ret None c2
    /\ (100 < 0 ->
        filter isCapacity (tbl_setting c2) = []
        /\ filter (fun s => negb (isCapacity s)) (tbl_setting c2)
           = [mkSettingRow "other" 7]
        /\ log c2 = [SqlDeleteCapacity])
    /\ (100 > 0 ->
        filter isCapacity (tbl_setting c2) = [mkSettingRow "capacity" 100]
        /\ filter (fun s => negb (isCapacity s)) (tbl_setting c2)
           = [mkSettingRow "other" 7]
        /\ log c2 = [SqlInsertCapacity 100])
    /\ (100 = 0 -> c2 = c).
Proof.
  intros opts c.
  apply (@initDatabase_capacity
           Model.setAndVerifyPragma Model.setAndMaybeVerifyPragma
           (Model.answering "full") Model.ExecScript
           Model.WithTransactionRollbackOnError "" "" opts c c).
  - reflexivity.
  - reflexivity.
Defined.

(** ** The journal mode of [initConn] *)

Section InitConn.

Variable SynchronousMode : Type.
Variable setSynchronous : SynchronousMode -> M sqlite_Conn error.
Variable setAndVerifyPragma : string -> PragmaValue -> M sqlite_Conn error.
Variable execTransientReturningText :
  string -> M sqlite_Conn (Option string * error).

Let initConn' :=
  initConn setSynchronous setAndVerifyPragma execTransientReturningText.
Let before' := initConnBeforeJournalMode setSynchronous setAndVerifyPragma.
Let after' := @initConnAfterJournalMode SynchronousMode setAndVerifyPragma.

Lemma initConn_split opts pageSize c :
  String.eqb (SetJournalMode opts) "" = false ->
  initConn' opts pageSize c
  = match before' opts pageSize c with
    | Ret None c1 =>
        match execTransientReturningText
                ("pragma journal_mode=" ++ SetJournalMode opts)%string c1 with
        | Ret (journalMode, Some e) c2 => Ret (Some e) c2
        | Ret (journalMode, None) c2 =>
            if Ok journalMode
            then if String.eqb (Value journalMode) (SetJournalMode opts)
                 then after' opts c2
                 else Ret (Some (ErrUnexpectedJournalMode (Value journalMode)))
                          c2
            else Panic PanicUnwrap
        | Panic v => Panic v
        | OutOfFuel => OutOfFuel
        end
    | other => other
    end.
Proof.
  intros Hreq.
  unfold initConn', before', after', initConn, initConnBeforeJournalMode,
    initConnAfterJournalMode.
  rewrite Hreq.
  unfold orReturn, orReturnWith, bind, Unwrap.
  destruct (setSynchronous (SetSynchronous opts) c) as [[e|] c0| |];
    cbn [isErr ret]; try reflexivity.
  destruct (sqlitexExec SqlPragmaRecursiveTriggersOn c0) as [[e|] c0'| |];
    cbn [isErr ret]; try reflexivity.
  destruct (setPageSize setAndVerifyPragma pageSize c0') as [[e|] c1| |];
    cbn [isErr ret]; try reflexivity.
  unfold ret at 1.
  destruct (execTransientReturningText _ c1) as [[jm [e|]] c2| |];
    cbn [isErr ret]; try reflexivity.
  destruct (Ok jm); [|reflexivity].
  unfold ret at 1.
  destruct (String.eqb (Value jm) (SetJournalMode opts)); reflexivity.
Qed.

(** C6.  With a journal mode requested, from the state [c1] in which the
    pragmas that come first leave the connection without error, [initConn]
    executes [pragma journal_mode=<requested>] there: if that fails,
    [initConn] returns its error; if it yields the mode [actual], then
    [initConn] returns [ErrUnexpectedJournalMode{actual}] when [actual]
    differs from the requested mode, and goes on with the pragmas that
    remain (locking mode, mmap size, cache size) when it is the requested
    mode. *)
Theorem initConn_journal_mode (opts : InitConnOpts SynchronousMode)
        (pageSize : Z) (c c1 : sqlite_Conn) :
  SetJournalMode opts <> ""%string ->
  before' opts pageSize c = Ret None c1 ->
  (forall journalMode e c2,
     execTransientReturningText
       ("pragma journal_mode=" ++ SetJournalMode opts)%string c1
     = Ret (journalMode, Some e) c2 ->
     initConn' opts pageSize c = Ret (Some e) c2)
  /\ (forall actual c2,
        execTransientReturningText
          ("pragma journal_mode=" ++ SetJournalMode opts)%string c1
        = Ret (mkOption true actual, None) c2 ->
        (actual <> SetJournalMode opts ->
         initConn' opts pageSize c
         = Ret (Some (ErrUnexpectedJournalMode actual)) c2)
        /\ (actual = SetJournalMode opts ->
            initConn' opts pageSize c = after' opts c2)).
Proof.
  intros Hreq Hpre.
  assert (Hreq' : String.eqb (SetJournalMode opts) "" = false)
    by (apply String.eqb_neq; exact Hreq).
  split.
  - intros jm e c2 Hq. rewrite initConn_split, Hpre, Hq by exact Hreq'.
    reflexivity.
  - intros actual c2 Hq. rewrite initConn_split, Hpre, Hq by exact Hreq'.
    cbn [Ok Value]. split; intros H.
    + apply String.eqb_neq in H. rewrite H. reflexivity.
    + apply String.eqb_eq in H. rewrite H. reflexivity.
Qed.

End InitConn.

Lemma initConn_journal_mode_witness :
  let opts := mkInitConnOpts "normal"%string "wal"%string ""%string false 0
                             (mkOption false 0) in
  let c1 := snd (run SqlPragmaRecursiveTriggersOn
                     (logged SqlPragmaRecursiveTriggersOn Model.emptyDb)) in
  (forall journalMode e c2,
     Model.answering "delete" "pragma journal_mode=wal"%string c1
     = Ret (journalMode, Some e) c2 ->
     initConn Model.setSynchronous Model.setAndVerifyPragma
              (Model.answering "delete") opts 4096 Model.emptyDb
     = Ret (Some e) c2)
  /\ (forall actual c2,
        Model.answering "delete" "pragma journal_mode=wal"%string c1
        = Ret (mkOption true actual, None) c2 ->
        (actual <> "wal"%string ->
         initConn Model.setSynchronous Model.setAndVerifyPragma
                  (Model.answering "delete") opts 4096 Model.emptyDb
         = Ret (Some (ErrUnexpectedJournalMode actual)) c2)
        /\ (actual = "wal"%string ->
            initConn Model.setSynchronous Model.setAndVerifyPragma
                     (Model.answering "delete") opts 4096 Model.emptyDb
            = initConnAfterJournalMode Model.setAndVerifyPragma opts c2)).
Proof.
  intros opts c1.
  apply (@initConn_journal_mode string Model.setSynchronous
           Model.setAndVerifyPragma (Model.answering "delete")
           opts 4096 Model.emptyDb c1).
  - discriminate.
  - reflexivity.
Defined.

(** The scenario of the journal mode check: [wal] is requested and the
    engine answers [delete]. *)
Example initConn_wal_answered_delete :
  exists c,
    initConn Model.setSynchronous Model.setAndVerifyPragma
             (Model.answering "delete")
             (mkInitConnOpts "normal"%string "wal"%string ""%string false 0
                             (mkOption false 0))
             4096 Model.emptyDb
    = Ret (Some (ErrUnexpectedJournalMode "delete")) c.
Proof. eexists. reflexivity. Qed.

(** ** [PinnedBlob.Reopen] *)

(** C5, as the code has it.  When the lookup of the name reports no row
    (and no error), [Reopen] returns the error it makes on the spot,
    ["rowid for name not found"]; that error is not [ErrNotFound], the
    error of a key lookup on a missing key, nor does it wrap it; the
    connection is as the lookup left it and the handle is the one it was:
    same row, same size, not aborted if it was not. *)
Theorem Reopen_not_found
        (rowidForBlob : string -> M sqlite_Conn (rowid * Z * bool * error))
        (name : string) (c c' : sqlite_Conn) (b : sqlite_Blob)
        (r : rowid) (len : Z) :
  rowidForBlob name c = Ret (r, len, false, None) c' ->
  Reopen rowidForBlob name (c, b)
  = Ret (Some (ErrorsNew "rowid for name not found")) (c', b)
  /\ ErrorsNew "rowid for name not found" <> ErrNotFound
  /\ errorsIs (ErrorsNew "rowid for name not found") ErrNotFound = false.
Proof.
  intros H. unfold Reopen. rewrite H. cbn [isErr negb].
  split; [reflexivity|]. split; [discriminate | reflexivity].
Qed.

Lemma Reopen_not_found_witness :
  Reopen Model.rowidForBlob "missing" (Model.emptyDb, mkBlob 7 16 false false)
  = Ret (Some (ErrorsNew "rowid for name not found"))
        (logged (SqlSelectKey "missing") Model.emptyDb, mkBlob 7 16 false false)
  /\ ErrorsNew "rowid for name not found" <> ErrNotFound
  /\ errorsIs (ErrorsNew "rowid for name not found") ErrNotFound = false.
Proof.
  apply (@Reopen_not_found Model.rowidForBlob "missing" Model.emptyDb
           (logged (SqlSelectKey "missing") Model.emptyDb)
           (mkBlob 7 16 false false) 0 0).
  reflexivity.
Defined.

(** C5, as the specification has it, fails: no row of [keys] has the key
    ["missing"], a key lookup answers [ErrNotFound], and [Reopen] does not
    return [ErrNotFound]. *)
Lemma Reopen_missing_is_not_ErrNotFound :
  keyAbsent "missing" Model.emptyDb
  /\ (exists cols c',
        openKey "missing" (Model.emptyConn 16)
        = Ret (cols, Some ErrNotFound) c')
  /\ ~ (exists s,
          Reopen Model.rowidForBlob "missing"
                 (Model.emptyDb, mkBlob 7 16 false false)
          = Ret (Some ErrNotFound) s).
Proof.
  split; [intros r []|].
  split; [eexists; eexists; reflexivity|].
  intros [s H]. vm_compute in H. discriminate H.
Qed.

(** C9.  When the lookup of the name itself fails with an error, [Reopen]
    returns that error and the handle is the one it was: on the same row,
    with the same size, and not aborted if it was not.  And whenever
    [Reopen] returns with a handle that is aborted and was not before, the
    lookup had found a row without error and it is the retargeting of the
    handle to that row that failed, with the error returned. *)
Theorem Reopen_lookup_error
        (rowidForBlob : string -> M sqlite_Conn (rowid * Z * bool * error))
        (name : string) (c : sqlite_Conn) (b : sqlite_Blob) :
  (forall r len ok e c',
     rowidForBlob name c = Ret (r, len, ok, Some e) c' ->
     Reopen rowidForBlob name (c, b) = Ret (Some e) (c', b))
  /\ (forall err c' b',
        Reopen rowidForBlob name (c, b) = Ret err (c', b') ->
        blob_aborted b = false -> blob_aborted b' = true ->
        exists r len c1 e,
          rowidForBlob name c = Ret (r, len, true, None) c1
          /\ BlobReopen r (c1, b) = Ret (Some e) (c', b')
          /\ err = Some e).
Proof.
  split.
  - intros r len ok e c' H. unfold Reopen. rewrite H. reflexivity.
  - intros err c' b' H Hb Hb'. unfold Reopen in H.
    destruct (rowidForBlob name c) as [[[[r len] ok] [e|]] c1| |];
      try discriminate H; cbn [isErr] in H.
    + inversion H; subst. congruence.
    + destruct ok; cbn [negb] in H.
      * destruct err as [e|].
        -- exists r, len, c1, e. repeat split; assumption.
        -- exfalso. unfold BlobReopen in H. rewrite Hb in H.
           destruct (step (SqlBlobReopen r) c1) as [[code|rows] c2];
             [discriminate H|].
           destruct (find _ _); [|discriminate H].
           inversion H; subst. discriminate Hb'.
      * inversion H; subst. congruence.
Qed.

Lemma Reopen_lookup_error_witness :
  Reopen Model.rowidForBlob "x"
         (mkConn [] [] [] [] true 0 9 [Some SQLITE_BUSY] [],
          mkBlob 7 16 false false)
  = Ret (Some (SqliteError SQLITE_BUSY))
        (mkConn [] [] [] [] true 0 9 [] [SqlSelectKey "x"],
         mkBlob 7 16 false false).
Proof.
  apply (proj1 (@Reopen_lookup_error Model.rowidForBlob "x"
                  (mkConn [] [] [] [] true 0 9 [Some SQLITE_BUSY] [])
                  (mkBlob 7 16 false false))
               0 0 false (SqliteError SQLITE_BUSY)).
  reflexivity.
Defined.

(** A row found whose blob does not exist: the retargeting fails and the
    handle is aborted. *)
Example Reopen_retarget_fails :
  exists c',
    Reopen Model.rowidForBlob "x"
           (mkConn [mkKeyRow 3 "x" 0 0 0] [] [] [] true 0 9 [] [],
            mkBlob 7 16 false false)
    = Ret (Some (SqliteError SQLITE_ERROR)) (c', mkBlob 7 16 false true).
Proof. eexists. reflexivity. Qed.

(** ** [iterBlobs] *)

Lemma seekIndex_le k (m : BTree.Map) :
  (BTree.seekIndex k m <= List.length m)%nat.
Proof.
  induction m as [|[k' v] m IH]; cbn; [lia|].
  destruct (valueKey_compare k' k); lia.
Qed.

Lemma iterBlobsSeek_pos valueId startOffset (m : BTree.Map) :
  iterBlobsSeek valueId startOffset m
  = BTree.mkIterator
      m (Z.of_nat (BTree.seekIndex (mkValueKey valueId (add64 startOffset 1)) m)
         - 1).
Proof.
  unfold iterBlobsSeek, BTree.SeekGE, BTree.iterator, BTree.Valid,
    BTree.Prev, BTree.Last, BTree.Valid.
  cbn [BTree.it_map BTree.it_pos].
  pose proof (seekIndex_le (mkValueKey valueId (add64 startOffset 1)) m) as Hle.
  set (idx := BTree.seekIndex _ m) in *.
  destruct (Z.ltb_spec (Z.of_nat idx) (Z.of_nat (List.length m))) as [Hlt|Hge].
  - replace (0 <=? Z.of_nat idx) with true by (symmetry; apply Z.leb_le; lia).
    reflexivity.
  - rewrite andb_false_r. f_equal. lia.
Qed.

Lemma above_iff_not_below_succ (e : valueKey) valueId startOffset :
  keyAbove e (mkValueKey valueId startOffset)
  = match valueKey_compare e (mkValueKey valueId (startOffset + 1)) with
    | Lt => false
    | _ => true
    end.
Proof.
  unfold keyAbove, valueKey_compare. cbn [keyId offset].
  destruct (Z.compare_spec (keyId e) valueId); try reflexivity.
  destruct (Z.compare_spec (offset e) startOffset);
    destruct (Z.compare_spec (offset e) (startOffset + 1));
    reflexivity || lia.
Qed.

Lemma seekBack_some valueId startOffset (m : BTree.Map) :
  forall p,
    seekBack (mkValueKey valueId startOffset) (Some p) m
    = match BTree.seekIndex (mkValueKey valueId (startOffset + 1)) m with
      | O => p :: m
      | Datatypes.S i => skipn i m
      end.
Proof.
  induction m as [|[k v] m IH]; intros p; [reflexivity|].
  cbn [seekBack BTree.seekIndex fst].
  rewrite above_iff_not_below_succ.
  destruct (valueKey_compare k _); try reflexivity.
  rewrite IH.
  destruct (BTree.seekIndex _ m); reflexivity.
Qed.

Lemma seekBack_none valueId startOffset (m : BTree.Map) :
  seekBack (mkValueKey valueId startOffset) None m
  = suffixBefore (BTree.seekIndex (mkValueKey valueId (startOffset + 1)) m) m.
Proof.
  destruct m as [|[k v] m]; [reflexivity|].
  cbn [seekBack BTree.seekIndex fst].
  rewrite above_iff_not_below_succ.
  destruct (valueKey_compare k _); try reflexivity.
  rewrite seekBack_some. cbn [suffixBefore].
  destruct (BTree.seekIndex _ m); reflexivity.
Qed.

Lemma skipn_nth_cons {A} (d : A) (l : list A) :
  forall p, (p < List.length l)%nat ->
            skipn p l = nth p l d :: skipn (Datatypes.S p) l.
Proof.
  induction l as [|x l IH]; intros p Hp; [cbn in Hp; lia|].
  destruct p as [|p]; [reflexivity|].
  cbn [skipn nth]. apply IH. cbn in Hp. lia.
Qed.

Section IterBlobsProperties.

Variable openSqliteBlob : rowid -> bool -> M sqlite_Conn (sqlite_Blob * error).
Variable valueId : rowid.
Variable iter : iterFunc.
Variable write : bool.

Lemma cached_walk (m : BTree.Map) :
  forall (fuel p : nat) startOffset c,
    (List.length m - p < fuel)%nat ->
    iterBlobsCached fuel valueId iter (BTree.mkIterator m (Z.of_nat p)) true
                    startOffset c
    = exitOf (walkCached valueId iter (skipn p m) startOffset c).
Proof.
  induction fuel as [|fuel IH]; intros p startOffset c Hfuel; [lia|].
  cbn [iterBlobsCached].
  unfold BTree.Valid, BTree.Cur, BTree.Value, BTree.curEntry, BTree.Next.
  cbn [BTree.it_map BTree.it_pos]. rewrite Nat2Z.id.
  destruct (Nat.lt_ge_cases p (List.length m)) as [Hlt|Hge].
  - replace (0 <=? Z.of_nat p) with true by (symmetry; apply Z.leb_le; lia).
    replace (Z.of_nat p <? Z.of_nat (List.length m)) with true
      by (symmetry; apply Z.ltb_lt; lia).
    rewrite (skipn_nth_cons BTree.nilEntry m Hlt).
    destruct (nth p m BTree.nilEntry) as [k h].
    cbn [andb fst snd walkCached].
    replace (Z.of_nat p + 1) with (Z.of_nat (Datatypes.S p)) by lia.
    destruct (keyId k =? valueId); [|reflexivity].
    destruct (add64 (offset k) (Size h) >? startOffset).
    + unfold bind.
      destruct (liftConn (iter (offset k) h) c) as [[more [e|]] c'| |];
        try reflexivity.
      destruct more; cbn [isErr negb orb]; [|reflexivity].
      apply IH. lia.
    + apply IH. lia.
  - replace (Z.of_nat p <? Z.of_nat (List.length m)) with false
      by (symmetry; apply Z.ltb_ge; lia).
    rewrite andb_false_r. cbn [andb].
    rewrite skipn_all2 by lia. reflexivity.
Qed.

Lemma cached_from_seek (m : BTree.Map) (fuel idx : nat) startOffset c :
  (List.length m < fuel)%nat ->
  iterBlobsCached fuel valueId iter
                  (BTree.mkIterator m (Z.of_nat idx - 1)) true startOffset c
  = exitOf (walkCached valueId iter (suffixBefore idx m) startOffset c).
Proof.
  intros Hfuel. destruct idx as [|i].
  - destruct fuel as [|fuel]; [lia|]. reflexivity.
  - replace (Z.of_nat (Datatypes.S i) - 1) with (Z.of_nat i) by lia.
    cbn [suffixBefore]. apply cached_walk. lia.
Qed.

Lemma walk_at_max (rest : BTree.Map) c :
  walkCached valueId iter rest Int64.max_int c = Ret (inr Int64.max_int) c.
Proof.
  induction rest as [|[k h] rest IH]; [reflexivity|].
  cbn [walkCached].
  destruct (keyId k =? valueId); [|reflexivity].
  replace (add64 (offset k) (Size h) >? Int64.max_int) with false; [exact IH|].
  symmetry. rewrite Z.gtb_ltb. apply Z.ltb_ge.
  apply (wrap_in_range (offset k + Size h)).
Qed.

Lemma rows_stopped (rows : list Row) c :
  forRows (iterBlobsRow openSqliteBlob valueId iter write) rows false c
  = Ret (None, false) c.
Proof.
  induction rows as [|r rows IH]; [reflexivity|].
  cbn [forRows]. unfold bind. cbn [iterBlobsRow negb ret isErr]. exact IH.
Qed.

Lemma rows_walk (rows : list Row) :
  forall c,
    ('(err, _) <- forRows (iterBlobsRow openSqliteBlob valueId iter write)
                          rows true ;;
     ret err) c
    = walkRows openSqliteBlob valueId iter write rows c.
Proof.
  induction rows as [|r rows IH]; intros c; [reflexivity|].
  specialize (IH). unfold bind in *.
  cbn [forRows walkRows]. unfold bind.
  cbn [iterBlobsRow negb]. unfold openBlob, bind.
  destruct (liftConn (openSqliteBlob (ColumnInt64 r 1) write) c)
    as [[b [e|]] c1| |]; try reflexivity.
  cbn [isErr]. unfold get.
  destruct (BTree.Upsert (mkValueKey valueId (ColumnInt64 r 0)) b (blobs c1))
    as [m' [|]]; [reflexivity|].
  unfold put. cbn [ret panic].
  destruct (liftConn (iter (ColumnInt64 r 0) b) (set_blobsMap m' c1))
    as [[more [e|]] c2| |]; try reflexivity.
  unfold ret at 1 3. cbv iota beta. cbn [isErr]. destruct more.
  - apply IH.
  - rewrite rows_stopped. reflexivity.
Qed.

End IterBlobsProperties.

Section IterBlobsRefinement.

Variable openSqliteBlob : rowid -> bool -> M sqlite_Conn (sqlite_Blob * error).
Variable valueId : rowid.
Variable iter : iterFunc.
Variable write : bool.

Lemma query_walk startOffset c :
  ('(err, _) <- sqliteQuery (SqlSelectBlobs valueId startOffset)
                            (Some (iterBlobsRow openSqliteBlob valueId iter write))
                            true ;;
   ret err) c
  = match step (SqlSelectBlobs valueId startOffset) (sqliteConn c) with
    | (inl code, sc) => Ret (Some (SqliteError code)) (set_sqliteConn sc c)
    | (inr rows, sc) =>
        walkRows openSqliteBlob valueId iter write rows (set_sqliteConn sc c)
    end.
Proof.
  unfold sqliteQuery, Exec. unfold bind at 1.
  destruct (step _ _) as [[code|rows] sc]; [reflexivity|].
  apply (rows_walk openSqliteBlob valueId iter write rows (set_sqliteConn sc c)).
Qed.

(** C2.  For every value id and every [int64] start offset, with fuel for
    the entries of the map, [iterBlobs] is the iteration the specification
    words: from the entry before the first key strictly above
    [(value_id, startOffset)] (the last entry when no key is above), it
    walks the cached handles while they belong to the value, computing
    [blobEnd = offset + Size()], calling the callback exactly when
    [blobEnd > startOffset], returning at once when the callback returns an
    error or [more = false], and otherwise taking [blobEnd] for
    [startOffset]; then it runs the query of the rows of the value with
    [offset + length(blob) > startOffset] in the order of [offset], and for
    each row, until the callback asks to stop, opens a handle, puts it in
    the map (a replacement being a panic) and calls the callback on it. *)
Theorem iterBlobs_refines (fuel : nat) (startOffset : Z) (c : connStruct) :
  Int64.in_range startOffset ->
  (List.length (blobs c) < fuel)%nat ->
  iterBlobs openSqliteBlob fuel valueId iter write startOffset c
  = iterBlobsSpec openSqliteBlob valueId iter write startOffset c.
Proof.
  intros Hrange Hfuel.
  unfold iterBlobs, iterBlobsSpec.
  unfold bind at 1. unfold bind at 3. unfold get. cbv iota beta.
  rewrite iterBlobsSeek_pos.
  unfold bind at 1. unfold bind at 2.
  rewrite cached_from_seek by exact Hfuel.
  destruct (Z.eq_dec startOffset Int64.max_int) as [->|Hne].
  - rewrite !walk_at_max. cbn [exitOf]. apply query_walk.
  - assert (Hadd : add64 startOffset 1 = startOffset + 1).
    { unfold add64. apply wrap_small.
      unfold Int64.in_range, Int64.max_int, Int64.min_int in *. lia. }
    rewrite Hadd, seekBack_none.
    destruct (walkCached _ _ _ _ _) as [[err|so'] s'| |]; cbn [exitOf];
      try reflexivity.
    apply query_walk.
Qed.

End IterBlobsRefinement.

Lemma iterBlobs_refines_witness :
  let h := mkBlob 2 16 false false in
  let c := mkConnStruct
             (mkConn [mkKeyRow 1 "k" 40 0 0]
                     [mkBlobRow 1 (zeroblob 16); mkBlobRow 2 (zeroblob 16);
                      mkBlobRow 3 (zeroblob 8)]
                     [mkValueRow 1 0 1; mkValueRow 1 16 2; mkValueRow 1 32 3]
                     [] true 3 9 [] [])
             [(mkValueKey 1 16, h)] 16 in
  let iter : iterFunc := fun off b => ret (true, None) in
  iterBlobs Model.openSqliteBlob 2 1 iter false 20 c
  = iterBlobsSpec Model.openSqliteBlob 1 iter false 20 c.
Proof.
  intros h c iter.
  apply (@iterBlobs_refines Model.openSqliteBlob 1 iter false 2 20 c).
  - unfold Int64.in_range, Int64.min_int, Int64.max_int. lia.
  - simpl. lia.
Defined.

(** The same connection run: the cached handle at offset 16 holds the start
    offset 20, so the callback sees it first, then the handle opened on the
    chunk at offset 32, which joins the map; the chunk at offset 0 is not
    visited. *)
Example iterBlobs_from_20 :
  let h := mkBlob 2 16 false false in
  let c := mkConnStruct
             (mkConn [mkKeyRow 1 "k" 40 0 0]
                     [mkBlobRow 1 (zeroblob 16); mkBlobRow 2 (zeroblob 16);
                      mkBlobRow 3 (zeroblob 8)]
                     [mkValueRow 1 0 1; mkValueRow 1 16 2; mkValueRow 1 32 3]
                     [] true 3 9 [] [])
             [(mkValueKey 1 16, h)] 16 in
  let iter : iterFunc :=
    fun off b => modify (set_lastInsertRowID off) ;;; ret (true, None) in
  exists c',
    iterBlobs Model.openSqliteBlob 2 1 iter false 20 c = Ret None c'
    /\ blobs c' = [(mkValueKey 1 16, h);
                   (mkValueKey 1 32, mkBlob 3 8 false false)]
    /\ log (sqliteConn c') = [SqlSelectBlobs 1 32; SqlBlobOpen 3]
    /\ lastInsertRowID (sqliteConn c') = 32.
Proof. eexists. vm_compute. repeat split. Qed.

(** ** The upsert of [iterBlobs] *)

Lemma forRows_panics S L (f : Row -> L -> M S (error * L))
      (rows1 : list Row) (stmt : Row) (rows2 : list Row) :
  forall l l1 s s1 v,
    forRows f rows1 l s = Ret (None, l1) s1 ->
    f stmt l1 s1 = Panic v ->
    forRows f (rows1 ++ stmt :: rows2) l s = Panic v.
Proof.
  induction rows1 as [|r rows1 IH]; intros l l1 s s1 v Hpre Hf.
  - cbn in Hpre. inversion Hpre; subst.
    cbn [app forRows]. unfold bind. rewrite Hf. reflexivity.
  - cbn [app forRows] in *. unfold bind in *.
    destruct (f r l s) as [[[e|] l'] s'| |]; try discriminate Hpre.
    cbn [isErr] in *. eapply IH; eassumption.
Qed.

Lemma Upsert_replaced k v (m : BTree.Map) :
  snd (BTree.Upsert k v m) = true -> exists v', In (k, v') m.
Proof.
  induction m as [|[k' v'] m IH]; cbn [BTree.Upsert]; [discriminate|].
  destruct (valueKey_compare k k') eqn:E; cbn [snd].
  - intros _. exists v'. left. f_equal.
    unfold valueKey_compare in E.
    destruct (Z.compare_spec (keyId k) (keyId k')); try discriminate E.
    apply Z.compare_eq in E. destruct k, k'; cbn in *; congruence.
  - discriminate.
  - destruct (BTree.Upsert k v m) as [m'' r]. cbn [snd]. intros H.
    destruct (IH H) as [v'' Hin]. exists v''. right. exact Hin.
Qed.

Section IterBlobsUpsert.

Variable openSqliteBlob : rowid -> bool -> M sqlite_Conn (sqlite_Blob * error).
Variable valueId : rowid.
Variable iter : iterFunc.
Variable write : bool.

(** C7.  In [iterBlobs], when the loop over the cached handles has left for
    the query, the rows before [stmt] have been handled without error and
    without the callback asking to stop, the handle for the row [stmt] has
    been opened, and its upsert under [(value_id, offset)] reports a
    replaced entry, then [iterBlobs] panics with that key: it returns
    neither an error nor normally; and a replaced entry is an entry the map
    already had under that key. *)
Theorem iterBlobs_replaced_panics
        (fuel : nat) (startOffset startOffset' : Z) (more : bool)
        (c c1 c3 : connStruct) (sc2 sc4 : sqlite_Conn)
        (rows1 rows2 : list Row) (stmt : Row) (b : sqlite_Blob) :
  let k := mkValueKey valueId (ColumnInt64 stmt 0) in
  iterBlobsCached fuel valueId iter
                  (iterBlobsSeek valueId startOffset (blobs c)) true
                  startOffset c
  = Ret (FellThrough more startOffset') c1 ->
  step (SqlSelectBlobs valueId startOffset') (sqliteConn c1)
  = (inr (rows1 ++ stmt :: rows2), sc2) ->
  forRows (iterBlobsRow openSqliteBlob valueId iter write) rows1 more
          (set_sqliteConn sc2 c1)
  = Ret (None, true) c3 ->
  openSqliteBlob (ColumnInt64 stmt 1) write (sqliteConn c3)
  = Ret (b, None) sc4 ->
  snd (BTree.Upsert k b (blobs c3)) = true ->
  iterBlobs openSqliteBlob fuel valueId iter write startOffset c
  = Panic (PanicKey k)
  /\ exists b', In (k, b') (blobs c3).
Proof.
  intros k Hcached Hstep Hrows Hopen Hrepl.
  split; [|exact (Upsert_replaced _ _ _ Hrepl)].
  unfold iterBlobs. unfold bind at 1, get at 1. unfold bind at 1.
  rewrite Hcached. unfold bind at 1. unfold sqliteQuery, Exec.
  rewrite Hstep.
  rewrite (forRows_panics _ rows1 stmt rows2 _ _ Hrows (v := PanicKey k));
    [reflexivity|].
  unfold iterBlobsRow. cbn [negb]. unfold bind at 1.
  unfold openBlob, liftConn. rewrite Hopen.
  cbn [isErr]. unfold bind at 1. unfold bind at 1, get at 1.
  fold k. cbn [blobs set_sqliteConn].
  destruct (BTree.Upsert k b (blobs c3)) as [m' r]. cbn [snd] in Hrepl.
  subst r. reflexivity.
Qed.

End IterBlobsUpsert.

Lemma iterBlobs_replaced_panics_witness :
  let c := mkConnStruct
             (mkConn [mkKeyRow 1 "k" 40 0 0]
                     [mkBlobRow 1 (zeroblob 16); mkBlobRow 2 (zeroblob 16);
                      mkBlobRow 3 (zeroblob 8)]
                     [mkValueRow 1 0 1; mkValueRow 1 16 2; mkValueRow 1 32 3]
                     [] true 3 9 [] [])
             [(mkValueKey 1 32, mkBlob 3 8 false false)] 16 in
  let iter : iterFunc := fun off b => ret (true, None) in
  iterBlobs Model.openSqliteBlob 2 1 iter false 20 c
  = Panic (PanicKey (mkValueKey 1 32))
  /\ exists b', In (mkValueKey 1 32, b')
                   [(mkValueKey 1 16, mkBlob 2 16 false false);
                    (mkValueKey 1 32, mkBlob 3 8 false false)].
Proof.
  intros c iter.
  apply (@iterBlobs_replaced_panics
           Model.openSqliteBlob 1 iter false 2 20 20 true c c
           (mkConnStruct
              (mkConn [mkKeyRow 1 "k" 40 0 0]
                      [mkBlobRow 1 (zeroblob 16); mkBlobRow 2 (zeroblob 16);
                       mkBlobRow 3 (zeroblob 8)]
                      [mkValueRow 1 0 1; mkValueRow 1 16 2; mkValueRow 1 32 3]
                      [] true 3 9 [] [SqlSelectBlobs 1 20; SqlBlobOpen 2])
              [(mkValueKey 1 16, mkBlob 2 16 false false);
               (mkValueKey 1 32, mkBlob 3 8 false false)] 16)
           (mkConn [mkKeyRow 1 "k" 40 0 0]
                   [mkBlobRow 1 (zeroblob 16); mkBlobRow 2 (zeroblob 16);
                    mkBlobRow 3 (zeroblob 8)]
                   [mkValueRow 1 0 1; mkValueRow 1 16 2; mkValueRow 1 32 3]
                   [] true 3 9 [] [SqlSelectBlobs 1 20])
           (mkConn [mkKeyRow 1 "k" 40 0 0]
                   [mkBlobRow 1 (zeroblob 16); mkBlobRow 2 (zeroblob 16);
                    mkBlobRow 3 (zeroblob 8)]
                   [mkValueRow 1 0 1; mkValueRow 1 16 2; mkValueRow 1 32 3]
                   [] true 3 9 []
                   [SqlSelectBlobs 1 20; SqlBlobOpen 2; SqlBlobOpen 3])
           [[VInt 16; VInt 2]] [] [VInt 32; VInt 3]
           (mkBlob 3 8 false false)).
  - reflexivity.
  - reflexivity.
  - reflexivity.
  - reflexivity.
  - reflexivity.
Defined.

(** ** Lookups by key *)

Lemma filter_key_nil_absent k (c : sqlite_Conn) :
  filter (fun r => String.eqb (key r) k) (tbl_keys c) = [] -> keyAbsent k c.
Proof.
  intros H r Hr E.
  assert (Hin : In r (filter (fun r => String.eqb (key r) k) (tbl_keys c))).
  { apply filter_In. split; [exact Hr|]. apply String.eqb_eq. exact E. }
  rewrite H in Hin. destruct Hin.
Qed.

(** X1.  [openKey] answers [ErrNotFound] for a key without a row when the
    engine accepts the lookup; a lookup the engine refuses is answered with
    the engine's error, which is not [ErrNotFound]; and the one row of a
    key that is there gives its [key_id] and [length] with no error.  In
    the three cases the tables and the handle map are as they were. *)
Theorem openKey_outcomes (k : string) (c : connStruct) :
  (nextAccepted (sqliteConn c) -> keyAbsent k (sqliteConn c) ->
   exists c',
     openKey k c = Ret (mkKeyCols 0 0, Some ErrNotFound) c'
     /\ sameRows (sqliteConn c) (sqliteConn c') /\ blobs c' = blobs c)
  /\ (forall code, nextRefused code (sqliteConn c) ->
      exists c',
        openKey k c = Ret (mkKeyCols 0 0, Some (SqliteError code)) c'
        /\ SqliteError code <> ErrNotFound
        /\ sameRows (sqliteConn c) (sqliteConn c') /\ blobs c' = blobs c)
  /\ (forall r, nextAccepted (sqliteConn c) -> keysUnique (sqliteConn c) ->
      In r (tbl_keys (sqliteConn c)) -> key r = k ->
      exists c',
        openKey k c = Ret (mkKeyCols (key_id r) (key_length r), None) c'
        /\ sameRows (sqliteConn c) (sqliteConn c') /\ blobs c' = blobs c).
Proof.
  split; [|split].
  - intros Hacc Ha. eexists.
    unfold openKey, sqliteQueryRow, sqliteQuery, Exec, bind.
    rewrite step_accepted by exact Hacc. cbn [run fst snd].
    cbn [tbl_keys set_faults logged set_log].
    rewrite filter_key_absent by exact Ha.
    split; [reflexivity|]. repeat split.
  - intros code [fs Hfs]. eexists.
    unfold openKey, sqliteQueryRow, sqliteQuery, Exec, bind, step.
    cbn [faults set_log]. rewrite Hfs.
    split; [reflexivity|]. split; [discriminate|]. repeat split.
  - intros r Hacc Hu Hin <-. eexists.
    unfold openKey, sqliteQueryRow, sqliteQuery, Exec, bind.
    rewrite step_accepted by exact Hacc. cbn [run fst snd].
    cbn [tbl_keys set_faults logged set_log].
    rewrite filter_key_unique by assumption.
    split; [reflexivity|]. repeat split.
Qed.

Lemma openKey_outcomes_witness :
  let c := mkConnStruct
             (mkConn [mkKeyRow 4 "a" 60 5 0] [] [] [] true 0 9 [] []) [] 16 in
  exists c',
    openKey "a" c = Ret (mkKeyCols 4 60, None) c'
    /\ sameRows (sqliteConn c) (sqliteConn c') /\ blobs c' = blobs c.
Proof.
  intros c.
  apply (proj2 (proj2 (openKey_outcomes "a" c)) (mkKeyRow 4 "a" 60 5 0)).
  - reflexivity.
  - repeat constructor. simpl. intros [].
  - simpl. left. reflexivity.
  - reflexivity.
Defined.

(** X2.  When two or more rows of [keys] carry the key (a table that does
    not honour the uniqueness of [key]) and the engine accepts the lookup,
    [openKey] does not return: it panics with ["got more than one row"]. *)
Theorem openKey_two_rows_panics (k : string) (c : connStruct) :
  nextAccepted (sqliteConn c) ->
  (2 <= List.length (filter (fun r => String.eqb (key r) k)
                            (tbl_keys (sqliteConn c))))%nat ->
  openKey k c = Panic (PanicString "got more than one row").
Proof.
  intros Hacc Hlen.
  unfold openKey, sqliteQueryRow, sqliteQuery, Exec, bind.
  rewrite step_accepted by exact Hacc. cbn [run fst snd].
  cbn [tbl_keys set_faults logged set_log].
  destruct (filter _ _) as [|r1 [|r2 rest]]; cbn in Hlen; try lia.
  reflexivity.
Qed.

Lemma openKey_two_rows_panics_witness :
  openKey "a"
          (mkConnStruct
             (mkConn [mkKeyRow 4 "a" 60 5 0; mkKeyRow 5 "a" 1 5 0]
                     [] [] [] true 0 9 [] []) [] 16)
  = Panic (PanicString "got more than one row").
Proof.
  apply openKey_two_rows_panics.
  - reflexivity.
  - simpl. lia.
Defined.

(** After a call of [createKey] that returned a key id without error, on an
    engine that refuses nothing, the key has one row in [keys], with that
    id, and with the length asked for when the call had to create it. *)
Lemma createKey_leaves_row fuel k create c kid c1 :
  faults (sqliteConn c) = [] -> keysUnique (sqliteConn c) ->
  createKey fuel k create c = Ret (kid, None) c1 ->
  faults (sqliteConn c1) = [] /\ keysUnique (sqliteConn c1)
  /\ exists r, In r (tbl_keys (sqliteConn c1)) /\ key r = k /\ key_id r = kid
               /\ (keyAbsent k (sqliteConn c) -> key_length r = Length create).
Proof.
  intros Hf Hu Hrun.
  destruct (key_present_or_absent k (sqliteConn c)) as [(r & Hin & <-)|Ha].
  - rewrite createKey_present in Hrun by assumption. inversion Hrun; subst.
    split; [exact Hf|]. split; [exact Hu|].
    exists r. repeat split; try assumption.
    intros Ha. exfalso. exact (Ha r Hin eq_refl).
  - rewrite createKey_absent in Hrun by assumption.
    destruct (createKeyLoop _ _ _ _ _ _) as [e c'| |] eqn:Hloop;
      try discriminate Hrun.
    inversion Hrun; subst.
    apply createKeyLoop_frame in Hloop; [|exact Hf].
    destruct Hloop as [Hf1 Hk1].
    set (row := newKeyRow (nextRowid (map key_id (tbl_keys (sqliteConn c))))
                          k (Length create) (now_ms (sqliteConn c))).
    assert (Hk1' : tbl_keys (sqliteConn c1) = tbl_keys (sqliteConn c) ++ [row])
      by (rewrite Hk1; reflexivity).
    split; [exact Hf1|]. split.
    + unfold keysUnique. rewrite Hk1', map_app. apply NoDup_app.
      * exact Hu.
      * cbn. constructor; [intros [] | constructor].
      * intros a Hin [E|[]]. cbn in E. subst a.
        apply in_map_iff in Hin. destruct Hin as (r & E & Hr).
        exact (Ha r Hr E).
    + exists row. split; [rewrite Hk1'; apply in_or_app; right; left; reflexivity|].
      repeat split.
Qed.

(** X3.  A key id that [createKey] returned is the one a lookup finds:
    after a call [createKey k n] that returned [kid] without error, on an
    engine that refuses nothing, [getValueIdForKey k] returns [kid] and no
    error. *)
Theorem getValueIdForKey_after_createKey
        (fuel : nat) (k : string) (create : CreateOpts)
        (c c1 : connStruct) (kid : rowid) :
  faults (sqliteConn c) = [] -> keysUnique (sqliteConn c) ->
  createKey fuel k create c = Ret (kid, None) c1 ->
  exists c2, getValueIdForKey k c1 = Ret (kid, None) c2
             /\ sameRows (sqliteConn c1) (sqliteConn c2).
Proof.
  intros Hf Hu Hrun.
  destruct (createKey_leaves_row _ _ _ _ Hf Hu Hrun)
    as (Hf1 & Hu1 & r & Hin & <- & <- & _).
  eexists. unfold getValueIdForKey, bind.
  rewrite openKey_present by assumption.
  split; [reflexivity|]. repeat split.
Qed.

Lemma getValueIdForKey_after_createKey_witness :
  exists c2,
    getValueIdForKey "k"
      (set_sqliteConn
         (snd (run (SqlInsertKey "k" 0)
                   (logged (SqlInsertKey "k" 0)
                           (logged (SqlSelectKey "k") Model.emptyDb))))
         (Model.emptyConn 16))
    = Ret (1, None) c2
    /\ sameRows
         (snd (run (SqlInsertKey "k" 0)
                   (logged (SqlInsertKey "k" 0)
                           (logged (SqlSelectKey "k") Model.emptyDb))))
         (sqliteConn c2).
Proof.
  apply (@getValueIdForKey_after_createKey
           1 "k" (mkCreateOpts 0) (Model.emptyConn 16)).
  - reflexivity.
  - constructor.
  - reflexivity.
Defined.

Lemma stepSelectLength_accepted k (sc : sqlite_Conn) :
  nextAccepted sc ->
  stepSelectLength k sc
  = (inr (map (fun r => [VInt (key_length r)])
              (filter (fun r => String.eqb (key r) k) (tbl_keys sc))),
     set_faults (tl (faults sc)) sc).
Proof.
  unfold stepSelectLength, nextAccepted, set_faults.
  destruct sc as [ks bs vs ss rt li now fs lg]. cbn.
  destruct fs as [|[code|] fs]; cbn; intros H; try discriminate H;
    reflexivity.
Qed.

(** X4.  [getValueLength] on a key without a row returns length 0 and no
    error (where [openKey] answers [ErrNotFound]); on the key of a row it
    returns the [length] of that row.  The tables are not touched. *)
Theorem getValueLength_outcomes (k : string) (c : connStruct) :
  nextAccepted (sqliteConn c) ->
  (keyAbsent k (sqliteConn c) ->
   exists c', getValueLength k c = Ret (0, None) c'
              /\ sameRows (sqliteConn c) (sqliteConn c'))
  /\ (forall r, keysUnique (sqliteConn c) ->
      In r (tbl_keys (sqliteConn c)) -> key r = k ->
      exists c', getValueLength k c = Ret (key_length r, None) c'
                 /\ sameRows (sqliteConn c) (sqliteConn c')).
Proof.
  intros Hacc.
  pose proof (stepSelectLength_accepted k Hacc) as Hstep.
  split.
  - intros Ha. eexists. unfold getValueLength. rewrite Hstep.
    rewrite filter_key_absent by exact Ha.
    split; [reflexivity|]. repeat split.
  - intros r Hu Hin <-. eexists. unfold getValueLength. rewrite Hstep.
    rewrite filter_key_unique by assumption.
    split; [reflexivity|]. repeat split.
Qed.

Lemma getValueLength_outcomes_witness :
  let c := mkConnStruct
             (mkConn [mkKeyRow 4 "a" 60 5 0] [] [] [] true 0 9 [] []) [] 16 in
  exists c', getValueLength "b" c = Ret (0, None) c'
             /\ sameRows (sqliteConn c) (sqliteConn c').
Proof.
  intros c. apply (proj1 (getValueLength_outcomes "b" c eq_refl)).
  intros r [E|[]]. subst r. discriminate.
Defined.

(** X5.  The length asked of [createKey] for a key it creates is the
    length [getValueLength] reads back, on an engine that refuses
    nothing. *)
Theorem getValueLength_after_createKey
        (fuel : nat) (k : string) (create : CreateOpts)
        (c c1 : connStruct) (kid : rowid) :
  faults (sqliteConn c) = [] -> keysUnique (sqliteConn c) ->
  keyAbsent k (sqliteConn c) ->
  createKey fuel k create c = Ret (kid, None) c1 ->
  getValueLength k c1 = Ret (Length create, None) c1.
Proof.
  intros Hf Hu Ha Hrun.
  destruct (createKey_leaves_row _ _ _ _ Hf Hu Hrun)
    as (Hf1 & Hu1 & r & Hin & <- & _ & Hlen).
  unfold getValueLength, stepSelectLength. rewrite Hf1.
  rewrite filter_key_unique by assumption.
  cbn. rewrite (Hlen Ha). destruct c1; reflexivity.
Qed.

Lemma getValueLength_after_createKey_witness :
  let c1 := set_sqliteConn
              (snd (run (SqlInsertKey "k" (-3))
                        (logged (SqlInsertKey "k" (-3))
                                (logged (SqlSelectKey "k") Model.emptyDb))))
              (Model.emptyConn 16) in
  getValueLength "k" c1 = Ret (-3, None) c1.
Proof.
  intros c1.
  apply (@getValueLength_after_createKey
           1 "k" (mkCreateOpts (-3)) (Model.emptyConn 16) c1 1).
  - reflexivity.
  - constructor.
  - intros r [].
  - reflexivity.
Defined.

(** ** More on [createKey] *)

Lemma blob_length_chunk len m b0 (i : nat) :
  0 <= Z.min m (len - Z.of_nat i * m) ->
  blob_length (chunkBlob len m b0 i) = Z.min m (len - Z.of_nat i * m).
Proof.
  intros H. unfold blob_length, chunkBlob. cbn [blob].
  rewrite repeat_length. apply Z2Nat.id. exact H.
Qed.

Lemma tiles_chunks len m kid b0 :
  0 < m ->
  forall (n i0 : nat),
    (Z.of_nat i0 + Z.of_nat n) * m < len ->
    len <= (Z.of_nat i0 + Z.of_nat n + 1) * m ->
    tiles (map (chunkValue m kid b0) (seq i0 (Datatypes.S n)))
          (map (chunkBlob len m b0) (seq i0 (Datatypes.S n)))
          (Z.of_nat i0 * m) len.
Proof.
  intros Hm. induction n as [|n IH]; intros i0 Hlast Hcov.
  - cbn [seq map tiles]. cbn [Z.of_nat] in *.
    assert (Hmin : Z.min m (len - Z.of_nat i0 * m) = len - Z.of_nat i0 * m)
      by lia.
    rewrite blob_length_chunk by lia.
    repeat split; cbn [value_offset value_blob_id chunkValue chunkBlob blob_id];
      lia.
  - assert (Hn : 0 <= Z.of_nat n * m) by nia.
    assert (Hmin : Z.min m (len - Z.of_nat i0 * m) = m) by lia.
    cbn [seq map]. cbn [tiles].
    rewrite blob_length_chunk by lia. rewrite Hmin.
    split; [reflexivity|]. split; [reflexivity|]. split; [lia|].
    replace (Z.of_nat i0 * m + m) with (Z.of_nat (Datatypes.S i0) * m) by lia.
    apply IH; lia.
Qed.

(** X6.  The chunks [createKey] makes for a new key of [len > 0] bytes
    tile the bytes [0 .. len): the rows it appends to ["values"] all belong
    to the new key, the first starts at offset 0, each points at the row of
    [blobs] appended with it, no blob is empty, each row starts where the
    blob before ends and the last blob ends at [len], the [length] of the
    new row of [keys].  (Engine refusing nothing, positive [maxBlobSize],
    offsets within int64.) *)
Theorem createKey_tiles (fuel : nat) (k : string) (len : Z) (c : connStruct) :
  let m := maxBlobSize c in
  let n := chunkCount len m in
  faults (sqliteConn c) = [] ->
  keyAbsent k (sqliteConn c) ->
  0 < len -> 0 < m -> Z.of_nat n * m <= Int64.max_int ->
  (n < fuel)%nat ->
  exists c' row vs bs,
    createKey fuel k (mkCreateOpts len) c = Ret (key_id row, None) c'
    /\ tbl_keys (sqliteConn c') = tbl_keys (sqliteConn c) ++ [row]
    /\ key row = k /\ key_length row = len
    /\ tbl_values (sqliteConn c') = tbl_values (sqliteConn c) ++ vs
    /\ tbl_blobs (sqliteConn c') = tbl_blobs (sqliteConn c) ++ bs
    /\ Forall (fun v => value_id v = key_id row) vs
    /\ tiles vs bs 0 len.
Proof.
  intros m n Hf Ha Hlen Hm Hov Hfuel.
  set (kid := nextRowid (map key_id (tbl_keys (sqliteConn c)))).
  set (b0 := nextRowid (map blob_id (tbl_blobs (sqliteConn c)))).
  assert (Hn : forall i : nat, (i < n)%nat <-> Z.of_nat i * m < len)
    by (intros i; apply chunkCount_spec; assumption).
  assert (Hpos : (0 < n)%nat) by (apply (Hn 0%nat); cbn; lia).
  assert (Hcov : len <= Z.of_nat n * m).
  { destruct (Z.le_gt_cases len (Z.of_nat n * m)) as [H|H]; [exact H|].
    exfalso. apply Hn in H. lia. }
  assert (Hlast : (Z.of_nat n - 1) * m < len).
  { replace (Z.of_nat n - 1) with (Z.of_nat (Nat.pred n)) by lia.
    apply Hn. lia. }
  destruct (@createKeyLoop_rounds kid len b0 n 0%nat fuel
              (afterInsertKey k len c))
    as (c' & Hrun & _ & _ & _ & Hk & Hb & Hv & _);
    try (change (maxBlobSize (afterInsertKey k len c)) with m; cbn [Nat.add]);
    try assumption.
  - intros _. exact Hlast.
  - cbn. fold b0. lia.
  - exists c', (newKeyRow kid k len (now_ms (sqliteConn c))).
    exists (map (chunkValue m kid b0) (seq 0 n)).
    exists (map (chunkBlob len m b0) (seq 0 n)).
    rewrite createKey_absent by assumption. cbn [Length].
    change (maxBlobSize (afterInsertKey k len c)) with m in *.
    cbn [Z.of_nat Z.mul] in Hrun. fold kid. rewrite Hrun.
    split; [reflexivity|].
    split; [rewrite Hk; reflexivity|].
    split; [reflexivity|]. split; [reflexivity|].
    split; [rewrite Hv; reflexivity|].
    split; [rewrite Hb; reflexivity|].
    split.
    + apply Forall_forall. intros v Hin. apply in_map_iff in Hin.
      destruct Hin as (i & <- & _). reflexivity.
    + destruct n as [|n']; [lia|].
      apply (@tiles_chunks len m kid b0 Hm n' 0%nat); lia.
Qed.

Lemma createKey_tiles_witness :
  exists c' row vs bs,
    createKey 8 "k" (mkCreateOpts 100) (Model.emptyConn 16)
    = Ret (key_id row, None) c'
    /\ tbl_keys (sqliteConn c') = [row]
    /\ key row = "k"%string /\ key_length row = 100
    /\ tbl_values (sqliteConn c') = vs
    /\ tbl_blobs (sqliteConn c') = bs
    /\ Forall (fun v => value_id v = key_id row) vs
    /\ tiles vs bs 0 100.
Proof.
  apply (@createKey_tiles 8 "k" 100 (Model.emptyConn 16)).
  - reflexivity.
  - intros r [].
  - lia.
  - reflexivity.
  - vm_compute. discriminate.
  - vm_compute. lia.
Defined.

(** X7.  What [createKey] does with a refusal of the engine depends on the
    statement refused: a refused lookup, or a refused insertion into
    [keys], is returned as the engine's error, with key id 0 and the
    tables as they were; a refused insertion of the first chunk is a
    panic carrying the engine's error. *)
Theorem createKey_refusals (fuel : nat) (k : string) (create : CreateOpts)
        (c : connStruct) (code : ResultCode)
        (fs : list (option ResultCode)) :
  (faults (sqliteConn c) = Some code :: fs ->
   exists c', createKey fuel k create c = Ret (0, Some (SqliteError code)) c'
              /\ sameRows (sqliteConn c) (sqliteConn c'))
  /\ (faults (sqliteConn c) = None :: Some code :: fs ->
      keyAbsent k (sqliteConn c) ->
      exists c', createKey fuel k create c
                 = Ret (0, Some (SqliteError code)) c'
                 /\ sameRows (sqliteConn c) (sqliteConn c'))
  /\ (faults (sqliteConn c) = None :: None :: Some code :: fs ->
      keyAbsent k (sqliteConn c) -> 0 < Length create ->
      createKey (Datatypes.S fuel) k create c
      = Panic (PanicError (SqliteError code))).
Proof.
  split; [|split].
  - intros Hfs. eexists.
    unfold createKey, openKey, sqliteQueryRow, sqliteQuery, Exec, bind, step.
    cbn [faults set_log]. rewrite Hfs.
    split; [reflexivity|]. repeat split.
  - intros Hfs Ha. eexists.
    unfold createKey, openKey, sqliteQueryRow, sqliteQueryMustOneRow,
      sqliteQuery, Exec, bind, step.
    cbn [faults set_log]. rewrite Hfs. cbn [run].
    cbn [tbl_keys set_faults set_log].
    rewrite filter_key_absent by exact Ha.
    cbn [map forRows ret isErr negb neqErrNotFound sqliteConn set_sqliteConn
         faults set_faults set_log].
    change (negb (Err_eqb ErrNotFound ErrNotFound)) with false. cbv iota.
    cbn [sqliteConn set_sqliteConn faults set_faults set_log].
    split; [reflexivity|]. repeat split.
  - intros Hfs Ha Hlen.
    unfold createKey, openKey, sqliteQueryRow, sqliteQueryMustOneRow,
      sqliteQuery, Exec, bind, step.
    cbn [faults set_log]. rewrite Hfs. cbn [run].
    cbn [tbl_keys set_faults set_log].
    rewrite filter_key_absent by exact Ha.
    cbn [map forRows ret isErr negb neqErrNotFound sqliteConn set_sqliteConn
         faults set_faults set_log].
    change (negb (Err_eqb ErrNotFound ErrNotFound)) with false. cbv iota.
    cbn [sqliteConn set_sqliteConn faults set_faults set_log run
         set_lastInsertRowID set_keys].
    unfold bind, ret. cbn [isErr negb].
    cbn [createKeyLoop].
    replace (0 <? Length create) with true by (symmetry; apply Z.ltb_lt; lia).
    unfold bind, get, sqliteExec, sqliteQuery, Exec, bind, step.
    cbn [sqliteConn faults set_log]. reflexivity.
Qed.

Lemma createKey_refusals_witness :
  createKey 1 "k" (mkCreateOpts 100)
            (mkConnStruct
               (mkConn [] [] [] [] true 0 9 [None; None; Some SQLITE_FULL] [])
               [] 16)
  = Panic (PanicError (SqliteError SQLITE_FULL)).
Proof.
  apply (proj2 (proj2 (@createKey_refusals
                         0 "k" (mkCreateOpts 100)
                         (mkConnStruct
                            (mkConn [] [] [] [] true 0 9
                                    [None; None; Some SQLITE_FULL] [])
                            [] 16) SQLITE_FULL []))).
  - reflexivity.
  - intros r [].
  - simpl. lia.
Defined.

(** ** More on [iterBlobs] *)

Lemma liftConn_blobs {A} (m : M sqlite_Conn A) c a c' :
  liftConn m c = Ret a c' -> blobs c' = blobs c.
Proof.
  unfold liftConn. destruct (m (sqliteConn c)); intros H; inversion H.
  reflexivity.
Qed.

Lemma Upsert_keeps k v (m : BTree.Map) :
  snd (BTree.Upsert k v m) = false ->
  forall e, In e m -> In e (fst (BTree.Upsert k v m)).
Proof.
  induction m as [|[k' v'] m IH]; cbn [BTree.Upsert]; intros H e He;
    [destruct He|].
  destruct (valueKey_compare k k').
  - discriminate H.
  - right. exact He.
  - destruct (BTree.Upsert k v m) as [m'' r]. cbn [fst snd] in *.
    destruct He as [<-|He]; [left; reflexivity|right; apply IH; assumption].
Qed.

Section IterBlobsInvariants.

Variable openSqliteBlob : rowid -> bool -> M sqlite_Conn (sqlite_Blob * error).
Variable valueId : rowid.
Variable iter : iterFunc.
Variable write : bool.

Lemma iterBlobsCached_blobs :
  forall fuel it more startOffset c x c',
    iterBlobsCached fuel valueId iter it more startOffset c = Ret x c' ->
    blobs c' = blobs c.
Proof.
  induction fuel as [|fuel IH]; intros it more startOffset c x c' H;
    [discriminate H|].
  cbn [iterBlobsCached] in H.
  destruct (BTree.Valid it && (keyId (BTree.Cur it) =? valueId));
    [|inversion H; reflexivity].
  destruct (add64 _ _ >? startOffset).
  - unfold bind in H.
    destruct (liftConn _ c) as [[more' err] c1| |] eqn:Hcb; try discriminate H.
    apply liftConn_blobs in Hcb.
    destruct (isErr err || negb more').
    + inversion H; subst. exact Hcb.
    + apply IH in H. congruence.
  - apply IH in H. exact H.
Qed.

Lemma iterBlobsRow_keeps stmt more c r c' :
  iterBlobsRow openSqliteBlob valueId iter write stmt more c = Ret r c' ->
  incl (blobs c) (blobs c').
Proof.
  unfold iterBlobsRow. destruct more; cbn [negb];
    [|intros H; inversion H; apply incl_refl].
  unfold bind, openBlob.
  destruct (liftConn _ c) as [[b [e|]] c1| |] eqn:Hopen; try discriminate;
    apply liftConn_blobs in Hopen; cbn [isErr ret].
  - intros H. inversion H; subst. rewrite Hopen. apply incl_refl.
  - unfold get, put.
    destruct (BTree.Upsert _ b (blobs c1)) as [m' [|]] eqn:Hup;
      [discriminate|].
    cbn [ret].
    destruct (liftConn _ (set_blobsMap m' c1)) as [[more' err'] c2| |] eqn:Hcb;
      try discriminate.
    apply liftConn_blobs in Hcb. intros H. inversion H; subst.
    rewrite Hcb. cbn [blobs set_blobsMap]. rewrite <- Hopen.
    intros e He.
    pose proof (@Upsert_keeps (mkValueKey valueId (ColumnInt64 stmt 0)) b
                              (blobs c1)) as Hk.
    rewrite Hup in Hk. cbn [fst snd] in Hk. apply Hk; [reflexivity|exact He].
Qed.

Lemma forRows_keeps (rows : list Row) :
  forall more c r c',
    forRows (iterBlobsRow openSqliteBlob valueId iter write) rows more c
    = Ret r c' ->
    incl (blobs c) (blobs c').
Proof.
  induction rows as [|stmt rows IH]; intros more c r c' H.
  - inversion H. apply incl_refl.
  - cbn [forRows] in H. unfold bind in H.
    destruct (iterBlobsRow _ _ _ _ stmt more c) as [[e more'] c1| |] eqn:Hrow;
      try discriminate H.
    apply iterBlobsRow_keeps in Hrow.
    destruct (isErr e).
    + inversion H; subst. exact Hrow.
    + apply IH in H. eapply incl_tran; eassumption.
Qed.

(** X8.  [iterBlobs] never drops a cached handle nor puts another in its
    place: whenever it returns, with or without error, every entry the
    handle map had is in the map it leaves, under the same key and with
    the same handle. *)
Theorem iterBlobs_keeps_handles (fuel : nat) (startOffset : Z)
        (c c' : connStruct) (err : error) :
  iterBlobs openSqliteBlob fuel valueId iter write startOffset c = Ret err c' ->
  incl (blobs c) (blobs c').
Proof.
  unfold iterBlobs. unfold bind at 1, get at 1. unfold bind at 1.
  destruct (iterBlobsCached _ _ _ _ _ _ c) as [[e|more so'] c1| |] eqn:Hc;
    try discriminate.
  - apply iterBlobsCached_blobs in Hc. intros H. inversion H; subst.
    rewrite Hc. apply incl_refl.
  - apply iterBlobsCached_blobs in Hc.
    unfold bind, sqliteQuery, Exec.
    destruct (step _ (sqliteConn c1)) as [[code|rows] sc].
    + intros H. inversion H; subst. cbn [blobs set_sqliteConn].
      rewrite Hc. apply incl_refl.
    + destruct (forRows _ rows more (set_sqliteConn sc c1))
        as [[e more'] c2| |] eqn:Hrows; try discriminate.
      apply forRows_keeps in Hrows. cbn [blobs set_sqliteConn] in Hrows.
      intros H. inversion H; subst. rewrite <- Hc. exact Hrows.
Qed.

End IterBlobsInvariants.

Lemma iterBlobs_keeps_handles_witness :
  let h := mkBlob 2 16 false false in
  let c := mkConnStruct
             (mkConn [mkKeyRow 1 "k" 40 0 0]
                     [mkBlobRow 1 (zeroblob 16); mkBlobRow 2 (zeroblob 16);
                      mkBlobRow 3 (zeroblob 8)]
                     [mkValueRow 1 0 1; mkValueRow 1 16 2; mkValueRow 1 32 3]
                     [] true 3 9 [] [])
             [(mkValueKey 1 16, h)] 16 in
  let iter : iterFunc := fun off b => ret (true, None) in
  incl (blobs c)
       [(mkValueKey 1 16, h); (mkValueKey 1 32, mkBlob 3 8 false false)].
Proof.
  intros h c iter.
  apply (@iterBlobs_keeps_handles Model.openSqliteBlob 1 iter false 2 20 c
           (mkConnStruct
              (mkConn [mkKeyRow 1 "k" 40 0 0]
                      [mkBlobRow 1 (zeroblob 16); mkBlobRow 2 (zeroblob 16);
                       mkBlobRow 3 (zeroblob 8)]
                      [mkValueRow 1 0 1; mkValueRow 1 16 2; mkValueRow 1 32 3]
                      [] true 3 9 [] [SqlSelectBlobs 1 32; SqlBlobOpen 3])
              [(mkValueKey 1 16, h); (mkValueKey 1 32, mkBlob 3 8 false false)]
              16)
           None).
  reflexivity.
Defined.

Lemma seekBack_lands k (k0 : valueKey) (h : sqlite_Blob) (post : BTree.Map) :
  keyAbove k0 k = false ->
  match post with [] => True | e :: _ => keyAbove (fst e) k = true end ->
  forall pre prev,
    Forall (fun e => keyAbove (fst e) k = false) pre ->
    seekBack k prev (pre ++ (k0, h) :: post) = (k0, h) :: post.
Proof.
  intros Hk0 Hpost. induction pre as [|x pre IH]; intros prev Hpre.
  - cbn [app seekBack fst]. rewrite Hk0.
    destruct post as [|e post']; [reflexivity|].
    cbn [seekBack]. rewrite Hpost. reflexivity.
  - inversion Hpre as [|? ? Hx Hpre']; subst.
    cbn [app seekBack]. rewrite Hx. apply IH. exact Hpre'.
Qed.

Lemma suffixBefore_head idx (m : BTree.Map) :
  suffixBefore idx m = []
  \/ exists e rest, suffixBefore idx m = e :: rest /\ In e m.
Proof.
  destruct idx as [|i]; [left; reflexivity|]. cbn [suffixBefore].
  destruct (skipn i m) as [|e rest] eqn:E; [left; reflexivity|].
  right. exists e, rest. split; [reflexivity|].
  rewrite <- (firstn_skipn i m). apply in_or_app. right. rewrite E.
  left. reflexivity.
Qed.

Lemma filter_none {A} (f : A -> bool) (l : list A) :
  Forall (fun x => f x = false) l -> filter f l = [].
Proof.
  induction 1 as [|x l Hx _ IH]; [reflexivity|].
  cbn. rewrite Hx. exact IH.
Qed.

Section IterBlobsEdges.

Variable openSqliteBlob : rowid -> bool -> M sqlite_Conn (sqlite_Blob * error).
Variable valueId : rowid.
Variable iter : iterFunc.
Variable write : bool.

(** X9.  When the handle map holds the entry that comes last among the
    keys not above [(value_id, startOffset)], that entry belongs to the
    value and its blob ends after [startOffset], then the first thing
    [iterBlobs] does is to call the callback on it; and if that call
    returns an error or [more = false], [iterBlobs] returns what the call
    returned (the error, or [nil]) and leaves the connection as the call
    left it: no other handle is visited and no statement is handed to the
    engine. *)
Theorem iterBlobs_stops_at_cached
        (fuel : nat) (startOffset : Z) (c : connStruct)
        (pre post : BTree.Map) (k0 : valueKey) (h : sqlite_Blob)
        (more : bool) (err : error) (sc' : sqlite_Conn) :
  blobs c = pre ++ (k0, h) :: post ->
  Forall (fun e => keyAbove (fst e) (mkValueKey valueId startOffset) = false)
         pre ->
  keyAbove k0 (mkValueKey valueId startOffset) = false ->
  match post with
  | [] => True
  | e :: _ => keyAbove (fst e) (mkValueKey valueId startOffset) = true
  end ->
  keyId k0 = valueId ->
  add64 (offset k0) (Size h) > startOffset ->
  Int64.in_range startOffset ->
  (List.length (blobs c) < fuel)%nat ->
  iter (offset k0) h (sqliteConn c) = Ret (more, err) sc' ->
  more = false \/ err <> None ->
  iterBlobs openSqliteBlob fuel valueId iter write startOffset c
  = Ret err (set_sqliteConn sc' c).
Proof.
  intros Hmap Hpre Hk0 Hpost Hkid Hend Hrange Hfuel Hcb Hstop.
  assert (Hlt : startOffset < Int64.max_int).
  { pose proof (wrap_in_range (offset k0 + Size h)) as [_ H].
    unfold add64 in Hend. lia. }
  assert (Hadd : add64 startOffset 1 = startOffset + 1).
  { unfold add64. apply wrap_small.
    unfold Int64.in_range, Int64.max_int, Int64.min_int in *. lia. }
  unfold iterBlobs. unfold bind at 1, get at 1. cbv iota beta.
  rewrite iterBlobsSeek_pos. unfold bind at 1.
  rewrite cached_from_seek by exact Hfuel.
  rewrite Hadd, <- seekBack_none, Hmap.
  match goal with
  | |- context [seekBack ?k None ?l] =>
      replace (seekBack k None l) with ((k0, h) :: post)
        by (symmetry;
            apply (@seekBack_lands k k0 h post Hk0 Hpost pre None Hpre))
  end.
  cbn [walkCached]. rewrite Hkid, Z.eqb_refl.
  replace (add64 (offset k0) (Size h) >? startOffset) with true
    by (symmetry; apply Z.gtb_lt; lia).
  unfold bind at 1. unfold liftConn. rewrite Hcb.
  destruct err as [e|]; [reflexivity|].
  destruct Hstop as [->|H]; [reflexivity|congruence].
Qed.

(** X10.  For a value that has no handle in the map and no row in
    ["values"], [iterBlobs] runs its query, which the engine accepts, and
    returns [nil] without calling the callback or opening a blob: the
    result is the same whatever the callback is. *)
Theorem iterBlobs_nothing_to_visit
        (fuel : nat) (startOffset : Z) (c : connStruct) :
  Forall (fun e => keyId (fst e) <> valueId) (blobs c) ->
  Forall (fun v => value_id v <> valueId) (tbl_values (sqliteConn c)) ->
  nextAccepted (sqliteConn c) ->
  (List.length (blobs c) < fuel)%nat ->
  iterBlobs openSqliteBlob fuel valueId iter write startOffset c
  = Ret None
        (set_sqliteConn
           (set_faults (tl (faults (sqliteConn c)))
                       (logged (SqlSelectBlobs valueId startOffset)
                               (sqliteConn c))) c).
Proof.
  intros Hmap Hvals Hacc Hfuel.
  unfold iterBlobs. unfold bind at 1, get at 1. cbv iota beta.
  rewrite iterBlobsSeek_pos. unfold bind at 1.
  rewrite cached_from_seek by exact Hfuel.
  assert (Hwalk :
    forall l : BTree.Map,
      (l = [] \/ exists e rest, l = e :: rest /\ In e (blobs c)) ->
      walkCached valueId iter l startOffset c = Ret (inr startOffset) c).
  { intros l [->|(e & rest & -> & Hin)]; [reflexivity|].
    destruct e as [k h]. cbn [walkCached].
    rewrite Forall_forall in Hmap. specialize (Hmap _ Hin). cbn [fst] in Hmap.
    apply Z.eqb_neq in Hmap. rewrite Hmap. reflexivity. }
  rewrite Hwalk by apply suffixBefore_head. cbn [exitOf].
  unfold bind, sqliteQuery, Exec.
  rewrite step_accepted by exact Hacc. cbn [run fst snd].
  unfold selectBlobs. cbn [tbl_values set_faults logged set_log].
  rewrite (@filter_none _ (fun v => value_id v =? valueId)
                        (tbl_values (sqliteConn c))).
  - reflexivity.
  - eapply Forall_impl; [|exact Hvals]. intros v Hv. apply Z.eqb_neq. exact Hv.
Qed.

End IterBlobsEdges.

Lemma iterBlobs_stops_at_cached_witness :
  let h := mkBlob 2 16 false false in
  let c := mkConnStruct
             (mkConn [mkKeyRow 1 "k" 40 0 0]
                     [mkBlobRow 1 (zeroblob 16); mkBlobRow 2 (zeroblob 16);
                      mkBlobRow 3 (zeroblob 8)]
                     [mkValueRow 1 0 1; mkValueRow 1 16 2; mkValueRow 1 32 3]
                     [] true 3 9 [] [])
             [(mkValueKey 1 0, mkBlob 1 16 false false); (mkValueKey 1 16, h);
              (mkValueKey 1 32, mkBlob 3 8 false false)] 16 in
  let iter : iterFunc := fun off b => ret (false, None) in
  iterBlobs Model.openSqliteBlob 4 1 iter false 20 c = Ret None c.
Proof.
  intros h c iter.
  apply (@iterBlobs_stops_at_cached
           Model.openSqliteBlob 1 iter false 4 20 c
           [(mkValueKey 1 0, mkBlob 1 16 false false)]
           [(mkValueKey 1 32, mkBlob 3 8 false false)]
           (mkValueKey 1 16) h false None (sqliteConn c)).
  - reflexivity.
  - repeat constructor.
  - reflexivity.
  - reflexivity.
  - reflexivity.
  - vm_compute. reflexivity.
  - unfold Int64.in_range, Int64.min_int, Int64.max_int. lia.
  - simpl. lia.
  - reflexivity.
  - left. reflexivity.
Defined.

Lemma iterBlobs_nothing_to_visit_witness :
  let c := mkConnStruct
             (mkConn [mkKeyRow 1 "k" 16 0 0] [mkBlobRow 1 (zeroblob 16)]
                     [mkValueRow 1 0 1] [] true 1 9 [] [])
             [(mkValueKey 1 0, mkBlob 1 16 false false)] 16 in
  let iter : iterFunc := fun off b => panic (PanicString "called") in
  iterBlobs Model.openSqliteBlob 2 7 iter false 0 c
  = Ret None
        (mkConnStruct
           (mkConn [mkKeyRow 1 "k" 16 0 0] [mkBlobRow 1 (zeroblob 16)]
                   [mkValueRow 1 0 1] [] true 1 9 [] [SqlSelectBlobs 7 0])
           [(mkValueKey 1 0, mkBlob 1 16 false false)] 16).
Proof.
  intros c iter.
  apply (@iterBlobs_nothing_to_visit Model.openSqliteBlob 7 iter false 2 0 c).
  - repeat constructor. simpl. lia.
  - repeat constructor. simpl. lia.
  - reflexivity.
  - simpl. lia.
Defined.

(** ** Closing the cached handles *)

Lemma valueKey_compare_refl k : valueKey_compare k k = Eq.
Proof. unfold valueKey_compare. rewrite !Z.compare_refl. reflexivity. Qed.

Lemma valueKey_compare_above_floor k k' kid :
  valueKey_compare k' (mkValueKey kid 0) = Lt ->
  keyId k = kid -> 0 <= offset k ->
  valueKey_compare k k' = Gt.
Proof.
  unfold valueKey_compare. cbn [keyId offset]. intros Hlt <- Hoff.
  revert Hlt.
  destruct (Z.compare_spec (keyId k') (keyId k)) as [E|L|G];
    destruct (Z.compare_spec (keyId k) (keyId k')) as [E'|L'|G'];
    intros Hlt; try lia; try discriminate Hlt; try reflexivity.
  revert Hlt.
  destruct (Z.compare_spec (offset k') 0); intros Hlt; try discriminate Hlt.
  destruct (Z.compare_spec (offset k) (offset k')); reflexivity || lia.
Qed.

Lemma seekIndex_app_below k (lo rest : BTree.Map) :
  Forall (fun e => valueKey_compare (fst e) k = Lt) lo ->
  BTree.seekIndex k (lo ++ rest)
  = (List.length lo + BTree.seekIndex k rest)%nat.
Proof.
  induction 1 as [|[k' v] lo Hx _ IH]; [reflexivity|].
  cbn [app BTree.seekIndex List.length]. cbn [fst] in Hx. rewrite Hx, IH.
  reflexivity.
Qed.

Lemma Delete_app_above k (lo rest : BTree.Map) :
  Forall (fun e => valueKey_compare k (fst e) = Gt) lo ->
  BTreeEdit.Delete k (lo ++ rest) = lo ++ BTreeEdit.Delete k rest.
Proof.
  induction 1 as [|[k' v] lo Hx _ IH]; [reflexivity|].
  cbn [app BTreeEdit.Delete]. cbn [fst] in Hx. rewrite Hx, IH. reflexivity.
Qed.

Section CloseProperties.

Variable blobClose : sqlite_Blob -> M sqlite_Conn error.

Lemma closeBlobsLoop_each (m : BTree.Map) :
  forall (fuel p : nat) c,
    (List.length m - p < fuel)%nat ->
    closeBlobsLoop blobClose fuel (BTree.mkIterator m (Z.of_nat p)) c
    = match closeEach blobClose (map snd (skipn p m)) (sqliteConn c) with
      | Ret _ sc' => Ret tt (set_sqliteConn sc' c)
      | Panic v => Panic v
      | OutOfFuel => OutOfFuel
      end.
Proof.
  induction fuel as [|fuel IH]; intros p c Hfuel; [lia|].
  cbn [closeBlobsLoop].
  unfold BTree.Valid, BTree.Value, BTree.curEntry, BTree.Next.
  cbn [BTree.it_map BTree.it_pos]. rewrite Nat2Z.id.
  destruct (Nat.lt_ge_cases p (List.length m)) as [Hlt|Hge].
  - replace (0 <=? Z.of_nat p) with true by (symmetry; apply Z.leb_le; lia).
    replace (Z.of_nat p <? Z.of_nat (List.length m)) with true
      by (symmetry; apply Z.ltb_lt; lia).
    rewrite (skipn_nth_cons BTree.nilEntry m Hlt).
    cbn [andb map closeEach]. unfold bind at 1 2. unfold liftConn.
    destruct (blobClose (snd (nth p m BTree.nilEntry)) (sqliteConn c))
      as [e sc1| |]; try reflexivity.
    replace (Z.of_nat p + 1) with (Z.of_nat (Datatypes.S p)) by lia.
    rewrite IH by lia. cbn [sqliteConn set_sqliteConn].
    destruct (closeEach _ _ sc1); reflexivity.
  - replace (Z.of_nat p <? Z.of_nat (List.length m)) with false
      by (symmetry; apply Z.ltb_ge; lia).
    rewrite andb_false_r. rewrite skipn_all2 by lia.
    cbn [map closeEach ret]. destruct c; reflexivity.
Qed.

(** X11.  [closeBlobs], with fuel for the entries of the map, closes the
    handle of every entry once, in the order of the keys, and nothing
    else; whatever the closings return, it goes on, and it leaves the
    handle map empty. *)
Theorem closeBlobs_closes_each (fuel : nat) (c : connStruct) :
  (List.length (blobs c) < fuel)%nat ->
  closeBlobs blobClose fuel c
  = match closeEach blobClose (map snd (blobs c)) (sqliteConn c) with
    | Ret _ sc' => Ret tt (mkConnStruct sc' [] (maxBlobSize c))
    | Panic v => Panic v
    | OutOfFuel => OutOfFuel
    end.
Proof.
  intros Hfuel. unfold closeBlobs. unfold bind at 1, get at 1.
  unfold BTreeEdit.First, BTree.iterator. cbn [BTree.it_map].
  unfold bind at 1.
  change 0 with (Z.of_nat 0).
  rewrite closeBlobsLoop_each by lia. cbn [skipn].
  destruct (closeEach _ _ _) as [u sc'| |]; reflexivity.
Qed.

Lemma forgetBlobsLoop_removes (kid : rowid) (lo hi : BTree.Map) :
  Forall (fun e => valueKey_compare (fst e) (mkValueKey kid 0) = Lt) lo ->
  match hi with
  | [] => True
  | e :: _ => valueKey_compare (fst e) (mkValueKey kid 0) <> Lt
              /\ keyId (fst e) <> kid
  end ->
  forall (mid : BTree.Map) (fuel : nat) (errs : list Err) (c : connStruct),
    blobs c = lo ++ mid ++ hi ->
    Forall (fun e => keyId (fst e) = kid /\ 0 <= offset (fst e)) mid ->
    (List.length mid < fuel)%nat ->
    forgetBlobsLoop blobClose fuel kid errs c
    = match closeJoin blobClose (map snd mid) errs (sqliteConn c) with
      | Ret errs' sc' => Ret errs' (mkConnStruct sc' (lo ++ hi) (maxBlobSize c))
      | Panic v => Panic v
      | OutOfFuel => OutOfFuel
      end.
Proof.
  intros Hlo Hhi.
  induction mid as [|[k h] mid IH]; intros fuel errs c Hmap Hmid Hfuel;
    (destruct fuel as [|fuel]; [cbn in Hfuel; lia|]);
    cbn [forgetBlobsLoop]; unfold bind at 1, get at 1;
    unfold BTree.SeekGE, BTree.iterator, BTree.Valid, BTree.Cur, BTree.Value,
      BTree.curEntry; cbn [BTree.it_map BTree.it_pos];
    rewrite Hmap, seekIndex_app_below by exact Hlo.
  - cbn [app map closeJoin ret].
    destruct hi as [|[k' h'] hi'].
    + cbn [BTree.seekIndex]. rewrite app_nil_r, Nat.add_0_r.
      rewrite Z.ltb_irrefl, andb_false_r. cbn [negb orb].
      destruct c as [sc bl mx]. cbn in *. subst bl. rewrite app_nil_r.
      reflexivity.
    + destruct Hhi as [Hnlt Hkid]. cbn [fst] in *.
      match goal with
      | |- context [BTree.seekIndex ?x ?l] =>
          assert (Hs : BTree.seekIndex x l = O)
            by (cbn [BTree.seekIndex];
                destruct (valueKey_compare k' (mkValueKey kid 0)); congruence);
          rewrite Hs
      end.
      rewrite Nat.add_0_r, Nat2Z.id, nth_middle. cbn [fst].
      apply Z.eqb_neq in Hkid. rewrite Hkid. cbn [negb].
      rewrite orb_true_r.
      destruct c as [sc bl mx]. cbn in *. subst bl. reflexivity.
  - inversion Hmid as [|? ? [Hk Hoff] Hmid']; subst. cbn [fst] in *.
    cbn [app].
    match goal with
    | |- context [BTree.seekIndex ?x ?l] =>
        assert (Hs : BTree.seekIndex x l = O)
          by (cbn [BTree.seekIndex]; unfold valueKey_compare;
              cbn [keyId offset]; rewrite Z.compare_refl;
              destruct (Z.compare_spec (offset k) 0); reflexivity || lia);
        rewrite Hs
    end.
    rewrite Nat.add_0_r, Nat2Z.id, nth_middle. cbn [fst snd].
    rewrite Z.eqb_refl.
    replace (0 <=? Z.of_nat (List.length lo)) with true
      by (symmetry; apply Z.leb_le; lia).
    match goal with
    | |- context [?a <? ?b] =>
        replace (a <? b) with true
          by (symmetry; apply Z.ltb_lt; rewrite length_app;
              cbn [List.length]; lia)
    end.
    cbn [andb negb orb map closeJoin snd].
    unfold bind at 1 3. unfold liftConn.
    destruct (blobClose h (sqliteConn c)) as [e sc1| |]; try reflexivity.
    unfold bind at 1. unfold modify at 1.
    cbn [blobs set_sqliteConn].
    rewrite Hmap, Delete_app_above.
    + cbn [app BTreeEdit.Delete]. rewrite valueKey_compare_refl.
      rewrite (IH fuel (errorsJoin errs e)
                  (set_blobsMap (lo ++ mid ++ hi) (set_sqliteConn sc1 c)))
        by (reflexivity || assumption || (cbn in Hfuel; lia)).
      reflexivity.
    + eapply Forall_impl; [|exact Hlo]. intros x Hx.
      cbn beta in Hx.
      apply (@valueKey_compare_above_floor k (fst x) (keyId k) Hx eq_refl Hoff).
Qed.

(** X12.  When the handle map is made of the entries below [(kid, 0)],
    then the entries of the key [kid] at offsets from 0 on, then entries
    of other keys not below [(kid, 0)] (as a map in key order is),
    [forgetBlobsForKeyId kid] closes the handles of the entries of [kid]
    once each in the order of the offsets, returns the errors of the
    closings joined in that order, and leaves in the map the other
    entries, all of them and in their order. *)
Theorem forgetBlobsForKeyId_removes
        (fuel : nat) (kid : rowid) (c : connStruct)
        (lo mid hi : BTree.Map) :
  blobs c = lo ++ mid ++ hi ->
  Forall (fun e => valueKey_compare (fst e) (mkValueKey kid 0) = Lt) lo ->
  Forall (fun e => keyId (fst e) = kid /\ 0 <= offset (fst e)) mid ->
  match hi with
  | [] => True
  | e :: _ => valueKey_compare (fst e) (mkValueKey kid 0) <> Lt
              /\ keyId (fst e) <> kid
  end ->
  (List.length mid < fuel)%nat ->
  forgetBlobsForKeyId blobClose fuel kid c
  = match closeJoin blobClose (map snd mid) [] (sqliteConn c) with
    | Ret errs sc' => Ret errs (mkConnStruct sc' (lo ++ hi) (maxBlobSize c))
    | Panic v => Panic v
    | OutOfFuel => OutOfFuel
    end.
Proof.
  intros Hmap Hlo Hmid Hhi Hfuel. unfold forgetBlobsForKeyId.
  apply forgetBlobsLoop_removes; assumption.
Qed.

End CloseProperties.

Lemma closeBlobs_closes_each_witness :
  let c := mkConnStruct
             (mkConn [] [] [] [] true 0 9 [Some SQLITE_IOERR; None] [])
             [(mkValueKey 1 0, mkBlob 1 16 false false);
              (mkValueKey 1 16, mkBlob 2 16 false false)] 16 in
  closeBlobs ModelHandles.blobClose 3 c
  = match closeEach ModelHandles.blobClose (map snd (blobs c)) (sqliteConn c)
    with
    | Ret _ sc' => Ret tt (mkConnStruct sc' [] (maxBlobSize c))
    | Panic v => Panic v
    | OutOfFuel => OutOfFuel
    end.
Proof.
  intros c. apply (@closeBlobs_closes_each ModelHandles.blobClose 3 c).
  simpl. lia.
Defined.

(** Two handles, the first closing refused: both are closed, the map is
    empty and the refusal is not reported. *)
Example closeBlobs_two_handles :
  closeBlobs ModelHandles.blobClose 3
             (mkConnStruct
                (mkConn [] [] [] [] true 0 9 [Some SQLITE_IOERR; None] [])
                [(mkValueKey 1 0, mkBlob 1 16 false false);
                 (mkValueKey 1 16, mkBlob 2 16 false false)] 16)
  = Ret tt (mkConnStruct (mkConn [] [] [] [] true 0 9 [] []) [] 16).
Proof. vm_compute. reflexivity. Qed.

Lemma forgetBlobsForKeyId_removes_witness :
  let lo := [(mkValueKey 0 5, mkBlob 9 1 false false)] in
  let mid := [(mkValueKey 1 0, mkBlob 1 16 false false);
              (mkValueKey 1 16, mkBlob 2 16 false false)] in
  let hi := [(mkValueKey 2 0, mkBlob 3 4 false false)] in
  let c := mkConnStruct
             (mkConn [] [] [] [] true 0 9 [Some SQLITE_IOERR; None] [])
             (lo ++ mid ++ hi) 16 in
  forgetBlobsForKeyId ModelHandles.blobClose 3 1 c
  = match closeJoin ModelHandles.blobClose (map snd mid) [] (sqliteConn c) with
    | Ret errs sc' => Ret errs (mkConnStruct sc' (lo ++ hi) (maxBlobSize c))
    | Panic v => Panic v
    | OutOfFuel => OutOfFuel
    end.
Proof.
  intros lo mid hi c.
  apply (@forgetBlobsForKeyId_removes ModelHandles.blobClose 3 1 c lo mid hi).
  - reflexivity.
  - repeat constructor.
  - repeat constructor; simpl; lia.
  - simpl. split; [discriminate | lia].
  - simpl. lia.
Defined.

(** The handles of key 1 forgotten: the refusal of the first closing is
    the error returned, the entries of the keys 0 and 2 stay. *)
Example forgetBlobsForKeyId_key_1 :
  forgetBlobsForKeyId ModelHandles.blobClose 3 1
    (mkConnStruct
       (mkConn [] [] [] [] true 0 9 [Some SQLITE_IOERR; None] [])
       [(mkValueKey 0 5, mkBlob 9 1 false false);
        (mkValueKey 1 0, mkBlob 1 16 false false);
        (mkValueKey 1 16, mkBlob 2 16 false false);
        (mkValueKey 2 0, mkBlob 3 4 false false)] 16)
  = Ret [SqliteError SQLITE_IOERR]
        (mkConnStruct (mkConn [] [] [] [] true 0 9 [] [])
                      [(mkValueKey 0 5, mkBlob 9 1 false false);
                       (mkValueKey 2 0, mkBlob 3 4 false false)] 16).
Proof. vm_compute. reflexivity. Qed.

(** An entry of the key at a negative offset is below [(kid, 0)], where the
    loop seeks: it is not forgotten. *)
Example forgetBlobsForKeyId_negative_offset :
  forgetBlobsForKeyId ModelHandles.blobClose 3 1
    (mkConnStruct
       (mkConn [] [] [] [] true 0 9 [] [])
       [(mkValueKey 1 (-4), mkBlob 9 1 false false);
        (mkValueKey 1 0, mkBlob 1 16 false false)] 16)
  = Ret []
        (mkConnStruct (mkConn [] [] [] [] true 0 9 [] [])
                      [(mkValueKey 1 (-4), mkBlob 9 1 false false)] 16).
Proof. vm_compute. reflexivity. Qed.

(** ** More on [accessedKey] and [Reopen] *)

(** X13.  [accessedKey] swallows no refusal but [BUSY]: a refusal of the
    update with another result code is returned as the engine's error
    whether [ignoreBusy] is set or not.  And an update the engine accepts
    for a [key_id] that no row has leaves [keys] as it was and returns
    [nil]. *)
Theorem accessedKey_other_outcomes (keyId : rowid) (ignoreBusy : bool)
        (c : connStruct) :
  (forall code, code <> SQLITE_BUSY -> nextRefused code (sqliteConn c) ->
   exists c', accessedKey keyId ignoreBusy c
              = Ret (Some (SqliteError code)) c'
              /\ tbl_keys (sqliteConn c') = tbl_keys (sqliteConn c))
  /\ (nextAccepted (sqliteConn c) ->
      Forall (fun r => key_id r <> keyId) (tbl_keys (sqliteConn c)) ->
      exists c', accessedKey keyId ignoreBusy c = Ret None c'
                 /\ tbl_keys (sqliteConn c') = tbl_keys (sqliteConn c)).
Proof.
  split.
  - intros code Hcode [fs Hfs]. eexists.
    unfold accessedKey, sqliteExec, sqliteQuery, Exec, bind, step.
    cbn [faults set_log]. rewrite Hfs. unfold ret. cbv beta iota.
    cbn [IsResultCode ErrIsResultCode].
    replace (ResultCode_eqb code SQLITE_BUSY) with false
      by (symmetry; apply Z.eqb_neq; exact Hcode).
    rewrite andb_false_r. split; reflexivity.
  - intros Hacc Hnone. eexists.
    unfold accessedKey, sqliteExec, sqliteQuery, Exec, bind.
    rewrite step_accepted by exact Hacc. cbn [run fst snd].
    split; [destruct ignoreBusy; reflexivity|].
    cbn [sqliteConn set_sqliteConn tbl_keys set_keys set_faults logged set_log
         now_ms].
    induction Hnone as [|r l Hr _ IH]; [reflexivity|].
    cbn [map]. rewrite IH. f_equal.
    unfold touchKey. apply Z.eqb_neq in Hr. rewrite Hr. reflexivity.
Qed.

Lemma accessedKey_other_outcomes_witness :
  exists c',
    accessedKey 1 true
      (mkConnStruct
         (mkConn [mkKeyRow 1 "a" 60 5 0] [] [] [] true 0 9
                 [Some SQLITE_FULL] []) [] 16)
    = Ret (Some (SqliteError SQLITE_FULL)) c'
    /\ tbl_keys (sqliteConn c') = [mkKeyRow 1 "a" 60 5 0].
Proof.
  apply (proj1 (accessedKey_other_outcomes 1 true
                  (mkConnStruct
                     (mkConn [mkKeyRow 1 "a" 60 5 0] [] [] [] true 0 9
                             [Some SQLITE_FULL] []) [] 16)) SQLITE_FULL).
  - discriminate.
  - exists []. reflexivity.
Defined.

(** X14.  When the lookup of the name finds a row [r], the handle is not
    aborted, the engine accepts the reopening and [blobs] has a row of
    rowid [r], [Reopen] returns [nil] and the handle is on that row:
    [Length] is then the length of that row's payload, and the handle
    keeps its mode and is not aborted. *)
Theorem Reopen_then_Length
        (rowidForBlob : string -> M sqlite_Conn (rowid * Z * bool * error))
        (name : string) (c c1 : sqlite_Conn) (b : sqlite_Blob)
        (r : rowid) (len : Z) (row : blobRow) :
  rowidForBlob name c = Ret (r, len, true, None) c1 ->
  blob_aborted b = false ->
  nextAccepted c1 ->
  find (fun x => blob_id x =? r) (tbl_blobs c1) = Some row ->
  exists c2 b',
    Reopen rowidForBlob name (c, b) = Ret None (c2, b')
    /\ blob_rowid b' = r
    /\ PinnedLength b' = blob_length row
    /\ blob_write b' = blob_write b
    /\ blob_aborted b' = false
    /\ sameRows c1 c2.
Proof.
  intros Hlook Hb Hacc Hfind.
  unfold Reopen. rewrite Hlook. cbn [isErr negb].
  unfold BlobReopen. rewrite Hb.
  rewrite step_accepted by exact Hacc. cbn [run fst snd].
  cbn [tbl_blobs set_faults logged set_log]. rewrite Hfind.
  eexists. eexists. split; [reflexivity|]. repeat split.
Qed.

Lemma Reopen_then_Length_witness :
  exists c2 b',
    Reopen Model.rowidForBlob "y"
           (mkConn [mkKeyRow 2 "y" 5 0 0]
                   [mkBlobRow 1 (zeroblob 9); mkBlobRow 2 (zeroblob 5)]
                   [] [] true 0 9 [] [],
            mkBlob 1 9 true false)
    = Ret None (c2, b')
    /\ blob_rowid b' = 2
    /\ PinnedLength b' = blob_length (mkBlobRow 2 (zeroblob 5))
    /\ blob_write b' = true
    /\ blob_aborted b' = false
    /\ sameRows (mkConn [mkKeyRow 2 "y" 5 0 0]
                        [mkBlobRow 1 (zeroblob 9); mkBlobRow 2 (zeroblob 5)]
                        [] [] true 0 9 [] [SqlSelectKey "y"]) c2.
Proof.
  apply (@Reopen_then_Length Model.rowidForBlob "y"
           (mkConn [mkKeyRow 2 "y" 5 0 0]
                   [mkBlobRow 1 (zeroblob 9); mkBlobRow 2 (zeroblob 5)]
                   [] [] true 0 9 [] [])
           (mkConn [mkKeyRow 2 "y" 5 0 0]
                   [mkBlobRow 1 (zeroblob 9); mkBlobRow 2 (zeroblob 5)]
                   [] [] true 0 9 [] [SqlSelectKey "y"])
           (mkBlob 1 9 true false) 2 5 (mkBlobRow 2 (zeroblob 5))).
  - reflexivity.
  - reflexivity.
  - reflexivity.
  - reflexivity.
Defined.

(** ** The checks of [initDatabase] before the capacity directive *)

Section InitDatabaseChecks.

Variable setAndVerifyPragma : string -> PragmaValue -> M sqlite_Conn error.
Variable setAndMaybeVerifyPragma :
  string -> string -> Option string -> M sqlite_Conn error.
Variable execTransientReturningText :
  string -> M sqlite_Conn (Option string * error).
Variable ExecScript : string -> M sqlite_Conn error.
Variable WithTransactionRollbackOnError :
  string -> M sqlite_Conn error -> M sqlite_Conn error.
Variables initScript initTriggers : string.

Let initDatabase' :=
  initDatabase setAndVerifyPragma setAndMaybeVerifyPragma
               execTransientReturningText ExecScript
               WithTransactionRollbackOnError initScript initTriggers.
Let InitSchema' :=
  InitSchema setAndVerifyPragma ExecScript WithTransactionRollbackOnError
             initScript initTriggers.

(** X15.  With [RequireAutoVacuum] set and [SetAutoVacuum] not, the
    database is only checked: [initDatabase] reads [pragma auto_vacuum],
    and when the value read is not the required one it returns the error
    [fmt.Errorf("auto_vacuum is %q not %q", read, required)] from the
    state the read left: the schema is not initialised and no capacity is
    written, whatever the other options are. *)
Theorem initDatabase_required_auto_vacuum
        (opts : InitDbOpts) (c c1 : sqlite_Conn) (actual : string) :
  Ok (SetAutoVacuum opts) = false ->
  Ok (RequireAutoVacuum opts) = true ->
  execTransientReturningText "pragma auto_vacuum" c
  = Ret (mkOption true actual, None) c1 ->
  actual <> Value (RequireAutoVacuum opts) ->
  initDatabase' opts c
  = Ret (Some (Errorf "auto_vacuum is %q not %q"
                      [actual; Value (RequireAutoVacuum opts)])) c1.
Proof.
  intros Hset Hreq Hread Hne.
  unfold initDatabase', initDatabase. rewrite Hset, Hreq.
  unfold orReturn at 1. unfold bind at 1. unfold bind at 1.
  rewrite Hread. cbn [isErr]. unfold Unwrap, bind. cbn [Ok Value ret].
  apply String.eqb_neq in Hne. rewrite Hne. reflexivity.
Qed.

(** X16.  Without auto-vacuum options: when [InitSchema] fails,
    [initDatabase] returns its error wrapped as ["initing schema: ..."]
    from the state [InitSchema] left, and the capacity directive is not
    run, whatever [Capacity] is; and with [DontInitSchema] set and
    [Capacity] zero, [initDatabase] returns [nil] and the connection as it
    was, none of its helpers being called. *)
Theorem initDatabase_schema_step (opts : InitDbOpts) (c : sqlite_Conn) :
  Ok (SetAutoVacuum opts) = false ->
  Ok (RequireAutoVacuum opts) = false ->
  (forall e c1,
     DontInitSchema opts = false ->
     InitSchema' (PageSize opts) (negb (NoTriggers opts)) c
     = Ret (Some e) c1 ->
     initDatabase' opts c = Ret (Some (Wrapf "initing schema" e)) c1)
  /\ (DontInitSchema opts = true -> Capacity opts = 0 ->
      initDatabase' opts c = Ret None c).
Proof.
  intros Hset Hreq.
  unfold initDatabase', InitSchema', initDatabase. rewrite Hset, Hreq.
  split.
  - intros e c1 Hdont Hschema. rewrite Hdont. cbn [negb].
    unfold orReturn at 1. unfold bind at 1. cbn [ret isErr].
    unfold orReturnWith at 1. unfold bind at 1. rewrite Hschema.
    reflexivity.
  - intros Hdont Hcap. rewrite Hdont, Hcap. reflexivity.
Qed.

End InitDatabaseChecks.

Lemma initDatabase_required_auto_vacuum_witness :
  initDatabase Model.setAndVerifyPragma Model.setAndMaybeVerifyPragma
               (Model.answering "0") Model.ExecScript
               Model.WithTransactionRollbackOnError "" ""
               (mkInitDbOpts (mkOption false "") (mkOption true "2") false 0
                             false 100)
               Model.emptyDb
  = Ret (Some (Errorf "auto_vacuum is %q not %q" ["0"; "2"]%string))
        Model.emptyDb.
Proof.
  apply (@initDatabase_required_auto_vacuum
           Model.setAndVerifyPragma Model.setAndMaybeVerifyPragma
           (Model.answering "0") Model.ExecScript
           Model.WithTransactionRollbackOnError "" ""
           (mkInitDbOpts (mkOption false "") (mkOption true "2") false 0
                         false 100)
           Model.emptyDb Model.emptyDb "0").
  - reflexivity.
  - reflexivity.
  - reflexivity.
  - discriminate.
Defined.

Lemma initDatabase_schema_step_witness :
  initDatabase Model.setAndVerifyPragma Model.setAndMaybeVerifyPragma
               (Model.answering "0") Model.ExecScript
               Model.WithTransactionRollbackOnError "" ""
               (mkInitDbOpts (mkOption false "") (mkOption false "") true 0
                             false 0)
               Model.emptyDb
  = Ret None Model.emptyDb.
Proof.
  apply (proj2 (@initDatabase_schema_step
                  Model.setAndVerifyPragma Model.setAndMaybeVerifyPragma
                  (Model.answering "0") Model.ExecScript
                  Model.WithTransactionRollbackOnError "" ""
                  (mkInitDbOpts (mkOption false "") (mkOption false "") true 0
                                false 0)
                  Model.emptyDb eq_refl eq_refl)).
  - reflexivity.
  - reflexivity.
Defined.

(** ** A value created, then iterated *)

Lemma fold_max_ge (rest : list Z) :
  forall i x, In x (i :: rest) -> x <= fold_right Z.max i rest.
Proof.
  induction rest as [|y rest IH]; intros i x Hin.
  - destruct Hin as [E|[]]. subst. cbn. lia.
  - cbn [fold_right]. destruct Hin as [E|[E|Hin]].
    + subst. pose proof (IH x x (or_introl eq_refl)). lia.
    + subst. lia.
    + pose proof (IH i x (or_intror Hin)). lia.
Qed.

Lemma nextRowid_above (ids : list rowid) x :
  In x ids -> x < nextRowid ids.
Proof.
  destruct ids as [|i rest]; [intros []|]. intros Hin.
  unfold nextRowid. pose proof (@fold_max_ge rest i x Hin). lia.
Qed.

Lemma insertByOffset_end r (acc : list valueRow) :
  Forall (fun x => value_offset x <= value_offset r) acc ->
  insertByOffset r acc = acc ++ [r].
Proof.
  induction 1 as [|x acc Hx _ IH]; [reflexivity|].
  cbn [insertByOffset app].
  replace (value_offset r <? value_offset x) with false
    by (symmetry; apply Z.ltb_ge; exact Hx).
  rewrite IH. reflexivity.
Qed.

Section ChunkRows.

Variables (len m : Z) (kid b0 : rowid).
Hypothesis Hm : 0 < m.

Lemma orderBy_chunks :
  forall (n i0 : nat) (acc : list valueRow),
    Forall (fun x => value_offset x < Z.of_nat i0 * m) acc ->
    fold_left (fun a r => insertByOffset r a)
              (map (chunkValue m kid b0) (seq i0 n)) acc
    = acc ++ map (chunkValue m kid b0) (seq i0 n).
Proof.
  induction n as [|n IH]; intros i0 acc Hacc.
  - cbn. rewrite app_nil_r. reflexivity.
  - cbn [seq map fold_left].
    rewrite insertByOffset_end.
    + rewrite IH.
      * rewrite <- app_assoc. reflexivity.
      * apply Forall_app. split.
        -- eapply Forall_impl; [|exact Hacc]. cbn beta. intros x Hx. lia.
        -- constructor; [|constructor]. cbn [value_offset chunkValue]. lia.
    + eapply Forall_impl; [|exact Hacc]. cbn [value_offset chunkValue].
      intros x Hx. lia.
Qed.

Lemma filter_chunks_at (i : nat) (P : blobRow -> bool) :
  P (chunkBlob len m b0 i) = true ->
  forall (n s : nat),
    filter (fun b => (blob_id b =? b0 + Z.of_nat i) && P b)
           (map (chunkBlob len m b0) (seq s n))
    = if ((s <=? i)%nat && (i <? s + n)%nat)%bool
      then [chunkBlob len m b0 i] else [].
Proof.
  intros HP. induction n as [|n IH]; intros s.
  - cbn [seq map filter].
    destruct (Nat.leb_spec s i); destruct (Nat.ltb_spec i (s + 0));
      cbn; reflexivity || lia.
  - cbn [seq map filter]. rewrite IH. cbn [blob_id chunkBlob].
    destruct (Z.eqb_spec (b0 + Z.of_nat s) (b0 + Z.of_nat i)) as [E|E].
    + assert (s = i) by lia. subst s. fold (chunkBlob len m b0 i).
      rewrite HP. cbn [andb].
      destruct (Nat.leb_spec i i); [|lia].
      destruct (Nat.ltb_spec i (i + Datatypes.S n)); [|lia].
      destruct (Nat.leb_spec (Datatypes.S i) i); [lia|]. reflexivity.
    + cbn [andb].
      destruct (Nat.leb_spec s i); destruct (Nat.ltb_spec i (s + Datatypes.S n));
        destruct (Nat.leb_spec (Datatypes.S s) i);
        destruct (Nat.ltb_spec i (Datatypes.S s + n));
        cbn [andb]; reflexivity || lia.
Qed.

Lemma find_chunk (B : list blobRow) (n i : nat) :
  Forall (fun b => blob_id b < b0) B -> (i < n)%nat ->
  find (fun row => blob_id row =? b0 + Z.of_nat i)
       (B ++ map (chunkBlob len m b0) (seq 0 n))
  = Some (chunkBlob len m b0 i).
Proof.
  intros HB Hi. induction HB as [|b B Hb _ IH].
  - cbn [app].
    assert (Hgen : forall k s, (s <= i < s + k)%nat ->
              find (fun row => blob_id row =? b0 + Z.of_nat i)
                   (map (chunkBlob len m b0) (seq s k))
              = Some (chunkBlob len m b0 i)).
    { induction k as [|k IHk]; intros s Hs; [lia|].
      cbn [seq map find]. cbn [blob_id chunkBlob].
      destruct (Z.eqb_spec (b0 + Z.of_nat s) (b0 + Z.of_nat i)) as [E|E].
      - assert (s = i) by lia. subst s. reflexivity.
      - apply IHk. lia. }
    apply Hgen. lia.
  - cbn [app find].
    replace (blob_id b =? b0 + Z.of_nat i) with false
      by (symmetry; apply Z.eqb_neq; lia).
    exact IH.
Qed.

End ChunkRows.

Lemma filter_all {A} (f : A -> bool) (l : list A) :
  Forall (fun x => f x = true) l -> filter f l = l.
Proof.
  induction 1 as [|x l Hx _ IH]; [reflexivity|].
  cbn. rewrite Hx, IH. reflexivity.
Qed.

Lemma Upsert_fresh k v (m : BTree.Map) :
  Forall (fun e => fst e <> k) m ->
  snd (BTree.Upsert k v m) = false
  /\ In (k, v) (fst (BTree.Upsert k v m))
  /\ (forall e, In e (fst (BTree.Upsert k v m)) -> e = (k, v) \/ In e m).
Proof.
  induction 1 as [|[k' v'] m Hx _ IH]; cbn [BTree.Upsert].
  - cbn. repeat split; auto. intros e [<-|[]]. left. reflexivity.
  - cbn [fst] in Hx.
    destruct (valueKey_compare k k') eqn:E.
    + exfalso. apply Hx. unfold valueKey_compare in E.
      destruct (Z.compare_spec (keyId k) (keyId k')); try discriminate E.
      apply Z.compare_eq in E. destruct k, k'; cbn in *; congruence.
    + cbn [fst snd]. split; [reflexivity|]. split; [left; reflexivity|].
      intros e [<-|He]; [left; reflexivity|right; exact He].
    + destruct (BTree.Upsert k v m) as [m'' r]. cbn [fst snd] in *.
      destruct IH as (Hr & Hin & Hsub).
      split; [exact Hr|]. split; [right; exact Hin|].
      intros e [<-|He]; [right; left; reflexivity|].
      destruct (Hsub e He) as [->|H']; [left; reflexivity|right; right; exact H'].
Qed.

Section CreatedValue.

Variables (len m : Z) (kid b0 : rowid) (n : nat).
Variables (V : list valueRow) (B : list blobRow).
Variable iter : iterFunc.
Variable write : bool.

Hypothesis Hm : 0 < m.
Hypothesis Hn : forall i : nat, (i < n)%nat -> Z.of_nat i * m < len.
Hypothesis HV : Forall (fun v => value_id v <> kid) V.
Hypothesis HB : Forall (fun b => blob_id b < b0) B.
Hypothesis Hiter : looksOn iter.

Lemma selectBlobs_chunks (sc : sqlite_Conn) :
  tbl_values sc = V ++ map (chunkValue m kid b0) (seq 0 n) ->
  tbl_blobs sc = B ++ map (chunkBlob len m b0) (seq 0 n) ->
  selectBlobs kid 0 sc = map (chunkValue m kid b0) (seq 0 n).
Proof.
  intros Hv Hb. unfold selectBlobs. rewrite Hv, Hb.
  rewrite filter_app.
  rewrite (@filter_none _ (fun v => value_id v =? kid) V)
    by (eapply Forall_impl; [|exact HV]; intros v H; apply Z.eqb_neq; exact H).
  rewrite filter_all
    by (apply Forall_forall; intros v Hin; apply in_map_iff in Hin;
        destruct Hin as (i & <- & _); apply Z.eqb_refl).
  cbn [app].
  assert (Hflat :
    forall ixs : list nat,
      Forall (fun i => (i < n)%nat) ixs ->
      flat_map
        (fun v =>
           map (fun _ : blobRow => v)
               (filter (fun b => (blob_id b =? value_blob_id v)
                                 && (value_offset v + blob_length b >? 0))
                       (B ++ map (chunkBlob len m b0) (seq 0 n))))
        (map (chunkValue m kid b0) ixs)
      = map (chunkValue m kid b0) ixs).
  { induction 1 as [|i ixs Hi _ IH]; [reflexivity|].
    cbn [map flat_map]. rewrite IH. cbn [value_blob_id value_offset chunkValue].
    rewrite filter_app.
    rewrite (@filter_none _ _ B)
      by (eapply Forall_impl; [|exact HB]; cbn beta; intros b Hb';
          replace (blob_id b =? b0 + Z.of_nat i) with false
            by (symmetry; apply Z.eqb_neq; lia);
          reflexivity).
    rewrite (@filter_chunks_at len m b0 i
               (fun b => Z.of_nat i * m + blob_length b >? 0)).
    - replace ((0 <=? i)%nat && (i <? 0 + n)%nat)%bool with true
        by (symmetry; apply andb_true_intro; split;
            [apply Nat.leb_le; lia | apply Nat.ltb_lt; lia]).
      reflexivity.
    - specialize (Hn Hi). rewrite blob_length_chunk by lia.
      apply Z.gtb_lt. lia. }
  rewrite Hflat by (apply Forall_forall; intros i Hi; apply in_seq in Hi; lia).
  unfold orderByOffset.
  rewrite (@orderBy_chunks m kid b0 Hm n 0%nat []) by constructor.
  reflexivity.
Qed.

Lemma open_chunk (write' : bool) (i : nat) (sc : sqlite_Conn) :
  (i < n)%nat ->
  faults sc = [] ->
  tbl_blobs sc = B ++ map (chunkBlob len m b0) (seq 0 n) ->
  Model.openSqliteBlob (b0 + Z.of_nat i) write' sc
  = Ret (chunkHandle len m b0 write' i, None)
        (logged (SqlBlobOpen (b0 + Z.of_nat i)) sc).
Proof.
  intros Hi Hf Hb. unfold Model.openSqliteBlob.
  rewrite step_nofault by exact Hf. cbn [run fst snd].
  cbn [tbl_blobs logged set_log]. rewrite Hb.
  rewrite (@find_chunk len m b0 B n i HB) by exact Hi.
  rewrite blob_length_chunk by (specialize (Hn Hi); lia).
  reflexivity.
Qed.

(** The rows of the chunks from the index [i0] on, handled by the row
    function of [iterBlobs]. *)
Lemma rows_of_chunks :
  forall (k i0 : nat) (c : connStruct),
    (i0 + k <= n)%nat ->
    faults (sqliteConn c) = [] ->
    tbl_blobs (sqliteConn c) = B ++ map (chunkBlob len m b0) (seq 0 n) ->
    Forall (fun e => keyId (fst e) = kid -> offset (fst e) < Z.of_nat i0 * m)
           (blobs c) ->
    exists c2,
      forRows (iterBlobsRow Model.openSqliteBlob kid iter write)
              (map (fun v => [VInt (value_offset v); VInt (value_blob_id v)])
                   (map (chunkValue m kid b0) (seq i0 k)))
              true c
      = Ret (None, true) c2
      /\ sqliteConn c2
         = visitChunks iter len m b0 write (seq i0 k) (sqliteConn c)
      /\ (forall i, (i0 <= i < i0 + k)%nat ->
                    In (mkValueKey kid (Z.of_nat i * m),
                        chunkHandle len m b0 write i) (blobs c2))
      /\ incl (blobs c) (blobs c2).
Proof.
  induction k as [|k IH]; intros i0 c Hle Hf Hb Hmap.
  - exists c. cbn [seq map forRows visitChunks ret].
    split; [reflexivity|]. split; [reflexivity|].
    split; [intros i Hi; lia | apply incl_refl].
  - cbn [seq map forRows visitChunks].
    cbn [value_offset value_blob_id chunkValue].
    unfold bind at 1. unfold iterBlobsRow at 1. cbn [negb].
    change (ColumnInt64 [VInt (Z.of_nat i0 * m); VInt (b0 + Z.of_nat i0)] 0)
      with (Z.of_nat i0 * m).
    change (ColumnInt64 [VInt (Z.of_nat i0 * m); VInt (b0 + Z.of_nat i0)] 1)
      with (b0 + Z.of_nat i0).
    unfold bind at 1. unfold openBlob, liftConn at 1.
    rewrite open_chunk by (lia || assumption).
    cbn [isErr]. unfold bind at 1. unfold bind at 1, get at 1.
    cbn [blobs set_sqliteConn].
    destruct (@Upsert_fresh (mkValueKey kid (Z.of_nat i0 * m))
                (chunkHandle len m b0 write i0) (blobs c))
      as (Hrep & Hin & Hsub).
    { eapply Forall_impl; [|exact Hmap]. cbn beta. intros e He E.
      rewrite E in He. cbn [keyId offset] in He. specialize (He eq_refl). lia. }
    pose proof (@Upsert_keeps (mkValueKey kid (Z.of_nat i0 * m))
                  (chunkHandle len m b0 write i0) (blobs c)) as Hkeep.
    destruct (BTree.Upsert _ _ (blobs c)) as [m' r]. cbn [fst snd] in *.
    subst r. unfold bind at 1, put at 1. cbn [ret].
    unfold bind at 1. unfold liftConn at 1.
    cbn [sqliteConn set_blobsMap set_sqliteConn].
    destruct (Hiter (Z.of_nat i0 * m) (chunkHandle len m b0 write i0)
                    (logged (SqlBlobOpen (b0 + Z.of_nat i0)) (sqliteConn c)))
      as (sc' & Hcb & Hb' & Hf').
    unfold logged in Hcb |- *.
    rewrite Hcb. cbv beta iota. cbn [isErr ret].
    fold (logged (SqlBlobOpen (b0 + Z.of_nat i0)) (sqliteConn c)).
    destruct (IH (Datatypes.S i0)
                 (set_sqliteConn sc' (set_blobsMap m'
                    (set_sqliteConn
                       (logged (SqlBlobOpen (b0 + Z.of_nat i0)) (sqliteConn c))
                       c))))
      as (c2 & Hrun & Hsc & Hall & Hincl).
    + lia.
    + cbn [sqliteConn set_sqliteConn]. rewrite Hf'. exact Hf.
    + cbn [sqliteConn set_sqliteConn]. rewrite Hb'. exact Hb.
    + cbn [blobs set_sqliteConn set_blobsMap].
      apply Forall_forall. intros e He Hk.
      destruct (Hsub e He) as [->|Hold].
      * cbn [fst offset]. lia.
      * rewrite Forall_forall in Hmap. specialize (Hmap e Hold Hk). lia.
    + exists c2. split; [exact Hrun|]. split; [exact Hsc|]. split.
      * intros i Hi. destruct (Nat.eq_dec i i0) as [->|Hne].
        -- apply Hincl. cbn [blobs set_sqliteConn set_blobsMap]. exact Hin.
        -- apply Hall. lia.
      * intros e He. apply Hincl. cbn [blobs set_sqliteConn set_blobsMap].
        exact (Hkeep eq_refl e He).
Qed.

End CreatedValue.

(** X17.  A value created, then iterated from its start.  For a key [k]
    that has no row in [keys] and a length [len > 0], with a positive
    [maxBlobSize] [m] (the end of the last chunk being an [int64]), on an
    engine that refuses nothing, when no row of ["values"] and no handle
    of the map carries the id the new key gets, and the callback looks on
    (it returns [more = true] and no error, and leaves the rows of [blobs]
    alone): [createKey k {len}] followed by [iterBlobs] on the new id from
    offset 0 returns [nil]; after the one query, each of the
    [ceil (len / m)] chunks is, in the order of the offsets, opened and
    handed to the callback with its offset [i * m] and a handle of
    [min m (len - i * m)] bytes, and nothing else is handed to the engine;
    each of these handles is then in the map under [(key_id, i * m)], and
    the handles that were in the map are still there. *)
Theorem createKey_then_iterBlobs
        (fuel fuel' : nat) (k : string) (len : Z) (iter : iterFunc)
        (write : bool) (c : connStruct) :
  let m := maxBlobSize c in
  let n := chunkCount len m in
  let b0 := nextRowid (map blob_id (tbl_blobs (sqliteConn c))) in
  let kid := nextRowid (map key_id (tbl_keys (sqliteConn c))) in
  faults (sqliteConn c) = [] ->
  keyAbsent k (sqliteConn c) ->
  0 < len -> 0 < m -> Z.of_nat n * m <= Int64.max_int ->
  Forall (fun v => value_id v <> kid) (tbl_values (sqliteConn c)) ->
  Forall (fun e => keyId (fst e) <> kid) (blobs c) ->
  looksOn iter ->
  (n < fuel)%nat -> (List.length (blobs c) < fuel')%nat ->
  exists c1 c2,
    createKey fuel k (mkCreateOpts len) c = Ret (kid, None) c1
    /\ iterBlobs Model.openSqliteBlob fuel' kid iter write 0 c1 = Ret None c2
    /\ sqliteConn c2
       = visitChunks iter len m b0 write (seq 0 n)
                     (logged (SqlSelectBlobs kid 0) (sqliteConn c1))
    /\ (forall i : nat, (i < n)%nat ->
          In (mkValueKey kid (Z.of_nat i * m), chunkHandle len m b0 write i)
             (blobs c2))
    /\ incl (blobs c) (blobs c2).
Proof.
  intros m n b0 kid Hf Ha Hlen Hm Hov HV Hmap Hiter Hfuel Hfuel'.
  destruct (@createKeyLoop_rounds kid len b0 n 0%nat fuel
              (afterInsertKey k len c))
    as (c1 & Hrun & Hbl & _ & Hf1 & _ & Hb & Hv & _).
  - exact Hf.
  - exact Hm.
  - change (maxBlobSize (afterInsertKey k len c)) with m. cbn [Nat.add].
    exact Hov.
  - change (maxBlobSize (afterInsertKey k len c)) with m. cbn [Nat.add].
    destruct (Z.le_gt_cases len (Z.of_nat n * m)) as [H|H]; [exact H|].
    exfalso. apply (chunkCount_spec n Hm Hlen) in H. fold n in H. lia.
  - intros Hn. change (maxBlobSize (afterInsertKey k len c)) with m.
    cbn [Nat.add].
    assert (H : (Nat.pred n < chunkCount len m)%nat) by (fold n; lia).
    apply (chunkCount_spec _ Hm Hlen) in H.
    replace (Z.of_nat n - 1) with (Z.of_nat (Nat.pred n)) by lia. exact H.
  - cbn. fold b0. lia.
  - exact Hfuel.
  - change (maxBlobSize (afterInsertKey k len c)) with m in *.
    change (blobs (afterInsertKey k len c)) with (blobs c) in Hbl.
    change (tbl_blobs (sqliteConn (afterInsertKey k len c)))
      with (tbl_blobs (sqliteConn c)) in Hb.
    change (tbl_values (sqliteConn (afterInsertKey k len c)))
      with (tbl_values (sqliteConn c)) in Hv.
    cbn [Z.of_nat Z.mul] in Hrun.
    assert (Hn : forall i : nat, (i < n)%nat -> Z.of_nat i * m < len)
      by (intros i Hi; apply (chunkCount_spec i Hm Hlen); exact Hi).
    assert (HB : Forall (fun b => blob_id b < b0) (tbl_blobs (sqliteConn c))).
    { apply Forall_forall. intros b Hin. apply nextRowid_above.
      apply in_map. exact Hin. }
    destruct (@rows_of_chunks len m kid b0 n
                (tbl_blobs (sqliteConn c)) iter write Hm Hn HB Hiter
                n 0%nat
                (set_sqliteConn
                   (logged (SqlSelectBlobs kid 0) (sqliteConn c1)) c1))
      as (c2 & Hrows & Hsc & Hall & Hincl).
    + lia.
    + exact Hf1.
    + exact Hb.
    + cbn [blobs set_sqliteConn]. rewrite Hbl.
      eapply Forall_impl; [|exact Hmap]. cbn beta. intros e He E.
      contradiction.
    + exists c1, c2.
      split.
      { rewrite createKey_absent by assumption. cbn [Length].
        fold kid. rewrite Hrun. reflexivity. }
      split.
      { unfold iterBlobs. unfold bind at 1, get at 1. cbv iota beta.
        rewrite iterBlobsSeek_pos. unfold bind at 1.
        rewrite cached_from_seek by (rewrite Hbl; exact Hfuel').
        assert (Hwalk :
          forall l : BTree.Map,
            (l = [] \/ exists e rest, l = e :: rest /\ In e (blobs c1)) ->
            walkCached kid iter l 0 c1 = Ret (inr 0) c1).
        { intros l [->|(e & rest & -> & Hin)]; [reflexivity|].
          destruct e as [k' h]. cbn [walkCached].
          rewrite Hbl in Hin.
          rewrite Forall_forall in Hmap. specialize (Hmap _ Hin).
          cbn [fst] in Hmap.
          apply Z.eqb_neq in Hmap. rewrite Hmap. reflexivity. }
        rewrite Hwalk by apply suffixBefore_head. cbn [exitOf].
        unfold bind, sqliteQuery, Exec.
        rewrite step_nofault by exact Hf1. cbn [run fst snd].
        rewrite (@selectBlobs_chunks len m kid b0 n
                   (tbl_values (sqliteConn c)) (tbl_blobs (sqliteConn c))
                   Hm Hn HV HB) by assumption.
        rewrite Hrows. reflexivity. }
      split; [exact Hsc|].
      split.
      { intros i Hi. apply Hall. lia. }
      { intros e He. apply Hincl. cbn [blobs set_sqliteConn].
        rewrite Hbl. exact He. }
Qed.

Lemma createKey_then_iterBlobs_witness :
  let iter : iterFunc := fun _ _ => ret (true, None) in
  exists c1 c2,
    createKey 4 "k" (mkCreateOpts 40) (Model.emptyConn 16) = Ret (1, None) c1
    /\ iterBlobs Model.openSqliteBlob 1 1 iter false 0 c1 = Ret None c2
    /\ sqliteConn c2
       = visitChunks iter 40 16 1 false (seq 0 3)
                     (logged (SqlSelectBlobs 1 0) (sqliteConn c1))
    /\ (forall i : nat, (i < 3)%nat ->
          In (mkValueKey 1 (Z.of_nat i * 16), chunkHandle 40 16 1 false i)
             (blobs c2))
    /\ incl (blobs (Model.emptyConn 16)) (blobs c2).
Proof.
  intros iter.
  apply (@createKey_then_iterBlobs 4 1 "k" 40 iter false (Model.emptyConn 16)).
  - reflexivity.
  - intros r [].
  - lia.
  - reflexivity.
  - vm_compute. discriminate.
  - constructor.
  - constructor.
  - intros off b sc. exists sc. repeat split.
  - vm_compute. lia.
  - simpl. lia.
Defined.

(** Three chunks of a value of 40 bytes, created and then iterated: the
    statements the engine is handed, and the handles the map then holds. *)
Example createKey_then_iterBlobs_40_by_16 :
  let iter : iterFunc := fun _ _ => ret (true, None) in
  match (' (kid, _) <- createKey 4 "k" (mkCreateOpts 40) ;;
         iterBlobs Model.openSqliteBlob 1 kid iter false 0)
          (Model.emptyConn 16) with
  | Ret err c2 =>
      err = None
      /\ skipn 8 (log (sqliteConn c2))
         = [SqlSelectBlobs 1 0; SqlBlobOpen 1; SqlBlobOpen 2; SqlBlobOpen 3]
      /\ blobs c2
         = [(mkValueKey 1 0, mkBlob 1 16 false false);
            (mkValueKey 1 16, mkBlob 2 16 false false);
            (mkValueKey 1 32, mkBlob 3 8 false false)]
  | _ => False
  end.
Proof. vm_compute. repeat split. Qed.
